(** * execute_batch_scheduler: workload-manager backends and the execute magic

    A shallow embedding of [execute_batch_scheduler/backends.py] and
    [execute_batch_scheduler/execute_magic.py].

    - Python [str]/[bytes] values are [string] (ASCII); [None] is [None] of an
      [option]; a 2-tuple is a pair.
    - A manager instance is the record [mgr]; an attribute that some path can
      read before it was ever assigned is an [option] whose [None] means
      "attribute not set" (reading it raises [AttributeError]).
    - Everything outside the two source files (the operating system, child
      processes, the scheduler commands, the file system, argparse, the
      generated configuration module) is the record [environment]: each
      oracle sees the chronological trace of the events so far, so its answer
      may change from one call to the next.
    - Methods are computations in the monad [M]: a state transformer over
      [state] (the instance, the event trace, the caller's namespace) whose
      result is a value, a raised exception, or non-termination. *)

From Stdlib Require Import ZArith String Ascii List Bool Lia.
From Stdlib Require Import Decimal DecimalPos DecimalString.
From stdpp Require Import gmap strings.
Import ListNotations.
Open Scope string_scope.
Open Scope Z_scope.
Open Scope list_scope.

(* ===================================================================== *)
(** ** Python string primitives *)
(* ===================================================================== *)

Module Py.

(** [s.find(sub)]: lowest index of an occurrence of [sub] in [s], -1 if none. *)
Definition find (s sub : string) : Z :=
  match String.index 0 sub s with
  | Some n => Z.of_nat n
  | None => -1
  end.

(** [s.split(sep)] for a one-character separator: every occurrence splits,
    empty fields are kept, the result is never empty. *)
Fixpoint split (sep : ascii) (s : string) : list string :=
  match s with
  | EmptyString => [EmptyString]
  | String c s' =>
      if Ascii.eqb c sep then EmptyString :: split sep s'
      else match split sep s' with
           | [] => [String c EmptyString]
           | w :: ws => String c w :: ws
           end
  end.

(** [l[-1]] on a list of strings ([IndexError] cannot occur after [split]). *)
Definition last_item (l : list string) : string := List.last l EmptyString.

(** [sep.join(l)] *)
Definition join (sep : string) (l : list string) : string := String.concat sep l.

(** [s.endswith(b'\n')] *)
Fixpoint endswith_newline (s : string) : bool :=
  match s with
  | EmptyString => false
  | String c EmptyString => Ascii.eqb c "010"%char
  | String _ s' => endswith_newline s'
  end.

Fixpoint endswith_slash (s : string) : bool :=
  match s with
  | EmptyString => false
  | String c EmptyString => Ascii.eqb c "/"%char
  | String _ s' => endswith_slash s'
  end.

(** [os.path.join(a, b)] for a relative second component. *)
Definition path_join (a b : string) : string :=
  if String.eqb a EmptyString then b
  else if endswith_slash a then a +:+ b
  else a +:+ "/" +:+ b.

(** [s.replace(old, new)] for a non-empty [old]: every non-overlapping
    occurrence, scanning from the left.  [skip] counts the characters of an
    occurrence that were already consumed. *)
Fixpoint replace_from (old new : string) (skip : nat) (s : string) : string :=
  match s with
  | EmptyString => EmptyString
  | String c s' =>
      match skip with
      | S k => replace_from old new k s'
      | O =>
          if String.prefix old s
          then new +:+ replace_from old new (Nat.pred (String.length old)) s'
          else String c (replace_from old new O s')
      end
  end.

Definition replace (s old new : string) : string := replace_from old new O s.

(** [str(n)] for an integer. *)
Definition str (n : Z) : string := NilZero.string_of_int (Z.to_int n).

(** [repr(s)] for a string without quotes, backslashes or control
    characters (the program names it is applied to). *)
Definition repr (s : string) : string := "'" +:+ s +:+ "'".

(** ASCII white space as skipped by [int()]: TAB, LF, VT, FF, CR, space. *)
Definition is_space (c : ascii) : bool :=
  let n := Z.of_nat (nat_of_ascii c) in
  (((9 <=? n) && (n <=? 13)) || (n =? 32))%Z.

Definition digit_val (c : ascii) : option Z :=
  let n := Z.of_nat (nat_of_ascii c) in
  if ((48 <=? n) && (n <=? 57))%Z then Some (n - 48) else None.

Fixpoint all_space (s : string) : bool :=
  match s with
  | EmptyString => true
  | String c s' => is_space c && all_space s'
  end.

Fixpoint lstrip (s : string) : string :=
  match s with
  | EmptyString => EmptyString
  | String c s' => if is_space c then lstrip s' else s
  end.

(** Digits of a base-10 literal once a first digit was read: further digits,
    single underscores between digits, then only trailing white space. *)
Fixpoint int_digits (s : string) (acc : Z) : option Z :=
  match s with
  | EmptyString => Some acc
  | String c s' =>
      match digit_val c with
      | Some d => int_digits s' (10 * acc + d)
      | None =>
          if Ascii.eqb c "_"%char then
            match s' with
            | String c' s'' =>
                match digit_val c' with
                | Some d => int_digits s'' (10 * acc + d)
                | None => None
                end
            | EmptyString => None
            end
          else if all_space s then Some acc else None
      end
  end.

Definition int_unsigned (s : string) : option Z :=
  match s with
  | String c s' =>
      match digit_val c with
      | Some d => int_digits s' d
      | None => None
      end
  | EmptyString => None
  end.

(** [int(s)] in base 10 on an ASCII string: [None] stands for [ValueError].
    (The interpreter's limit on the number of digits is not modelled.) *)
Definition int (s : string) : option Z :=
  match lstrip s with
  | String c s' =>
      if Ascii.eqb c "-"%char then option_map Z.opp (int_unsigned s')
      else if Ascii.eqb c "+"%char then int_unsigned s'
      else int_unsigned (String c s')
  | EmptyString => None
  end.

(** Truth value of an optional string ([None] and [''] are false). *)
Definition truthy (o : option string) : bool :=
  match o with
  | Some s => negb (String.eqb s EmptyString)
  | None => false
  end.

End Py.

(* ===================================================================== *)
(** ** Exceptions, events, the environment *)
(* ===================================================================== *)

Inductive exn : Type :=
| OSError (errno : Z)          (* FileNotFoundError is [OSError ENOENT] *)
| KeyboardInterrupt
| AttributeError
| NameError
| UnboundLocalError
| TypeError
| ValueError
| IndexError
| KeyError
| CalledProcessError (returncode : Z)
| UsageError
| OtherException (msg : string).

Definition ENOENT : Z := 2.

(** [str(e)] as interpolated by ["%s" % e]. *)
Definition exn_str (e : exn) : string :=
  match e with
  | OSError n => "[Errno " +:+ Py.str n +:+ "]"
  | KeyboardInterrupt => EmptyString
  | AttributeError => "AttributeError"
  | NameError => "NameError"
  | UnboundLocalError => "UnboundLocalError"
  | TypeError => "TypeError"
  | ValueError => "ValueError"
  | IndexError => "IndexError"
  | KeyError => "KeyError"
  | CalledProcessError n => "Command returned non-zero exit status " +:+ Py.str n
  | UsageError => "UsageError"
  | OtherException msg => msg
  end.

Inductive result (A : Type) : Type :=
| Ok (a : A)
| Raise (e : exn)
| Diverges.
Arguments Ok {A} a.
Arguments Raise {A} e.
Arguments Diverges {A}.

Inductive signal : Type := SIGINT | SIGTERM | SIGKILL.

Inductive stream : Type := StdoutPipe | StderrPipe.

(** The three backend classes. *)
Inductive backend : Type := BasicMgr | SSHMgr | SlurmMgr.

(** Values stored in the caller's namespace: an integer (pid, job id) or a
    reference to the manager instance. *)
Inductive nsval : Type :=
| VInt (n : Z)
| VJobMgr.

Inductive event : Type :=
| EStdout (s : string)               (* sys.stdout.write, print *)
| EStdoutFlush
| EStderr (s : string)
| EStderrFlush
| ESleep (ms : Z)                    (* time.sleep, in milliseconds *)
| EPopen (argv : list string)
| ECommunicate (script : string)
| ESignal (sig : signal)
| EPoll
| EReadlines (f : stream)
| ECheckOutput (argv : list string)
| ECheckCall (argv : list string)
| EOpen (path : string)
| ENsSet (key : string) (v : nsval)
| EBackground.                       (* BackgroundJobManager.new(wait_progress, silent=True) *)

(** Options kept by the magic itself. *)
Record exec_args : Type := {
  wlm : string;
  shell : string;
  amgr : option string;
  bg : bool;
}.

(** Options recognised by [SSHMgr.__init__]. *)
Record ssh_args : Type := {
  host : string;
  pid : option string;
}.

(** Options recognised by [SlurmMgr.__init__]. *)
Record slurm_args : Type := {
  jobid : option string;
}.

(** [_DEFAULT_LINE_CMD_ARGS] is a dict keyed by manager name, or a string. *)
Inductive line_cmd_args : Type :=
| ArgsDict (d : gmap string string)
| ArgsStr (s : string).

Record environment : Type := {
  (* child processes *)
  Popen : list event -> list string -> result Z;
  communicate : list event -> string -> result (string * string);
  send_signal : list event -> signal -> result unit;
  poll : list event -> result (option Z);
  readlines : list event -> stream -> result string;
  (* time *)
  sleep : list event -> Z -> result unit;
  (* scheduler commands *)
  check_output : list event -> list string -> result string;
  check_call : list event -> list string -> result unit;
  (* file system: open(path, 'r').read() *)
  open_read : list event -> string -> result string;
  (* os.environ.get('HOME') *)
  environ_HOME : option string;
  (* IPython / argparse *)
  arg_split : string -> list string;
  execute_parser : list string -> result (exec_args * list string);
  ssh_parser : list string -> result (ssh_args * list string);
  slurm_parser : list string -> result (slurm_args * list string);
  (* the generated package module execute_batch_scheduler/__init__.py *)
  _DEFAULT_MGR : string;
  _DEFAULT_LINE_CMD_ARGS : line_cmd_args;
  _DEFAULT_SLURM_OUTERR_FILE : option string;
}.

(* ===================================================================== *)
(** ** Manager instances and the program state *)
(* ===================================================================== *)

Record mgr : Type := {
  cls : backend;
  _waiting_steps : Z;
  _running_steps : Z;
  shebang : string;
  out : option string;                 (* [None] is Python's None *)
  err : option string;
  cmd : list string;
  p : option Z;                        (* the Popen object (its pid); [None]: not set *)
  _is_started : bool;
  _is_terminated : option bool;        (* [None]: attribute not set *)
  _args_jobid : option string;         (* [None] is Python's None *)
  _jobid : option Z;                   (* [None]: attribute not set *)
  _outerr_files : string;
}.

(** A freshly allocated instance of class [c], before [__init__]. *)
Definition new_object (c : backend) : mgr :=
  {| cls := c; _waiting_steps := 0; _running_steps := 0; shebang := EmptyString;
     out := None; err := None; cmd := []; p := None; _is_started := false;
     _is_terminated := None; _args_jobid := None; _jobid := None;
     _outerr_files := EmptyString |}.

Definition set_waiting_steps (v : Z) (o : mgr) : mgr :=
  {| cls := cls o; _waiting_steps := v; _running_steps := _running_steps o;
     shebang := shebang o; out := out o; err := err o; cmd := cmd o; p := p o;
     _is_started := _is_started o; _is_terminated := _is_terminated o;
     _args_jobid := _args_jobid o; _jobid := _jobid o;
     _outerr_files := _outerr_files o |}.

Definition set_running_steps (v : Z) (o : mgr) : mgr :=
  {| cls := cls o; _waiting_steps := _waiting_steps o; _running_steps := v;
     shebang := shebang o; out := out o; err := err o; cmd := cmd o; p := p o;
     _is_started := _is_started o; _is_terminated := _is_terminated o;
     _args_jobid := _args_jobid o; _jobid := _jobid o;
     _outerr_files := _outerr_files o |}.

Definition set_shebang (v : string) (o : mgr) : mgr :=
  {| cls := cls o; _waiting_steps := _waiting_steps o;
     _running_steps := _running_steps o;
     shebang := v; out := out o; err := err o; cmd := cmd o; p := p o;
     _is_started := _is_started o; _is_terminated := _is_terminated o;
     _args_jobid := _args_jobid o; _jobid := _jobid o;
     _outerr_files := _outerr_files o |}.

Definition set_out_err (vo ve : option string) (o : mgr) : mgr :=
  {| cls := cls o; _waiting_steps := _waiting_steps o;
     _running_steps := _running_steps o;
     shebang := shebang o; out := vo; err := ve; cmd := cmd o; p := p o;
     _is_started := _is_started o; _is_terminated := _is_terminated o;
     _args_jobid := _args_jobid o; _jobid := _jobid o;
     _outerr_files := _outerr_files o |}.

Definition set_cmd (v : list string) (o : mgr) : mgr :=
  {| cls := cls o; _waiting_steps := _waiting_steps o;
     _running_steps := _running_steps o;
     shebang := shebang o; out := out o; err := err o; cmd := v; p := p o;
     _is_started := _is_started o; _is_terminated := _is_terminated o;
     _args_jobid := _args_jobid o; _jobid := _jobid o;
     _outerr_files := _outerr_files o |}.

Definition set_p (v : Z) (o : mgr) : mgr :=
  {| cls := cls o; _waiting_steps := _waiting_steps o;
     _running_steps := _running_steps o;
     shebang := shebang o; out := out o; err := err o; cmd := cmd o;
     p := Some v;
     _is_started := _is_started o; _is_terminated := _is_terminated o;
     _args_jobid := _args_jobid o; _jobid := _jobid o;
     _outerr_files := _outerr_files o |}.

Definition set_is_started (v : bool) (o : mgr) : mgr :=
  {| cls := cls o; _waiting_steps := _waiting_steps o;
     _running_steps := _running_steps o;
     shebang := shebang o; out := out o; err := err o; cmd := cmd o; p := p o;
     _is_started := v; _is_terminated := _is_terminated o;
     _args_jobid := _args_jobid o; _jobid := _jobid o;
     _outerr_files := _outerr_files o |}.

Definition set_is_terminated (v : bool) (o : mgr) : mgr :=
  {| cls := cls o; _waiting_steps := _waiting_steps o;
     _running_steps := _running_steps o;
     shebang := shebang o; out := out o; err := err o; cmd := cmd o; p := p o;
     _is_started := _is_started o; _is_terminated := Some v;
     _args_jobid := _args_jobid o; _jobid := _jobid o;
     _outerr_files := _outerr_files o |}.

Definition set_args_jobid (v : option string) (o : mgr) : mgr :=
  {| cls := cls o; _waiting_steps := _waiting_steps o;
     _running_steps := _running_steps o;
     shebang := shebang o; out := out o; err := err o; cmd := cmd o; p := p o;
     _is_started := _is_started o; _is_terminated := _is_terminated o;
     _args_jobid := v; _jobid := _jobid o;
     _outerr_files := _outerr_files o |}.

Definition set_jobid (v : Z) (o : mgr) : mgr :=
  {| cls := cls o; _waiting_steps := _waiting_steps o;
     _running_steps := _running_steps o;
     shebang := shebang o; out := out o; err := err o; cmd := cmd o; p := p o;
     _is_started := _is_started o; _is_terminated := _is_terminated o;
     _args_jobid := _args_jobid o; _jobid := Some v;
     _outerr_files := _outerr_files o |}.

Definition set_outerr_files (v : string) (o : mgr) : mgr :=
  {| cls := cls o; _waiting_steps := _waiting_steps o;
     _running_steps := _running_steps o;
     shebang := shebang o; out := out o; err := err o; cmd := cmd o; p := p o;
     _is_started := _is_started o; _is_terminated := _is_terminated o;
     _args_jobid := _args_jobid o; _jobid := _jobid o;
     _outerr_files := v |}.

(** The program state: the manager instance [self], the chronological trace
    of observable events, and the caller's namespace (the one dict shared by
    the front end and the backend). *)
Record state : Type := {
  self : mgr;
  trace : list event;
  user_ns : gmap string nsval;
}.

Definition M (A : Type) : Type := state -> result A * state.

Definition ret {A} (a : A) : M A := fun st => (Ok a, st).

Definition bind {A B} (m : M A) (k : A -> M B) : M B :=
  fun st =>
    match m st with
    | (Ok a, st') => k a st'
    | (Raise e, st') => (Raise e, st')
    | (Diverges, st') => (Diverges, st')
    end.

Definition raise {A} (e : exn) : M A := fun st => (Raise e, st).

Definition diverge {A} : M A := fun st => (Diverges, st).

(** [try: body except ...]: [handler e] is [None] when no clause matches. *)
Definition try_except {A} (body : M A) (handler : exn -> option (M A)) : M A :=
  fun st =>
    match body st with
    | (Raise e, st') =>
        match handler e with
        | Some h => h st'
        | None => (Raise e, st')
        end
    | r => r
    end.

Declare Scope py_scope.
Delimit Scope py_scope with py.
Bind Scope py_scope with M.
Notation "x ← y ; z" := (bind y (fun x => z)) (only parsing) : py_scope.
Notation "x ;; z" := (bind x (fun _ => z)) (only parsing) : py_scope.

Definition when (b : bool) (m : M unit) : M unit := if b then m else ret tt.

Definition gets {A} (f : mgr -> A) : M A := fun st => (Ok (f (self st)), st).

Definition modify (f : mgr -> mgr) : M unit :=
  fun st => (Ok tt, {| self := f (self st); trace := trace st; user_ns := user_ns st |}).

Definition emit (e : event) : M unit :=
  fun st => (Ok tt, {| self := self st; trace := trace st ++ [e]; user_ns := user_ns st |}).

(** Lift an oracle answer (which depends on the trace so far). *)
Definition ask {A} (f : list event -> result A) : M A :=
  fun st => (f (trace st), st).

(** [self._userns[key] = v] *)
Definition ns_set (key : string) (v : nsval) : M unit :=
  fun st => (Ok tt, {| self := self st; trace := trace st ++ [ENsSet key v];
                       user_ns := <[key := v]> (user_ns st) |}).

(** Reading [self.p], [self._is_terminated], [self._jobid]. *)
Definition getattr {A} (f : mgr -> option A) : M A :=
  fun st => match f (self st) with
            | Some v => (Ok v, st)
            | None => (Raise AttributeError, st)
            end.

Definition stdout_write (s : string) : M unit := emit (EStdout s).
Definition stdout_flush : M unit := emit EStdoutFlush.
Definition stderr_write (s : string) : M unit := emit (EStderr s).
Definition stderr_flush : M unit := emit EStderrFlush.

(** The newline character as a string. *)
Definition nl : string := String "010"%char EmptyString.

Definition print (s : string) : M unit := stdout_write (s +:+ nl).

(* ===================================================================== *)
(** ** Calls into the environment *)
(* ===================================================================== *)

Definition log (e : event) (st : state) : state :=
  {| self := self st; trace := trace st ++ [e]; user_ns := user_ns st |}.

(** An external call: the attempt is recorded, the oracle (which sees the
    trace before the attempt) decides the outcome. *)
Definition call {A} (e : event) (oracle : list event -> result A) : M A :=
  fun st => (oracle (trace st), log e st).

Section Primitives.
Variable env : environment.

(** [Popen(argv, stdout=PIPE, stderr=PIPE, ...)]: the child's pid. *)
Definition subprocess_Popen (argv : list string) : M Z :=
  call (EPopen argv) (fun h => Popen env h argv).

(** [self.p.communicate(script)] *)
Definition p_communicate (script : string) : M (string * string) :=
  (_ ← getattr p; call (ECommunicate script) (fun h => communicate env h script))%py.

(** [self.p.send_signal(sig)]; [terminate()] and [kill()] are
    [send_signal(SIGTERM)] and [send_signal(SIGKILL)]. *)
Definition p_send_signal (sig : signal) : M unit :=
  (_ ← getattr p; call (ESignal sig) (fun h => send_signal env h sig))%py.

(** [self.p.poll()] *)
Definition p_poll : M (option Z) :=
  (_ ← getattr p; call EPoll (poll env))%py.

(** [b''.join(self.p.stdout.readlines())] *)
Definition p_readlines (f : stream) : M string :=
  (_ ← getattr p; call (EReadlines f) (fun h => readlines env h f))%py.

(** [time.sleep(ms / 1000)] *)
Definition time_sleep (ms : Z) : M unit :=
  call (ESleep ms) (fun h => sleep env h ms).

Definition subprocess_check_output (argv : list string) : M string :=
  call (ECheckOutput argv) (fun h => check_output env h argv).

Definition subprocess_check_call (argv : list string) : M unit :=
  call (ECheckCall argv) (fun h => check_call env h argv).

(** [with open(path, 'r') as f: f.read()] *)
Definition read_file (path : string) : M string :=
  call (EOpen path) (fun h => open_read env h path).

(** The outcome of a library call that leaves no event (option parsing). *)
Definition lift {A} (r : result A) : M A := fun st => (r, st).
End Primitives.

(* ===================================================================== *)
(** ** class BaseMgr *)
(* ===================================================================== *)

Module BaseMgr.
Section WithEnv.
Variable env : environment.

(** [BaseMgr.__init__(self, args, shell, userns)] *)
Definition __init__ (shell : string) : M unit :=
  (modify (set_waiting_steps 0);;
   modify (set_running_steps 0);;
   modify (set_shebang ("#!" +:+ shell +:+ " " +:+ nl));;
   modify (set_out_err None None))%py.

(** The [try] block of [_interrupt]. *)
Definition _interrupt_try : M unit :=
  (p_send_signal env SIGINT;;
   time_sleep env 100;;
   rc ← p_poll env;
   match rc with
   | Some _ => print "Process is interrupted."
   | None =>
       p_send_signal env SIGTERM;;
       time_sleep env 100;;
       rc' ← p_poll env;
       match rc' with
       | Some _ => print "Process is terminated."
       | None =>
           p_send_signal env SIGKILL;;
           print "Process is killed."
       end
   end)%py.

(** The [except] clauses of [_interrupt]: [except OSError: pass], then
    [except Exception as e: print(...)]. *)
Definition _interrupt_except (e : exn) : option (M unit) :=
  match e with
  | OSError _ => Some (ret tt)
  | KeyboardInterrupt => None
  | _ =>
      Some (n ← getattr p;
            print ("Error while terminating subprocess (pid="
                     +:+ Py.str n +:+ "): " +:+ exn_str e))%py
  end.

(** [BaseMgr._interrupt(self)] *)
Definition _interrupt : M unit :=
  try_except _interrupt_try _interrupt_except.

(** The table of (step limit, seconds to wait, character to display);
    the last limit is the float [1e12]. *)
Definition step_table : list (Z * Z * string) :=
  [ (10, 1, "."); (20, 10, "o"); (30, 60, "O"); (10 ^ 12, 600, "@") ].

(** [[v for v in table if s < v[0]]] *)
Definition matching_rows (s : Z) : list (Z * Z * string) :=
  List.filter (fun v => s <? fst (fst v)) step_table.

(** [BaseMgr._print_step_and_wait(self, s, silent)] *)
Definition _print_step_and_wait (s : Z) (silent : bool) : M unit :=
  match matching_rows s with
  | [] => raise IndexError
  | (l, t, c) :: _ =>
      (when (s <? l)
         (when (negb silent) (stdout_write c);;
          time_sleep env (1000 * t));;
       stdout_flush)%py
  end.

(** [BaseMgr._step_running(self, silent)] *)
Definition _step_running (silent : bool) : M unit :=
  (n ← gets _running_steps;
   when (negb silent && (n =? 0)) (stdout_write "Running ");;
   modify (set_running_steps (n + 1));;
   n' ← gets _running_steps;
   _print_step_and_wait n' silent)%py.

(** [BaseMgr._step_waiting(self, silent)] *)
Definition _step_waiting (silent : bool) : M unit :=
  (n ← gets _waiting_steps;
   when (negb silent && (n =? 0)) (stdout_write "Waiting for resources ");;
   modify (set_waiting_steps (n + 1));;
   n' ← gets _waiting_steps;
   _print_step_and_wait n' silent)%py.

(** [try: self.p = Popen(argv) except OSError as e: ...] as written in
    [BasicMgr.__init__] and [SlurmMgr.__init__]: [true] when the instance
    got its process, [false] after the "Couldn't find program" return. *)
Definition spawn_or_report (argv : list string) (prog : string) : M bool :=
  try_except
    (n ← subprocess_Popen env argv; modify (set_p n);; ret true)%py
    (fun e =>
       match e with
       | OSError errno =>
           if errno =? ENOENT
           then Some (print ("Couldn't find program: " +:+ Py.repr prog);; ret false)%py
           else Some (raise e)
       | _ => None
       end).

(** [script = self.shebang + content.encode(); if not script.endswith(b'\n'): script += b'\n'] *)
Definition make_script (shebang content : string) : string :=
  let script := shebang +:+ content in
  if Py.endswith_newline script then script else script +:+ nl.

End WithEnv.
End BaseMgr.

(** The value returned by [submit] and [get_output]: [None], or a pair whose
    components may be [None]. *)
Definition retval : Type := option (option string * option string).

(* ===================================================================== *)
(** ** class BasicMgr *)
(* ===================================================================== *)

Module BasicMgr.
Section WithEnv.
Variable env : environment.

Definition _wlbin : list string := ["bash"].

(** [BasicMgr.__init__(self, args, shell, userns)] *)
Definition __init__ (args : list string) (shell : string) : M unit :=
  (BaseMgr.__init__ shell;;
   modify (set_cmd (_wlbin ++ args));;
   c ← gets cmd;
   _ ← BaseMgr.spawn_or_report env c (hd EmptyString c);
   ret tt)%py.

(** [BasicMgr.submit(self, content)] *)
Definition submit (content : string) : M retval :=
  (sb ← gets shebang;
   let script := BaseMgr.make_script sb content in
   r ← try_except
         (oe ← p_communicate env script; ret (Some oe))
         (fun e =>
            match e with
            | KeyboardInterrupt => Some (BaseMgr._interrupt env;; ret None)
            | _ => None
            end);
   match r with
   | None => ret None
   | Some (o, e) =>
       modify (set_out_err (Some o) (Some e));;
       o' ← gets out; e' ← gets err;
       ret (Some (o', e'))
   end)%py.

(** [BasicMgr.wait_progress(self)] *)
Definition wait_progress : M unit := ret tt.

(** [BasicMgr.get_output(self)] *)
Definition get_output : M retval := ret (Some (None, None)).

End WithEnv.
End BasicMgr.

(* ===================================================================== *)
(** ** class SSHMgr *)
(* ===================================================================== *)

Module SSHMgr.
Section WithEnv.
Variable env : environment.

Definition _wlbin : list string := ["ssh"; "-n"].

(** The names bound at module level in backends.py. *)
Definition module_globals : list string :=
  [ "signal"; "time"; "errno"; "io"; "sys"; "os"; "argparse"; "Popen";
    "PIPE"; "check_output"; "check_call"; "ABCMeta"; "abstractmethod";
    "py3compat"; "MagicArgumentParser"; "BaseMgr"; "BasicMgr"; "SSHMgr";
    "SlurmMgr" ].

(** Reading, in a method body, a name that is not one of the method's
    locals and expecting an argparse namespace: the module globals are
    searched; none of them carries parsed options. *)
Definition load_global (name : string) : M ssh_args :=
  if existsb (String.eqb name) module_globals
  then raise AttributeError
  else raise NameError.

(** [SSHMgr.__init__(self, args, shell, userns)]: the parsed options
    [_args] are a local of this method. *)
Definition __init__ (args : list string) (shell : string) : M unit :=
  (BaseMgr.__init__ shell;;
   parsed ← lift (ssh_parser env args);
   let _args := fst parsed in
   let rest := snd parsed in
   modify (set_cmd (_wlbin ++ [host _args] ++ rest)))%py.

(** [SSHMgr.get_output(self)] *)
Definition get_output : M retval :=
  (t ← getattr _is_terminated;
   if (t : bool) then
     o ← gets out; e ← gets err;
     match o, e with
     | None, None =>
         so ← p_readlines env StdoutPipe;
         modify (fun m => set_out_err (Some so) (err m) m);;
         se ← p_readlines env StderrPipe;
         modify (fun m => set_out_err (out m) (Some se) m)
     | _, _ => ret tt
     end;;
     o' ← gets out; e' ← gets err;
     ret (Some (o', e'))
   else ret None)%py.

(** [SSHMgr.submit(self, content)] *)
Definition submit (content : string) : M retval :=
  (modify (set_is_terminated false);;
   c ← gets cmd;
   go_on ← try_except
             (n ← subprocess_Popen env (c ++ [content]);
              modify (set_p n);; ret true)
             (fun e =>
                match e with
                | OSError errno =>
                    if errno =? ENOENT
                    then Some (print ("Couldn't find program: "
                                        +:+ Py.repr (hd EmptyString c));;
                               ret false)
                    else Some (raise e)
                | KeyboardInterrupt =>
                    Some (BaseMgr._interrupt env;;
                          modify (set_is_terminated true);;
                          ret true)
                | _ => None
                end);
   if (go_on : bool) then
     rc ← p_poll env;
     match rc with
     | None =>
         _args ← load_global "_args";
         when (Py.truthy (pid _args))
           (n ← getattr p;
            ns_set (default EmptyString (pid _args)) (VInt n));;
         n ← getattr p;
         ret (Some (Some ("SSH started with pid: " +:+ Py.str n +:+ nl),
                    Some EmptyString))
     | Some _ =>
         modify (set_is_terminated true);;
         get_output
     end
   else ret None)%py.

(** [while self.p.poll() is None: self._step_running(silent)] *)
Fixpoint poll_loop (fuel : nat) (silent : bool) : M unit :=
  (rc ← p_poll env;
   match rc with
   | Some _ => ret tt
   | None =>
       match fuel with
       | O => diverge
       | S n => BaseMgr._step_running env silent;; poll_loop n silent
       end
   end)%py.

(** [SSHMgr.wait_progress(self, silent=False)] *)
Definition wait_progress (fuel : nat) (silent : bool) : M unit :=
  (poll_loop fuel silent;;
   when (negb silent)
     (stdout_write (nl +:+ "Done" +:+ nl);; stdout_flush);;
   modify (set_is_terminated true))%py.

End WithEnv.
End SSHMgr.

(* ===================================================================== *)
(** ** class SlurmMgr *)
(* ===================================================================== *)

Module SlurmMgr.
Section WithEnv.
Variable env : environment.

Definition _wlbin : list string := ["sbatch"; "-n"; "1"].
Definition _end_states : list string :=
  ["CANCELLED"; "COMPLETED"; "FAILED"; "NODE_FAIL"; "PREEMPTED"; "TIMEOUT"].
Definition _wait_states : list string := ["CONFIGURING"; "PENDING"].
Definition _run_states : list string := ["COMPLETING"; "RUNNING"; "SUSPENDED"].

(** [SlurmMgr.__init__(self, args, shell, userns)] *)
Definition __init__ (args : list string) (shell : string) : M unit :=
  (BaseMgr.__init__ shell;;
   match _DEFAULT_SLURM_OUTERR_FILE env with
   | None =>
       match environ_HOME env with
       | Some home =>
           modify (set_outerr_files (Py.path_join home "python-execute-slurm.%J"))
       | None => raise KeyError
       end
   | Some f => modify (set_outerr_files f)
   end;;
   parsed ← lift (slurm_parser env args);
   let _args := fst parsed in
   let rest := snd parsed in
   f ← gets _outerr_files;
   modify (set_cmd (_wlbin ++ rest ++
                      [ "--output=" +:+ f +:+ ".out";
                        "--error=" +:+ f +:+ ".err" ]));;
   modify (set_is_started false);;
   modify (set_is_terminated false);;
   modify (set_args_jobid (jobid _args));;
   c ← gets cmd;
   _ ← BaseMgr.spawn_or_report env c (hd EmptyString c);
   ret tt)%py.

(** [SlurmMgr.submit(self, content)] *)
Definition submit (content : string) : M retval :=
  (sb ← gets shebang;
   let script := BaseMgr.make_script sb content in
   r ← try_except
         (oe ← p_communicate env script; ret (Some oe))
         (fun e =>
            match e with
            | KeyboardInterrupt => Some (BaseMgr._interrupt env;; ret None)
            | _ => None
            end);
   match r with
   | None => ret None
   | Some (out, err) =>
       modify (set_jobid 0);;
       (if Py.find out "Submitted batch job" =? 0 then
          match Py.int (Py.last_item (Py.split " " out)) with
          | Some n =>
              modify (set_jobid n);;
              modify (set_is_started true);;
              a ← gets _args_jobid;
              when (Py.truthy a) (ns_set (default EmptyString a) (VInt n))
          | None => raise ValueError
          end
        else
          stderr_write ("Error during job submission" +:+ nl);;
          modify (set_is_terminated true));;
       ret (Some (Some out, Some err))
   end)%py.

(** [SlurmMgr._get_job_state(self)] *)
Definition _get_job_state : M string :=
  (j ← getattr _jobid;
   let sacct := "sacct -j" +:+ Py.str j +:+ " --format=State -n -X" in
   jobstate ← subprocess_check_output env (Py.split " " sacct);
   if String.eqb jobstate EmptyString then
     let squeue := "squeue -j" +:+ Py.str j +:+ " -h -o '%T'" in
     subprocess_check_output env (Py.split " " squeue)
   else ret jobstate)%py.

(** [all([jobstate.find(s) < 0 for s in states])] *)
Definition all_absent (jobstate : string) (states : list string) : bool :=
  forallb (fun s => Py.find jobstate s <? 0) states.

(** [any([jobstate.find(s) >= 0 for s in states])] *)
Definition any_present (jobstate : string) (states : list string) : bool :=
  existsb (fun s => Py.find jobstate s >=? 0) states.

(** The body of the [while] loop of [wait_progress]; it yields the next
    [jobstate]. *)
Definition poll_body (silent : bool) (jobstate : string) : M string :=
  (when (any_present jobstate _wait_states)
     (BaseMgr._step_waiting env silent);;
   when (any_present jobstate _run_states)
     (w ← gets _waiting_steps; r ← gets _running_steps;
      when ((w >? 0) && (r =? 0)) (when (negb silent) (stdout_write nl));;
      BaseMgr._step_running env silent);;
   _get_job_state)%py.

(** [while all([jobstate.find(s) < 0 for s in self._end_states]): ...];
    [fuel] bounds the number of iterations. *)
Fixpoint poll_loop (fuel : nat) (silent : bool) (jobstate : string) : M string :=
  if all_absent jobstate _end_states then
    match fuel with
    | O => diverge
    | S n => (js ← poll_body silent jobstate; poll_loop n silent js)%py
    end
  else ret jobstate.

(** [SlurmMgr.wait_progress(self, silent=False)] *)
Definition wait_progress (fuel : nat) (silent : bool) : M unit :=
  (started ← gets _is_started;
   when started
     (jobstate ← _get_job_state;
      jobstate' ← try_except
                    (poll_loop fuel silent jobstate)
                    (fun e =>
                       match e with
                       | KeyboardInterrupt =>
                           Some (j ← getattr _jobid;
                                 stdout_write ("Terminate job " +:+ Py.str j
                                                 +:+ " " +:+ nl);;
                                 stdout_flush;;
                                 subprocess_check_call env ["scancel"; Py.str j];;
                                 time_sleep env 1000;;
                                 _get_job_state)
                       | _ => None
                       end);
      modify (set_is_terminated true);;
      when (negb silent)
        (w ← gets _waiting_steps; r ← gets _running_steps;
         when ((w >? 0) || (r >? 0)) (stdout_write nl);;
         j ← getattr _jobid;
         stdout_write ("End batch job " +:+ Py.str j +:+ " Status: "
                         +:+ jobstate' +:+ nl);;
         stdout_flush)))%py.

(** Reading a local variable that may not have been assigned. *)
Definition load_local (v : option string) : M string :=
  match v with
  | Some s => ret s
  | None => raise UnboundLocalError
  end.

(** [SlurmMgr.get_output(self)] *)
Definition get_output : M retval :=
  (started ← gets _is_started;
   terminated ← (if (started : bool) then getattr _is_terminated else ret false);
   if (terminated : bool) then
     js ← _get_job_state;
     c ← gets cmd;
     when (Py.find js "COMPLETED" <? 0)
       (stderr_write ("Slurm command was : " +:+ Py.join " " c +:+ nl);;
        stderr_flush);;
     f ← gets _outerr_files;
     j ← getattr _jobid;
     let job_f := Py.replace f "%J" (Py.str j) in
     let job_out_f := job_f +:+ ".out" in
     let job_err_f := job_f +:+ ".err" in
     o ← gets out; e ← gets err;
     match o, e with
     | None, None =>
         (* [r1] is the pair of locals (job_out, job_err) after the first
            [try]; [None] for job_err means: not assigned so far *)
         r1 ← try_except
                (s ← read_file env job_out_f; ret (s, None))
                (fun e =>
                   match e with
                   | OSError errno =>
                       if errno =? ENOENT
                       then Some (stderr_write ("File not found : "
                                                  +:+ job_out_f +:+ nl);;
                                  stderr_flush;;
                                  ret (EmptyString, Some EmptyString))
                       else None
                   | _ => None
                   end);
         let job_out := fst r1 in
         job_err ← try_except
                     (s ← read_file env job_err_f; ret (Some s))
                     (fun e =>
                        match e with
                        | OSError errno =>
                            if errno =? ENOENT
                            then Some (stderr_write ("File not found : "
                                                       +:+ job_err_f +:+ nl);;
                                       stderr_flush;;
                                       ret (snd r1))
                            else None
                        | _ => None
                        end);
         job_err_v ← load_local job_err;
         modify (set_out_err (Some job_out) (Some job_err_v))
     | _, _ => ret tt
     end;;
     o' ← gets out; e' ← gets err;
     ret (Some (o', e'))
   else ret (Some (None, None)))%py.

End WithEnv.
End SlurmMgr.

(* ===================================================================== *)
(** ** class ExecuteMagics *)
(* ===================================================================== *)

(** A positional argument of a constructor call. *)
Inductive pyarg : Type :=
| AList (l : list string)
| AStr (s : string)
| ANamespace.                  (* the caller's namespace dict *)

Module ExecuteMagics.
Section WithEnv.
Variable env : environment.

(** [_wlmgr = {'': BasicMgr, 'ssh': SSHMgr, 'slurm': SlurmMgr}] *)
Definition _wlmgr : gmap string backend :=
  <[EmptyString := BasicMgr]> (<["ssh" := SSHMgr]> (<["slurm" := SlurmMgr]> ∅)).

(** [cls.__init__(self, args, shell, userns)] *)
Definition __init__ (c : backend) (args : list string) (shell : string) : M unit :=
  match c with
  | BasicMgr => BasicMgr.__init__ env args shell
  | SSHMgr => SSHMgr.__init__ env args shell
  | SlurmMgr => SlurmMgr.__init__ env args shell
  end.

(** Calling the class with positional arguments: every backend's
    [__init__] has exactly the three required parameters
    [(args, shell, userns)] besides [self]; a call with another number of
    arguments raises [TypeError] before the body runs. *)
Definition instantiate (c : backend) (positional : list pyarg) : M unit :=
  match positional with
  | [AList args; AStr shell; ANamespace] =>
      (modify (fun _ => new_object c);; __init__ c args shell)%py
  | _ => raise TypeError
  end.

Definition submit (cell : string) : M retval :=
  (c ← gets cls;
   match c with
   | BasicMgr => BasicMgr.submit env cell
   | SSHMgr => SSHMgr.submit env cell
   | SlurmMgr => SlurmMgr.submit env cell
   end)%py.

(** [job_mgr.wait_progress()] *)
Definition wait_progress (fuel : nat) : M unit :=
  (c ← gets cls;
   match c with
   | BasicMgr => BasicMgr.wait_progress
   | SSHMgr => SSHMgr.wait_progress env fuel false
   | SlurmMgr => SlurmMgr.wait_progress env fuel false
   end)%py.

Definition get_output : M retval :=
  (c ← gets cls;
   match c with
   | BasicMgr => BasicMgr.get_output
   | SSHMgr => SSHMgr.get_output env
   | SlurmMgr => SlurmMgr.get_output env
   end)%py.

(** [a, b = v]: unpacking [None] raises [TypeError]. *)
Definition unpack (v : retval) : M (option string * option string) :=
  match v with
  | Some pr => ret pr
  | None => raise TypeError
  end.

(** [sink.write(v)]: writing [None] raises [TypeError]. *)
Definition write_to (sink : string -> M unit) (v : option string) : M unit :=
  match v with
  | Some s => sink s
  | None => raise TypeError
  end.

(** [ExecuteMagics.execute(self, line, cell)]; [fuel] bounds the polling
    loop of a foreground wait. *)
Definition execute (fuel : nat) (line cell : string) : M unit :=
  (parsed ← lift (execute_parser env (arg_split env line));
   let args := fst parsed in
   let rest := snd parsed in
   let extra_cmd :=
     if String.eqb (wlm args) (_DEFAULT_MGR env) then
       match _DEFAULT_LINE_CMD_ARGS env with
       | ArgsDict d =>
           match d !! wlm args with
           | Some v => arg_split env v
           | None => []
           end
       | ArgsStr s => arg_split env s
       end
     else [] in
   (* Build workload manager instance *)
   c ← match _wlmgr !! wlm args with
       | Some c => ret c
       | None => raise KeyError
       end;
   instantiate c [AList (rest ++ extra_cmd); AStr (shell args)];;
   (* Submit the cell as job script *)
   sub ← submit cell;
   oe ← unpack sub;
   write_to stdout_write (fst oe);;
   stdout_flush;;
   write_to stderr_write (snd oe);;
   stderr_flush;;
   if bg args then
     (if Py.truthy (amgr args) then
        ns_set (default EmptyString (amgr args)) VJobMgr
      else
        stderr_write ("Warning: --bg argument specified without" +:+ nl
                        +:+ " --amgr (only way to get cell output)" +:+ nl);;
        stderr_flush);;
     emit EBackground
   else
     try_except
       (wait_progress fuel)
       (fun e =>
          match e with
          | KeyboardInterrupt =>
              (* job_mgr.interrupt(): no class defines this attribute *)
              Some (raise AttributeError)
          | _ => None
          end);;
     (* Get job output *)
     r ← get_output;
     je ← unpack r;
     when (Py.truthy (fst je))
       (write_to stdout_write (fst je);; stdout_flush);;
     when (Py.truthy (snd je))
       (write_to stderr_write (snd je);; stderr_flush))%py.

End WithEnv.
End ExecuteMagics.

(* ===================================================================== *)
(** ** A sample environment

    Concrete oracles on which the model is run: every external call
    succeeds at once, no result file exists, and the option parsers accept
    the plain [--name value] form only. *)
(* ===================================================================== *)

Module Sample.

(** Number of earlier events of one kind: the index of the next call of
    that kind in a scripted sequence of answers. *)
Definition count (f : event -> bool) (h : list event) : nat :=
  length (List.filter f h).

Definition is_check_output (e : event) : bool :=
  match e with ECheckOutput _ => true | _ => false end.

(** Answers read off a script, then a default. *)
Definition scripted {A} (f : event -> bool) (script : list A) (dflt : A)
  : list event -> A :=
  fun h => nth (count f h) script dflt.

(** Extract [name value] pairs from an argument list; the last one wins. *)
Fixpoint take_opt (name : string) (args : list string)
  : option string * list string :=
  match args with
  | [] => (None, [])
  | a :: rest =>
      if String.eqb a name then
        match rest with
        | v :: rest' =>
            let r := take_opt name rest' in
            (match fst r with Some v' => Some v' | None => Some v end, snd r)
        | [] => (None, [a])
        end
      else
        let r := take_opt name rest in (fst r, a :: snd r)
  end.

Definition take_flag (name : string) (args : list string) : bool * list string :=
  (existsb (String.eqb name) args,
   List.filter (fun a => negb (String.eqb a name)) args).

Definition parse_slurm (args : list string) : result (slurm_args * list string) :=
  let r := take_opt "--jobid" args in
  Ok ({| jobid := fst r |}, snd r).

Definition parse_ssh (args : list string) : result (ssh_args * list string) :=
  let r1 := take_opt "--host" args in
  let r2 := take_opt "--pid" (snd r1) in
  Ok ({| host := default "localhost" (fst r1); pid := fst r2 |}, snd r2).

Definition parse_execute (args : list string) : result (exec_args * list string) :=
  let r1 := take_opt "--wlm" args in
  let r2 := take_opt "--shell" (snd r1) in
  let r3 := take_opt "--amgr" (snd r2) in
  let r4 := take_flag "--bg" (snd r3) in
  Ok ({| wlm := default EmptyString (fst r1);
         shell := default "/bin/bash" (fst r2);
         amgr := fst r3;
         bg := fst r4 |}, snd r4).

Definition words (line : string) : list string :=
  List.filter (fun w => negb (String.eqb w EmptyString)) (Py.split " " line).

Definition env : environment :=
  {| Popen := fun _ _ => Ok 1234;
     communicate := fun _ _ => Ok (EmptyString, EmptyString);
     send_signal := fun _ _ => Ok tt;
     poll := fun _ => Ok (Some 0);
     readlines := fun _ _ => Ok EmptyString;
     sleep := fun _ _ => Ok tt;
     check_output := fun _ _ => Ok EmptyString;
     check_call := fun _ _ => Ok tt;
     open_read := fun _ _ => Raise (OSError ENOENT);
     environ_HOME := Some "/home/user";
     arg_split := words;
     execute_parser := parse_execute;
     ssh_parser := parse_ssh;
     slurm_parser := parse_slurm;
     _DEFAULT_MGR := EmptyString;
     _DEFAULT_LINE_CMD_ARGS := ArgsStr EmptyString;
     _DEFAULT_SLURM_OUTERR_FILE := None |}.

Definition with_Popen (v : list event -> list string -> result Z)
  (e : environment) : environment :=
  {| Popen := v; communicate := communicate e;
     send_signal := send_signal e; poll := poll e;
     readlines := readlines e; sleep := sleep e;
     check_output := check_output e; check_call := check_call e;
     open_read := open_read e; environ_HOME := environ_HOME e;
     arg_split := arg_split e; execute_parser := execute_parser e;
     ssh_parser := ssh_parser e; slurm_parser := slurm_parser e;
     _DEFAULT_MGR := _DEFAULT_MGR e;
     _DEFAULT_LINE_CMD_ARGS := _DEFAULT_LINE_CMD_ARGS e;
     _DEFAULT_SLURM_OUTERR_FILE := _DEFAULT_SLURM_OUTERR_FILE e |}.

Definition with_communicate (v : list event -> string -> result (string * string))
  (e : environment) : environment :=
  {| Popen := Popen e; communicate := v; send_signal := send_signal e;
     poll := poll e; readlines := readlines e; sleep := sleep e;
     check_output := check_output e; check_call := check_call e;
     open_read := open_read e; environ_HOME := environ_HOME e;
     arg_split := arg_split e; execute_parser := execute_parser e;
     ssh_parser := ssh_parser e; slurm_parser := slurm_parser e;
     _DEFAULT_MGR := _DEFAULT_MGR e;
     _DEFAULT_LINE_CMD_ARGS := _DEFAULT_LINE_CMD_ARGS e;
     _DEFAULT_SLURM_OUTERR_FILE := _DEFAULT_SLURM_OUTERR_FILE e |}.

Definition with_poll (v : list event -> result (option Z))
  (e : environment) : environment :=
  {| Popen := Popen e; communicate := communicate e;
     send_signal := send_signal e; poll := v; readlines := readlines e;
     sleep := sleep e; check_output := check_output e;
     check_call := check_call e; open_read := open_read e;
     environ_HOME := environ_HOME e; arg_split := arg_split e;
     execute_parser := execute_parser e; ssh_parser := ssh_parser e;
     slurm_parser := slurm_parser e; _DEFAULT_MGR := _DEFAULT_MGR e;
     _DEFAULT_LINE_CMD_ARGS := _DEFAULT_LINE_CMD_ARGS e;
     _DEFAULT_SLURM_OUTERR_FILE := _DEFAULT_SLURM_OUTERR_FILE e |}.

Definition with_check_output (v : list event -> list string -> result string)
  (e : environment) : environment :=
  {| Popen := Popen e; communicate := communicate e;
     send_signal := send_signal e; poll := poll e;
     readlines := readlines e; sleep := sleep e; check_output := v;
     check_call := check_call e; open_read := open_read e;
     environ_HOME := environ_HOME e; arg_split := arg_split e;
     execute_parser := execute_parser e; ssh_parser := ssh_parser e;
     slurm_parser := slurm_parser e; _DEFAULT_MGR := _DEFAULT_MGR e;
     _DEFAULT_LINE_CMD_ARGS := _DEFAULT_LINE_CMD_ARGS e;
     _DEFAULT_SLURM_OUTERR_FILE := _DEFAULT_SLURM_OUTERR_FILE e |}.

Definition with_open_read (v : list event -> string -> result string)
  (e : environment) : environment :=
  {| Popen := Popen e; communicate := communicate e;
     send_signal := send_signal e; poll := poll e;
     readlines := readlines e; sleep := sleep e;
     check_output := check_output e; check_call := check_call e;
     open_read := v; environ_HOME := environ_HOME e;
     arg_split := arg_split e; execute_parser := execute_parser e;
     ssh_parser := ssh_parser e; slurm_parser := slurm_parser e;
     _DEFAULT_MGR := _DEFAULT_MGR e;
     _DEFAULT_LINE_CMD_ARGS := _DEFAULT_LINE_CMD_ARGS e;
     _DEFAULT_SLURM_OUTERR_FILE := _DEFAULT_SLURM_OUTERR_FILE e |}.

(** A file system given as a list of (path, content). *)
Fixpoint files (fs : list (string * string)) (path : string) : result string :=
  match fs with
  | [] => Raise (OSError ENOENT)
  | (name, content) :: fs' =>
      if String.eqb name path then Ok content else files fs' path
  end.

(** The state in which a magic is invoked: nothing logged, an empty
    namespace, no instance built yet. *)
Definition st0 : state :=
  {| self := new_object BasicMgr; trace := []; user_ns := ∅ |}.

(** [cls(args, shell, userns)] run in [e] from [st0]. *)
Definition built (e : environment) (c : backend) (args : list string) : state :=
  snd (ExecuteMagics.instantiate e c [AList args; AStr "/bin/bash"; ANamespace] st0).

(** An instance that holds a running process. *)
Definition live : state := built env BasicMgr [].

(** An environment whose processes survive every signal. *)
Definition stubborn : environment := with_poll (fun _ => Ok None) env.

(** An environment in which no program can be spawned. *)
Definition no_exec : environment :=
  with_Popen (fun _ _ => Raise (OSError ENOENT)) env.

(** The acknowledgment of the scenario of a successful cluster job. *)
Definition ack_4242 : string := "Submitted batch job 4242" +:+ nl.

(** A cluster that accepts the job as 4242, reports PENDING, PENDING,
    RUNNING, COMPLETED to the successive status queries, and leaves the
    two result files. *)
Definition cluster : environment :=
  with_open_read
    (fun _ => files [ ("/home/user/python-execute-slurm.4242.out", "hello" +:+ nl);
                      ("/home/user/python-execute-slurm.4242.err", "warning" +:+ nl) ])
    (with_check_output
       (fun h _ => Ok (scripted is_check_output
                         ["PENDING"; "PENDING"; "RUNNING"; "COMPLETED"]
                         "COMPLETED" h))
       (with_communicate (fun _ _ => Ok (ack_4242, EmptyString)) env)).

(** A cluster whose acknowledgment names the cluster after the job id, as
    sbatch does for a multi-cluster submission. *)
Definition multi_cluster : environment :=
  with_communicate
    (fun _ _ => Ok ("Submitted batch job 4242 on cluster gpu" +:+ nl, EmptyString))
    env.

(** A cluster that rejects the submission. *)
Definition rejecting : environment :=
  with_communicate
    (fun _ _ => Ok (EmptyString, "sbatch: error: invalid partition" +:+ nl))
    env.

(** A remote job still running after [submit]: the ssh child ignores
    signals and does not exit. *)
Definition ssh_running : state :=
  snd (SSHMgr.submit stubborn "sleep 60"
         (built stubborn SSHMgr ["--host"; "node1"; "--pid"; "mypid"])).

(** The instance of the scenario once [wait_progress] has returned. *)
Definition finished : state :=
  snd (SlurmMgr.wait_progress cluster 3 true
         (snd (SlurmMgr.submit cluster "echo hello" (built cluster SlurmMgr [])))).

(** The job completed and wrote its output file, but no error file. *)
Definition err_missing : environment :=
  with_open_read
    (fun _ => files [ ("/home/user/python-execute-slurm.4242.out", "hello" +:+ nl) ])
    (with_check_output (fun _ _ => Ok "COMPLETED") cluster).

(** A local shell that prints one line. *)
Definition local_hello : environment :=
  with_communicate (fun _ _ => Ok ("hello" +:+ nl, EmptyString)) env.

End Sample.

(* ===================================================================== *)
(** ** Observations on traces *)
(* ===================================================================== *)

(** The signals sent, in order. *)
Definition signals_of (evs : list event) : list signal :=
  flat_map (fun e => match e with ESignal s => [s] | _ => [] end) evs.

(** The files opened, in order. *)
Definition opened (evs : list event) : list string :=
  flat_map (fun e => match e with EOpen f => [f] | _ => [] end) evs.

(** The scheduler status queries issued, in order. *)
Definition queries (evs : list event) : list (list string) :=
  flat_map (fun e => match e with ECheckOutput a => [a] | _ => [] end) evs.

(** The reads of result files and of process pipes, in order. *)
Definition reads (evs : list event) : list event :=
  List.filter (fun e => match e with
                        | EOpen _ | EReadlines _ => true
                        | _ => false
                        end) evs.

(** The value of a decimal numeral read from the left with accumulator
    [acc]: what a digit-by-digit parser computes. *)
Fixpoint uint_val (d : Decimal.uint) (acc : Z) : Z :=
  match d with
  | Decimal.Nil => acc
  | Decimal.D0 d => uint_val d (10 * acc + 0)
  | Decimal.D1 d => uint_val d (10 * acc + 1)
  | Decimal.D2 d => uint_val d (10 * acc + 2)
  | Decimal.D3 d => uint_val d (10 * acc + 3)
  | Decimal.D4 d => uint_val d (10 * acc + 4)
  | Decimal.D5 d => uint_val d (10 * acc + 5)
  | Decimal.D6 d => uint_val d (10 * acc + 6)
  | Decimal.D7 d => uint_val d (10 * acc + 7)
  | Decimal.D8 d => uint_val d (10 * acc + 8)
  | Decimal.D9 d => uint_val d (10 * acc + 9)
  end.

(* ===================================================================== *)
(** ** Further observations on traces *)
(* ===================================================================== *)

(** The number of liveness polls. *)
Definition polls (evs : list event) : nat :=
  length (List.filter (fun e => match e with EPoll => true | _ => false end) evs).

(** Events of the progress display: writes to stdout, flushes, sleeps. *)
Definition display_event (e : event) : bool :=
  match e with
  | EStdout _ | EStdoutFlush | ESleep _ => true
  | _ => false
  end.

(** What waiting for a child may do: poll it, write and sleep. *)
Definition progress_event (e : event) : bool :=
  match e with
  | EPoll => true
  | _ => display_event e
  end.

(** What waiting for a cluster job may do besides: run scheduler commands. *)
Definition scheduler_event (e : event) : bool :=
  match e with
  | ECheckOutput _ | ECheckCall _ => true
  | _ => display_event e
  end.

(** The state after [kw] more waiting steps and [kr] more running steps,
    the log grown by [evs]; nothing else differs. *)
Definition stepped (kw kr : nat) (evs : list event) (st : state) : state :=
  {| self := set_waiting_steps (_waiting_steps (self st) + Z.of_nat kw)
               (set_running_steps (_running_steps (self st) + Z.of_nat kr)
                  (self st));
     trace := trace st ++ evs;
     user_ns := user_ns st |}.

(** A computation that only counts steps, displays progress and runs
    scheduler commands. *)
Definition steps_only {A} (m : M A) : Prop :=
  forall st : state, exists r kw kr evs,
    m st = (r, stepped kw kr evs st) /\
    forallb scheduler_event evs = true.

(** A computation that leaves the submission command and the template of
    the result files as they are on the instance. *)
Definition keeps_files {A} (m : M A) : Prop :=
  forall st : state,
    cmd (self (snd (m st))) = cmd (self st) /\
    _outerr_files (self (snd (m st))) = _outerr_files (self st).

(** The commands run through [check_call], in order. *)
Definition calls (evs : list event) : list (list string) :=
  flat_map (fun e => match e with ECheckCall a => [a] | _ => [] end) evs.

(* ===================================================================== *)
(** ** Further sample environments *)
(* ===================================================================== *)

Module Cases.

(** The user interrupts while the script is piped to the process. *)
Definition interrupted_submit : environment :=
  Sample.with_communicate (fun _ _ => Raise KeyboardInterrupt) Sample.env.

(** The user interrupts while a process is being spawned. *)
Definition interrupted_spawn : environment :=
  Sample.with_Popen (fun _ _ => Raise KeyboardInterrupt) Sample.env.

(** A cluster whose job keeps running; the user interrupts the first pause
    of the progress display, later pauses go through. *)
Definition interrupted_wait : environment :=
  let e := Sample.with_check_output (fun _ _ => Ok "RUNNING") Sample.cluster in
  {| Popen := Popen e; communicate := communicate e;
     send_signal := send_signal e; poll := poll e;
     readlines := readlines e;
     sleep := fun h _ =>
                match calls h with
                | [] => Raise KeyboardInterrupt
                | _ => Ok tt
                end;
     check_output := check_output e; check_call := check_call e;
     open_read := open_read e; environ_HOME := environ_HOME e;
     arg_split := arg_split e; execute_parser := execute_parser e;
     ssh_parser := ssh_parser e; slurm_parser := slurm_parser e;
     _DEFAULT_MGR := _DEFAULT_MGR e;
     _DEFAULT_LINE_CMD_ARGS := _DEFAULT_LINE_CMD_ARGS e;
     _DEFAULT_SLURM_OUTERR_FILE := _DEFAULT_SLURM_OUTERR_FILE e |}.

(** The job of that cluster, once submitted. *)
Definition submitted_4242 : state :=
  snd (SlurmMgr.submit interrupted_wait "sleep 600"
         (Sample.built interrupted_wait SlurmMgr [])).

End Cases.

(* ===================================================================== *)
(** ** setup.py: the options taken off the command line *)
(* ===================================================================== *)

Module Setup.

(** [l.remove(x)]: the first item equal to [x] is taken out; [None] stands
    for [ValueError] (no such item). *)
Fixpoint list_remove (x : string) (l : list string) : option (list string) :=
  match l with
  | [] => None
  | y :: l' =>
      if String.eqb y x then Some l'
      else option_map (cons y) (list_remove x l')
  end.

(** The module-level names assigned by the loop. *)
Record vars : Type := {
  USER_DEFAULT_MGR : string;
  USER_DEFAULT_CMD_ARGS : string;
  sys_argv : list string;
}.

(** The body of [for arg in args:]. *)
Definition scan_arg (arg : string) (v : vars) : result vars :=
  let after_mgr :=
    if Py.find arg "--workloadmanager=" =? 0 then
      match nth_error (Py.split "=" arg) 1 with
      | None => Raise IndexError
      | Some m =>
          match list_remove arg (sys_argv v) with
          | None => Raise ValueError
          | Some l =>
              Ok {| USER_DEFAULT_MGR := m;
                    USER_DEFAULT_CMD_ARGS := USER_DEFAULT_CMD_ARGS v;
                    sys_argv := l |}
          end
      end
    else Ok v in
  match after_mgr with
  | Ok v1 =>
      if Py.find arg "--workloadmanagercmdargs=" =? 0 then
        let c := Py.join "=" (tl (Py.split "=" arg)) in
        match list_remove arg (sys_argv v1) with
        | None => Raise ValueError
        | Some l =>
            Ok {| USER_DEFAULT_MGR := USER_DEFAULT_MGR v1;
                  USER_DEFAULT_CMD_ARGS := c;
                  sys_argv := l |}
        end
      else Ok v1
  | r => r
  end.

Fixpoint scan (args : list string) (v : vars) : result vars :=
  match args with
  | [] => Ok v
  | arg :: rest =>
      match scan_arg arg v with
      | Ok v' => scan rest v'
      | r => r
      end
  end.

(** [USER_DEFAULT_MGR = ""; USER_DEFAULT_CMD_ARGS = ""; args = sys.argv[:];
    for arg in args: ...] run on the command line [argv]. *)
Definition options (argv : list string) : result vars :=
  scan argv {| USER_DEFAULT_MGR := EmptyString;
               USER_DEFAULT_CMD_ARGS := EmptyString;
               sys_argv := argv |}.

End Setup.

(** The two options of setup.py, as the loop recognises them. *)
Definition is_mgr_option (a : string) : bool :=
  Py.find a "--workloadmanager=" =? 0.

Definition is_cmd_args_option (a : string) : bool :=
  Py.find a "--workloadmanagercmdargs=" =? 0.

Definition is_setup_option (a : string) : bool :=
  is_mgr_option a || is_cmd_args_option a.

(* ===================================================================== *)
(** ** Properties *)
(* ===================================================================== *)

(** *** Running monadic code *)

Lemma bind_run {A B} (m : M A) (k : A -> M B) (st : state) :
  bind m k st =
    match m st with
    | (Ok a, st') => k a st'
    | (Raise e, st') => (Raise e, st')
    | (Diverges, st') => (Diverges, st')
    end.
Proof. reflexivity. Qed.

Lemma opened_app (l1 l2 : list event) : opened (l1 ++ l2) = opened l1 ++ opened l2.
Proof. unfold opened. apply flat_map_app. Qed.

(** Case analysis on the innermost [match] of a hypothesis. *)
Ltac break_match_in H :=
  match type of H with
  | context [match ?x with _ => _ end] =>
      lazymatch x with
      | context [match _ with _ => _ end] => fail
      | _ => let E := fresh "E" in destruct x eqn:E; try discriminate H
      end
  end.

(** *** The progress stepper *)

Lemma matching_rows_lt_10 s :
  s < 10 -> BaseMgr.matching_rows s = BaseMgr.step_table.
Proof.
  intros Hs. unfold BaseMgr.matching_rows, BaseMgr.step_table. cbn [List.filter fst].
  replace (10 ^ 12) with 1000000000000 by reflexivity.
  repeat match goal with
         | |- context [s <? ?k] => destruct (Z.ltb_spec s k); [| lia]
         end.
  reflexivity.
Qed.

Lemma matching_rows_lt_20 s :
  10 <= s < 20 -> BaseMgr.matching_rows s = List.tl BaseMgr.step_table.
Proof.
  intros Hs. unfold BaseMgr.matching_rows, BaseMgr.step_table. cbn [List.filter fst List.tl].
  replace (10 ^ 12) with 1000000000000 by reflexivity.
  destruct (Z.ltb_spec s 10); [lia |].
  repeat match goal with
         | |- context [s <? ?k] => destruct (Z.ltb_spec s k); [| lia]
         end.
  reflexivity.
Qed.

Lemma matching_rows_lt_30 s :
  20 <= s < 30 -> BaseMgr.matching_rows s = List.tl (List.tl BaseMgr.step_table).
Proof.
  intros Hs. unfold BaseMgr.matching_rows, BaseMgr.step_table. cbn [List.filter fst List.tl].
  replace (10 ^ 12) with 1000000000000 by reflexivity.
  destruct (Z.ltb_spec s 10); [lia |].
  destruct (Z.ltb_spec s 20); [lia |].
  repeat match goal with
         | |- context [s <? ?k] => destruct (Z.ltb_spec s k); [| lia]
         end.
  reflexivity.
Qed.

Lemma matching_rows_lt_1e12 s :
  30 <= s < 10 ^ 12 -> BaseMgr.matching_rows s = [(10 ^ 12, 600, "@")].
Proof.
  intros Hs. unfold BaseMgr.matching_rows, BaseMgr.step_table. cbn [List.filter fst].
  replace (10 ^ 12) with 1000000000000 in * by reflexivity.
  destruct (Z.ltb_spec s 10); [lia |].
  destruct (Z.ltb_spec s 20); [lia |].
  destruct (Z.ltb_spec s 30); [lia |].
  destruct (Z.ltb_spec s 1000000000000); [| lia].
  reflexivity.
Qed.

Lemma matching_rows_ge_1e12 s :
  10 ^ 12 <= s -> BaseMgr.matching_rows s = [].
Proof.
  intros Hs. unfold BaseMgr.matching_rows, BaseMgr.step_table. cbn [List.filter fst].
  replace (10 ^ 12) with 1000000000000 in * by reflexivity.
  repeat match goal with
         | |- context [s <? ?k] => destruct (Z.ltb_spec s k); [lia |]
         end.
  reflexivity.
Qed.

(** Beyond the last limit no row is selected. *)
Lemma print_step_and_wait_beyond_table env s silent (st : state) :
  10 ^ 12 <= s ->
  BaseMgr._print_step_and_wait env s silent st = (Raise IndexError, st).
Proof.
  intros Hs. unfold BaseMgr._print_step_and_wait.
  rewrite matching_rows_ge_1e12 by assumption. reflexivity.
Qed.

(** Once a row [(l, t, c)] is selected with [s < l], the stepper writes the
    glyph unless silent, sleeps [t] seconds and flushes. *)
Lemma print_step_and_wait_row env s silent st l t c rows :
  BaseMgr.matching_rows s = (l, t, c) :: rows ->
  s < l ->
  BaseMgr._print_step_and_wait env s silent st =
    (when (negb silent) (stdout_write c);;
     time_sleep env (1000 * t);;
     stdout_flush)%py st.
Proof.
  intros Hrows Hlt. unfold BaseMgr._print_step_and_wait. rewrite Hrows.
  destruct (Z.ltb_spec s l); [| lia].
  unfold when, bind. cbn.
  destruct silent; cbn; destruct (sleep env _ _) as [[] | |]; reflexivity.
Qed.

(** C4 (as amended): for every step count [0 <= s < 10^12] the first row of
    the table with [s] below its limit is selected -- 1 s and [.] for 0..9,
    10 s and [o] for 10..19, 60 s and [O] for 20..29, 600 s and [@] from 30
    up to the last limit [10^12] -- [s] is below the selected limit, and the
    stepper writes the glyph (unless silent), then sleeps the selected
    interval, then flushes. *)
Theorem print_step_and_wait_schedule env (s : Z) (silent : bool) (st : state) :
  0 <= s < 10 ^ 12 ->
  exists l t c,
    hd_error (BaseMgr.matching_rows s) = Some (l, t, c) /\
    s < l /\
    (0 <= s <= 9 -> t = 1 /\ c = ".") /\
    (10 <= s <= 19 -> t = 10 /\ c = "o") /\
    (20 <= s <= 29 -> t = 60 /\ c = "O") /\
    (30 <= s -> t = 600 /\ c = "@") /\
    BaseMgr._print_step_and_wait env s silent st =
      (when (negb silent) (stdout_write c);;
       time_sleep env (1000 * t);;
       stdout_flush)%py st.
Proof.
  intros Hs.
  assert (Hcase : s < 10 \/ 10 <= s < 20 \/ 20 <= s < 30 \/ 30 <= s < 10 ^ 12) by lia.
  destruct Hcase as [H | [H | [H | H]]].
  - exists 10, 1, ".". pose proof (matching_rows_lt_10 s H) as Hr.
    rewrite Hr. repeat split; try lia; try (intros; exfalso; lia).
    eapply print_step_and_wait_row; [exact Hr | lia].
  - exists 20, 10, "o". pose proof (matching_rows_lt_20 s H) as Hr.
    rewrite Hr. repeat split; try lia; try (intros; exfalso; lia).
    eapply print_step_and_wait_row; [exact Hr | lia].
  - exists 30, 60, "O". pose proof (matching_rows_lt_30 s H) as Hr.
    rewrite Hr. repeat split; try lia; try (intros; exfalso; lia).
    eapply print_step_and_wait_row; [exact Hr | lia].
  - exists (10 ^ 12), 600, "@". pose proof (matching_rows_lt_1e12 s H) as Hr.
    rewrite Hr. repeat split; try lia; try (intros; exfalso; lia).
    eapply print_step_and_wait_row; [exact Hr | lia].
Qed.

Lemma print_step_and_wait_schedule_witness :
  0 <= 35 < 10 ^ 12 /\
  exists l t c,
    hd_error (BaseMgr.matching_rows 35) = Some (l, t, c) /\ t = 600 /\ c = "@".
Proof.
  split; [lia |].
  destruct (print_step_and_wait_schedule Sample.env 35 false Sample.st0 ltac:(lia))
    as (l & t & c & Hsel & _ & _ & _ & _ & Hlast & _).
  exists l, t, c. split; [exact Hsel |]. apply Hlast. lia.
Defined.

(** C4 (as stated) fails at the step count [10^12]: it is at least 30, yet
    no row of the table is selected and the stepper raises [IndexError]
    without writing or sleeping. *)
Lemma print_step_and_wait_1e12_raises :
  30 <= 10 ^ 12 /\
  hd_error (BaseMgr.matching_rows (10 ^ 12)) = None /\
  BaseMgr._print_step_and_wait Sample.env (10 ^ 12) false Sample.st0
    = (Raise IndexError, Sample.st0).
Proof.
  split; [lia |]. split; reflexivity.
Qed.

(** *** The execute magic *)

(** C10: [execute] calls the backend class with two positional arguments
    (the argument list and the shell) where every backend's [__init__]
    requires three: for every invocation whose options parse, the lookup in
    the registry raises [KeyError] or the constructor call raises
    [TypeError]; nothing is submitted, written or waited for. *)
Theorem execute_never_builds_backend env (fuel : nat) (line cell : string) (st : state) :
  ExecuteMagics.execute env fuel line cell st =
    match execute_parser env (arg_split env line) with
    | Ok (args, _) =>
        match ExecuteMagics._wlmgr !! wlm args with
        | Some _ => (Raise TypeError, st)
        | None => (Raise KeyError, st)
        end
    | Raise e => (Raise e, st)
    | Diverges => (Diverges, st)
    end.
Proof.
  unfold ExecuteMagics.execute, lift, bind.
  destruct (execute_parser env (arg_split env line)) as [[args rest] | e |]; try reflexivity.
  cbn [fst snd].
  destruct (ExecuteMagics._wlmgr !! wlm args) as [c |]; reflexivity.
Qed.
(** *** The interrupt ladder *)

(** Case analysis on the next answer of the environment. *)
Ltac oracle_case :=
  match goal with
  | |- context [send_signal ?e ?h ?s] =>
      let E := fresh "Esig" in destruct (send_signal e h s) as [[] | ? |] eqn:E
  | |- context [sleep ?e ?h ?t] =>
      let E := fresh "Eslp" in destruct (sleep e h t) as [[] | ? |] eqn:E
  | |- context [poll ?e ?h] =>
      let E := fresh "Epoll" in destruct (poll e h) as [[?|] | ? |] eqn:E
  end.

(** What the [except] clauses make of an exception: no signal is sent, the
    instance is untouched, an [OSError] is dropped and no [OSError] leaves. *)
Lemma interrupt_except_spec e (o : mgr) tr ns n0 :
  p o = Some n0 ->
  exists r evs,
    match BaseMgr._interrupt_except e with
    | Some h => h {| self := o; trace := tr; user_ns := ns |}
    | None => (Raise e, {| self := o; trace := tr; user_ns := ns |})
    end = (r, {| self := o; trace := tr ++ evs; user_ns := ns |}) /\
    signals_of evs = [] /\
    (forall n, r <> Raise (OSError n)) /\
    (forall n, e = OSError n -> r = Ok tt /\ evs = []).
Proof.
  intros Ep.
  destruct e; cbn; unfold bind, getattr, print, stdout_write, emit, ret; cbn;
    rewrite ?Ep; cbn.
  1: exists (Ok tt), []; rewrite app_nil_r; repeat split; congruence.
  1: exists (Raise KeyboardInterrupt), []; rewrite app_nil_r; repeat split; congruence.
  all: eexists (Ok tt), [_]; repeat split; congruence.
Qed.

Ltac ladder_leaf :=
  intros;
  repeat match goal with
         | H : exists _, _ |- _ => destruct H
         | H : In _ (_ :: _) |- _ => destruct H
         | H : In _ [] |- _ => destruct H
         end;
  try discriminate;
  try congruence;
  try solve [ auto
            | split; [congruence | eexists; reflexivity]
            | split; reflexivity ];
  try match goal with
      | Hsw : forall n, ?e = OSError n -> _ /\ _ |- _ =>
          match goal with
          | x : Z |- _ =>
              let Hr := fresh in
              let Hv := fresh in
              destruct (Hsw x ltac:(congruence)) as [Hr Hv];
              rewrite ?Hr, ?Hv; cbn; solve [auto]
          end
      end.

(** What is sent and in which order; each escalation is preceded by a poll
    that found the process alive; no [OSError] leaves. *)
Lemma interrupt_ladder_gates env (st : state) :
  p (self st) <> None ->
  let r := fst (BaseMgr._interrupt env st) in
  let st' := snd (BaseMgr._interrupt env st) in
  exists evs,
    trace st' = trace st ++ evs /\
    self st' = self st /\
    (* fixed order *)
    (signals_of evs = [SIGINT] \/
     signals_of evs = [SIGINT; SIGTERM] \/
     signals_of evs = [SIGINT; SIGTERM; SIGKILL]) /\
    (* terminate is gated on a liveness check 100 ms after SIGINT *)
    (In SIGTERM (signals_of evs) ->
     poll env (trace st ++ [ESignal SIGINT; ESleep 100]) = Ok None /\
     exists rest,
       evs = [ESignal SIGINT; ESleep 100; EPoll; ESignal SIGTERM] ++ rest) /\
    (* kill is gated on a second liveness check 100 ms after SIGTERM *)
    (In SIGKILL (signals_of evs) ->
     poll env (trace st ++ [ESignal SIGINT; ESleep 100; EPoll;
                            ESignal SIGTERM; ESleep 100]) = Ok None /\
     exists rest,
       evs = [ESignal SIGINT; ESleep 100; EPoll;
              ESignal SIGTERM; ESleep 100; EPoll; ESignal SIGKILL] ++ rest) /\
    (* it stops as soon as the process is seen exited *)
    (send_signal env (trace st) SIGINT = Ok tt ->
     sleep env (trace st ++ [ESignal SIGINT]) 100 = Ok tt ->
     (exists rc, poll env (trace st ++ [ESignal SIGINT; ESleep 100]) = Ok (Some rc)) ->
     r = Ok tt /\
     evs = [ESignal SIGINT; ESleep 100; EPoll;
            EStdout ("Process is interrupted." +:+ nl)]) /\
    (* OS errors while signalling are swallowed *)
    ((exists n, send_signal env (trace st) SIGINT = Raise (OSError n)) ->
     r = Ok tt /\ evs = [ESignal SIGINT]) /\
    (In SIGTERM (signals_of evs) ->
     (exists n, send_signal env (trace st ++ [ESignal SIGINT; ESleep 100; EPoll])
                  SIGTERM = Raise (OSError n)) ->
     r = Ok tt /\ signals_of evs = [SIGINT; SIGTERM]) /\
    (In SIGKILL (signals_of evs) ->
     (exists n, send_signal env (trace st ++ [ESignal SIGINT; ESleep 100; EPoll;
                                              ESignal SIGTERM; ESleep 100; EPoll])
                  SIGKILL = Raise (OSError n)) ->
     r = Ok tt) /\
    (forall n, r <> Raise (OSError n)).
Proof.
  intros Hp. destruct st as [o tr ns]. cbn in Hp.
  destruct (p o) as [n0 |] eqn:Ep; [clear Hp | congruence].
  unfold BaseMgr._interrupt, try_except, BaseMgr._interrupt_try, p_send_signal,
    p_poll, time_sleep, bind, getattr, call, print, stdout_write, emit, log, ret.
  repeat (repeat progress (cbn; rewrite ?Ep, <- ?app_assoc); oracle_case).
  all: repeat progress (cbn; rewrite ?Ep, <- ?app_assoc).
  all: try match goal with
       | |- context [BaseMgr._interrupt_except ?e] =>
           match goal with
           | |- context [{| self := ?o'; trace := ?h; user_ns := ?ns' |}] =>
               destruct (interrupt_except_spec e o' h ns' _ Ep)
                 as (r' & evs' & -> & Hsig & Hos & Hsw)
           end
       end.
  all: cbn [fst snd trace self].
  all: rewrite <- ?app_assoc.
  all: eexists; (split; [reflexivity |]); (split; [reflexivity |]).
  all: unfold signals_of in *; cbn [flat_map app]; rewrite ?Hsig; cbn [app].
  all: repeat match goal with |- _ /\ _ => split end.
  all: ladder_leaf.
Qed.


(** The runs of the ladder on an obedient, a reluctant and a stubborn
    process. *)
Ltac ladder_run Ep :=
  unfold BaseMgr._interrupt, try_except, BaseMgr._interrupt_try, p_send_signal,
    p_poll, time_sleep, bind, getattr, call, print, stdout_write, emit, log, ret;
  repeat progress (cbn [self trace user_ns fst snd app];
                   rewrite ?Ep, <- ?app_assoc).

Ltac ladder_step Ep H :=
  repeat progress (cbn [self trace user_ns fst snd app];
                   rewrite ?Ep, <- ?app_assoc);
  rewrite H;
  repeat progress (cbn [self trace user_ns fst snd app];
                   rewrite ?Ep, <- ?app_assoc).

Lemma interrupt_sigterm_sent env (st : state) :
  p (self st) <> None ->
  send_signal env (trace st) SIGINT = Ok tt ->
  sleep env (trace st ++ [ESignal SIGINT]) 100 = Ok tt ->
  poll env (trace st ++ [ESignal SIGINT; ESleep 100]) = Ok None ->
  exists rest,
    trace (snd (BaseMgr._interrupt env st))
    = trace st ++ [ESignal SIGINT; ESleep 100; EPoll; ESignal SIGTERM] ++ rest.
Proof.
  intros Hp H1 H2 H3. destruct st as [o tr ns]. cbn [self trace] in *.
  destruct (p o) as [n0 |] eqn:Ep; [clear Hp | congruence].
  ladder_run Ep. ladder_step Ep H1. ladder_step Ep H2. ladder_step Ep H3.
  repeat (repeat progress (cbn [self trace user_ns fst snd app];
                           rewrite ?Ep, <- ?app_assoc);
          oracle_case).
  all: repeat progress (cbn [self trace user_ns fst snd app];
                        rewrite ?Ep, <- ?app_assoc).
  all: try match goal with
       | |- context [BaseMgr._interrupt_except ?e] =>
           match goal with
           | |- context [{| self := ?o'; trace := ?h; user_ns := ?ns' |}] =>
               destruct (interrupt_except_spec e o' h ns' _ Ep)
                 as (r' & evs' & -> & _)
           end
       end.
  all: cbn [self trace user_ns fst snd]; rewrite <- ?app_assoc; cbn [app].
  all: eexists; reflexivity.
Qed.

Lemma interrupt_terminated_run env (st : state) rc :
  p (self st) <> None ->
  send_signal env (trace st) SIGINT = Ok tt ->
  sleep env (trace st ++ [ESignal SIGINT]) 100 = Ok tt ->
  poll env (trace st ++ [ESignal SIGINT; ESleep 100]) = Ok None ->
  send_signal env (trace st ++ [ESignal SIGINT; ESleep 100; EPoll]) SIGTERM
    = Ok tt ->
  sleep env (trace st ++ [ESignal SIGINT; ESleep 100; EPoll; ESignal SIGTERM]) 100
    = Ok tt ->
  poll env (trace st ++ [ESignal SIGINT; ESleep 100; EPoll;
                         ESignal SIGTERM; ESleep 100]) = Ok (Some rc) ->
  BaseMgr._interrupt env st
  = (Ok tt, {| self := self st;
               trace := trace st ++
                          [ESignal SIGINT; ESleep 100; EPoll;
                           ESignal SIGTERM; ESleep 100; EPoll;
                           EStdout ("Process is terminated." +:+ nl)];
               user_ns := user_ns st |}).
Proof.
  intros Hp H1 H2 H3 H4 H5 H6. destruct st as [o tr ns]. cbn [self trace user_ns] in *.
  destruct (p o) as [n0 |] eqn:Ep; [clear Hp | congruence].
  ladder_run Ep. ladder_step Ep H1. ladder_step Ep H2. ladder_step Ep H3.
  ladder_step Ep H4. ladder_step Ep H5. ladder_step Ep H6.
  reflexivity.
Qed.

Lemma interrupt_sigkill_sent env (st : state) :
  p (self st) <> None ->
  send_signal env (trace st) SIGINT = Ok tt ->
  sleep env (trace st ++ [ESignal SIGINT]) 100 = Ok tt ->
  poll env (trace st ++ [ESignal SIGINT; ESleep 100]) = Ok None ->
  send_signal env (trace st ++ [ESignal SIGINT; ESleep 100; EPoll]) SIGTERM
    = Ok tt ->
  sleep env (trace st ++ [ESignal SIGINT; ESleep 100; EPoll; ESignal SIGTERM]) 100
    = Ok tt ->
  poll env (trace st ++ [ESignal SIGINT; ESleep 100; EPoll;
                         ESignal SIGTERM; ESleep 100]) = Ok None ->
  exists r rest,
    BaseMgr._interrupt env st
    = (r, {| self := self st;
             trace := trace st ++
                        [ESignal SIGINT; ESleep 100; EPoll;
                         ESignal SIGTERM; ESleep 100; EPoll; ESignal SIGKILL]
                        ++ rest;
             user_ns := user_ns st |}) /\
    signals_of rest = [] /\
    (send_signal env (trace st ++ [ESignal SIGINT; ESleep 100; EPoll;
                                   ESignal SIGTERM; ESleep 100; EPoll]) SIGKILL
       = Ok tt ->
     r = Ok tt /\ rest = [EStdout ("Process is killed." +:+ nl)]).
Proof.
  intros Hp H1 H2 H3 H4 H5 H6. destruct st as [o tr ns]. cbn [self trace user_ns] in *.
  destruct (p o) as [n0 |] eqn:Ep; [clear Hp | congruence].
  ladder_run Ep. ladder_step Ep H1. ladder_step Ep H2. ladder_step Ep H3.
  ladder_step Ep H4. ladder_step Ep H5. ladder_step Ep H6.
  repeat progress (cbn [self trace user_ns fst snd app]; rewrite <- ?app_assoc).
  destruct (send_signal env _ SIGKILL) as [[] | e |] eqn:Ek.
  - repeat progress (cbn [self trace user_ns fst snd app]; rewrite <- ?app_assoc).
    eexists _, [_]. split; [reflexivity |]. split; [reflexivity |].
    intros _. split; reflexivity.
  - repeat progress (cbn [self trace user_ns fst snd app]; rewrite <- ?app_assoc).
    match goal with
    | |- context [{| self := ?o'; trace := ?h; user_ns := ?ns' |}] =>
        destruct (interrupt_except_spec e o' h ns' _ Ep)
          as (r' & evs' & -> & Hsig & _)
    end.
    rewrite <- ?app_assoc. cbn [app].
    exists r', evs'. split; [reflexivity |]. split; [exact Hsig |].
    intros; discriminate.
  - exists Diverges, []. split; [reflexivity |]. split; [reflexivity |].
    intros; discriminate.
Qed.

(** C3: on an instance that holds a process, [_interrupt] sends SIGINT
    first and sleeps 100 ms.  When the poll that follows finds the process
    exited it stops there.  When that poll finds it alive, SIGTERM is sent
    and after another 100 ms a second poll is made; when this one finds the
    process exited it stops, and when it finds it still alive SIGKILL is
    sent.  So a process that survives both polls is sent SIGINT, SIGTERM
    and SIGKILL, in that order, and no signal is sent without the poll just
    before having found the process alive.  An [OSError] raised by a signal
    is swallowed: [_interrupt] then returns normally, and it never raises
    an [OSError] whatever the environment does. *)
Theorem interrupt_escalation env (st : state) :
  p (self st) <> None ->
  let r := fst (BaseMgr._interrupt env st) in
  let st' := snd (BaseMgr._interrupt env st) in
  exists evs,
    trace st' = trace st ++ evs /\
    self st' = self st /\
    (* fixed order *)
    (signals_of evs = [SIGINT] \/
     signals_of evs = [SIGINT; SIGTERM] \/
     signals_of evs = [SIGINT; SIGTERM; SIGKILL]) /\
    (* terminate is gated on a liveness check 100 ms after SIGINT *)
    (In SIGTERM (signals_of evs) ->
     poll env (trace st ++ [ESignal SIGINT; ESleep 100]) = Ok None /\
     exists rest,
       evs = [ESignal SIGINT; ESleep 100; EPoll; ESignal SIGTERM] ++ rest) /\
    (* kill is gated on a second liveness check 100 ms after SIGTERM *)
    (In SIGKILL (signals_of evs) ->
     poll env (trace st ++ [ESignal SIGINT; ESleep 100; EPoll;
                            ESignal SIGTERM; ESleep 100]) = Ok None /\
     exists rest,
       evs = [ESignal SIGINT; ESleep 100; EPoll;
              ESignal SIGTERM; ESleep 100; EPoll; ESignal SIGKILL] ++ rest) /\
    (* it stops as soon as the process is seen exited *)
    (send_signal env (trace st) SIGINT = Ok tt ->
     sleep env (trace st ++ [ESignal SIGINT]) 100 = Ok tt ->
     (exists rc, poll env (trace st ++ [ESignal SIGINT; ESleep 100]) = Ok (Some rc)) ->
     r = Ok tt /\
     evs = [ESignal SIGINT; ESleep 100; EPoll;
            EStdout ("Process is interrupted." +:+ nl)]) /\
    (* still alive 100 ms after SIGINT: terminate is sent *)
    (send_signal env (trace st) SIGINT = Ok tt ->
     sleep env (trace st ++ [ESignal SIGINT]) 100 = Ok tt ->
     poll env (trace st ++ [ESignal SIGINT; ESleep 100]) = Ok None ->
     (exists rest,
        evs = [ESignal SIGINT; ESleep 100; EPoll; ESignal SIGTERM] ++ rest) /\
     (* and 100 ms after it was delivered the process is polled again *)
     (send_signal env (trace st ++ [ESignal SIGINT; ESleep 100; EPoll]) SIGTERM
        = Ok tt ->
      sleep env (trace st ++ [ESignal SIGINT; ESleep 100; EPoll;
                              ESignal SIGTERM]) 100 = Ok tt ->
      (* exited: it stops *)
      ((exists rc, poll env (trace st ++ [ESignal SIGINT; ESleep 100; EPoll;
                                          ESignal SIGTERM; ESleep 100])
                   = Ok (Some rc)) ->
       r = Ok tt /\
       evs = [ESignal SIGINT; ESleep 100; EPoll;
              ESignal SIGTERM; ESleep 100; EPoll;
              EStdout ("Process is terminated." +:+ nl)]) /\
      (* still alive: kill is sent *)
      (poll env (trace st ++ [ESignal SIGINT; ESleep 100; EPoll;
                              ESignal SIGTERM; ESleep 100]) = Ok None ->
       signals_of evs = [SIGINT; SIGTERM; SIGKILL] /\
       (exists rest,
          evs = [ESignal SIGINT; ESleep 100; EPoll;
                 ESignal SIGTERM; ESleep 100; EPoll; ESignal SIGKILL] ++ rest) /\
       (send_signal env (trace st ++ [ESignal SIGINT; ESleep 100; EPoll;
                                      ESignal SIGTERM; ESleep 100; EPoll])
          SIGKILL = Ok tt ->
        r = Ok tt /\
        evs = [ESignal SIGINT; ESleep 100; EPoll;
               ESignal SIGTERM; ESleep 100; EPoll; ESignal SIGKILL;
               EStdout ("Process is killed." +:+ nl)])))) /\
    (* OS errors while signalling are swallowed *)
    ((exists n, send_signal env (trace st) SIGINT = Raise (OSError n)) ->
     r = Ok tt /\ evs = [ESignal SIGINT]) /\
    (In SIGTERM (signals_of evs) ->
     (exists n, send_signal env (trace st ++ [ESignal SIGINT; ESleep 100; EPoll])
                  SIGTERM = Raise (OSError n)) ->
     r = Ok tt /\ signals_of evs = [SIGINT; SIGTERM]) /\
    (In SIGKILL (signals_of evs) ->
     (exists n, send_signal env (trace st ++ [ESignal SIGINT; ESleep 100; EPoll;
                                              ESignal SIGTERM; ESleep 100; EPoll])
                  SIGKILL = Raise (OSError n)) ->
     r = Ok tt) /\
    (forall n, r <> Raise (OSError n)).
Proof.
  intros Hp r st'.
  destruct (interrupt_ladder_gates env st Hp)
    as (evs & Htr & Hself & Hord & Hterm & Hkill & Hstop & Hos1 & Hos2 & Hos3 & Hno).
  fold r st' in Htr, Hself, Hstop, Hos1, Hos2, Hos3, Hno.
  exists evs.
  split; [exact Htr |]. split; [exact Hself |]. split; [exact Hord |].
  split; [exact Hterm |]. split; [exact Hkill |]. split; [exact Hstop |].
  split; [| split; [exact Hos1 |]; split; [exact Hos2 |];
            split; [exact Hos3 | exact Hno]].
  intros H1 H2 H3. split.
  { destruct (interrupt_sigterm_sent env st Hp H1 H2 H3) as [rest Hrest].
    fold st' in Hrest. rewrite Htr in Hrest. apply app_inv_head in Hrest.
    exists rest. exact Hrest. }
  intros H4 H5. split.
  - intros [rc H6].
    pose proof (interrupt_terminated_run env st rc Hp H1 H2 H3 H4 H5 H6) as Hrun.
    subst r st'. rewrite Hrun in Htr |- *. cbn [fst snd trace] in Htr |- *.
    apply app_inv_head in Htr. split; [reflexivity | symmetry; exact Htr].
  - intros H6.
    destruct (interrupt_sigkill_sent env st Hp H1 H2 H3 H4 H5 H6)
      as (r0 & rest & Hrun & Hsig & Hdone).
    subst r st'. rewrite Hrun in Htr |- *. cbn [fst snd trace] in Htr |- *.
    apply app_inv_head in Htr. subst evs.
    split; [| split].
    + unfold signals_of in *. rewrite flat_map_app, Hsig. reflexivity.
    + exists rest. reflexivity.
    + intros H7. destruct (Hdone H7) as [-> ->]. split; reflexivity.
Qed.

(** A process that ignores every signal gets all three. *)
Lemma interrupt_escalation_witness :
  let st := Sample.live in
  let st' := snd (BaseMgr._interrupt Sample.stubborn st) in
  p (self st) <> None /\
  exists evs,
    trace st' = trace st ++ evs /\
    signals_of evs = [SIGINT; SIGTERM; SIGKILL] /\
    fst (BaseMgr._interrupt Sample.stubborn st) = Ok tt /\
    evs = [ESignal SIGINT; ESleep 100; EPoll;
           ESignal SIGTERM; ESleep 100; EPoll; ESignal SIGKILL;
           EStdout ("Process is killed." +:+ nl)].
Proof.
  intros st st'.
  assert (Hp : p (self st) <> None) by discriminate.
  split; [exact Hp |].
  pose proof (interrupt_escalation Sample.stubborn st Hp) as H.
  cbv zeta in H.
  destruct H as (evs & Htr & _ & _ & _ & _ & _ & Halive & _).
  destruct (Halive eq_refl eq_refl eq_refl) as (_ & Hterm).
  destruct (Hterm eq_refl eq_refl) as (_ & Hkill).
  destruct (Hkill eq_refl) as (Hsig & _ & Hdone).
  destruct (Hdone eq_refl) as (Hr & Hevs).
  exists evs. split; [exact Htr |]. split; [exact Hsig |].
  split; [exact Hr | exact Hevs].
Defined.
(** *** Spawning a missing executable *)

Lemma spawn_or_report_run env argv prog (st : state) :
  BaseMgr.spawn_or_report env argv prog st =
    match Popen env (trace st) argv with
    | Ok n =>
        (Ok true, {| self := set_p n (self st);
                     trace := trace st ++ [EPopen argv];
                     user_ns := user_ns st |})
    | Raise (OSError errno) =>
        if errno =? ENOENT
        then (Ok false,
              {| self := self st;
                 trace := trace st ++ [EPopen argv;
                            EStdout ("Couldn't find program: " +:+ Py.repr prog +:+ nl)];
                 user_ns := user_ns st |})
        else (Raise (OSError errno), log (EPopen argv) st)
    | Raise e => (Raise e, log (EPopen argv) st)
    | Diverges => (Diverges, log (EPopen argv) st)
    end.
Proof.
  unfold BaseMgr.spawn_or_report, try_except, subprocess_Popen, call, bind.
  destruct (Popen env (trace st) argv) as [n | e |]; cbn; try reflexivity.
  destruct e; try reflexivity.
  destruct (errno =? ENOENT); cbn; [| reflexivity].
  rewrite <- app_assoc. reflexivity.
Qed.

(** Without a process, [submit] fails on reading [self.p] and changes
    nothing. *)
Lemma basic_submit_without_process env c (st : state) :
  p (self st) = None ->
  BasicMgr.submit env c st = (Raise AttributeError, st).
Proof.
  intros Hp.
  cbv [BasicMgr.submit bind gets try_except p_communicate getattr].
  rewrite Hp. reflexivity.
Qed.

Lemma slurm_submit_without_process env c (st : state) :
  p (self st) = None ->
  SlurmMgr.submit env c st = (Raise AttributeError, st).
Proof.
  intros Hp.
  cbv [SlurmMgr.submit bind gets try_except p_communicate getattr].
  rewrite Hp. reflexivity.
Qed.

(** A cluster job that was not started is neither polled nor read. *)
Lemma slurm_wait_not_started env fuel silent (st : state) :
  _is_started (self st) = false ->
  SlurmMgr.wait_progress env fuel silent st = (Ok tt, st).
Proof.
  intros Hs. cbv [SlurmMgr.wait_progress bind gets when].
  rewrite Hs. reflexivity.
Qed.

Lemma slurm_get_output_not_ready env (st : state) :
  _is_started (self st) = false \/ _is_terminated (self st) = Some false ->
  SlurmMgr.get_output env st = (Ok (Some (None, None)), st).
Proof.
  intros H. cbv [SlurmMgr.get_output bind gets getattr ret].
  destruct (_is_started (self st)); [| reflexivity].
  destruct H as [H | H]; [discriminate | rewrite H; reflexivity].
Qed.

Lemma ssh_get_output_not_terminated env (st : state) :
  _is_terminated (self st) = Some false ->
  SSHMgr.get_output env st = (Ok None, st).
Proof.
  intros Ht. cbv [SSHMgr.get_output bind getattr].
  rewrite Ht. reflexivity.
Qed.

(** C9: when spawning fails with an [OSError], every backend prints only
    the "Couldn't find program" line for errno ENOENT and returns normally --
    the constructor of the local and cluster backends, [submit] of the remote
    backend -- leaving an instance without process, output or progress
    (not started, not terminated; its later [submit] fails on the missing
    process without changing it, [wait_progress] does nothing and
    [get_output] gives no output); for every other errno the same [OSError]
    is raised to the caller. *)
Theorem missing_executable env (errno : Z) args sh content (st : state) :
  (forall h argv, Popen env h argv = Raise (OSError errno)) ->
  let build c := ExecuteMagics.instantiate env c [AList args; AStr sh; ANamespace] st in
  let diag prog := EStdout ("Couldn't find program: '" +:+ prog +:+ "'" +:+ nl) in
  (* local backend *)
  (let r := build BasicMgr in
   if errno =? ENOENT then
     fst r = Ok tt /\
     trace (snd r) = trace st ++ [EPopen ("bash" :: args); diag "bash"] /\
     p (self (snd r)) = None /\
     out (self (snd r)) = None /\ err (self (snd r)) = None /\
     user_ns (snd r) = user_ns st /\
     (forall c, BasicMgr.submit env c (snd r) = (Raise AttributeError, snd r)) /\
     BasicMgr.get_output (snd r) = (Ok (Some (None, None)), snd r)
   else fst r = Raise (OSError errno)) /\
  (* cluster backend *)
  (forall a rest,
     slurm_parser env args = Ok (a, rest) ->
     (_DEFAULT_SLURM_OUTERR_FILE env = None -> environ_HOME env <> None) ->
     let r := build SlurmMgr in
     if errno =? ENOENT then
       fst r = Ok tt /\
       trace (snd r) = trace st ++ [EPopen (cmd (self (snd r))); diag "sbatch"] /\
       p (self (snd r)) = None /\
       _is_started (self (snd r)) = false /\
       _is_terminated (self (snd r)) = Some false /\
       out (self (snd r)) = None /\ err (self (snd r)) = None /\
       user_ns (snd r) = user_ns st /\
       (forall c, SlurmMgr.submit env c (snd r) = (Raise AttributeError, snd r)) /\
       (forall fuel silent,
          SlurmMgr.wait_progress env fuel silent (snd r) = (Ok tt, snd r)) /\
       SlurmMgr.get_output env (snd r) = (Ok (Some (None, None)), snd r)
     else fst r = Raise (OSError errno)) /\
  (* remote backend: the process is spawned by submit *)
  (forall a rest,
     ssh_parser env args = Ok (a, rest) ->
     let st1 := snd (build SSHMgr) in
     let r := SSHMgr.submit env content st1 in
     fst (build SSHMgr) = Ok tt /\
     trace st1 = trace st /\
     if errno =? ENOENT then
       fst r = Ok None /\
       trace (snd r) =
         trace st ++ [EPopen (["ssh"; "-n"; host a] ++ rest ++ [content]); diag "ssh"] /\
       p (self (snd r)) = None /\
       _is_terminated (self (snd r)) = Some false /\
       out (self (snd r)) = None /\ err (self (snd r)) = None /\
       user_ns (snd r) = user_ns st /\
       SSHMgr.get_output env (snd r) = (Ok None, snd r)
     else fst r = Raise (OSError errno)).
Proof.
  intros HP build diag. subst build diag.
  unfold ExecuteMagics.instantiate, ExecuteMagics.__init__.
  split; [| split].
  - unfold BasicMgr.__init__, BaseMgr.__init__, bind, modify, gets.
    cbn [fst snd self trace user_ns].
    rewrite spawn_or_report_run. cbn [fst snd self trace user_ns]. rewrite HP.
    destruct (errno =? ENOENT); [| reflexivity].
    cbn [fst snd self trace user_ns].
    repeat (split; [reflexivity |]).
    reflexivity.
  - intros a rest Hparse Hhome.
    unfold SlurmMgr.__init__, BaseMgr.__init__.
    assert (Htmpl : exists f,
               (match _DEFAULT_SLURM_OUTERR_FILE env with
                | None =>
                    match environ_HOME env with
                    | Some home =>
                        modify (set_outerr_files
                                  (Py.path_join home "python-execute-slurm.%J"))
                    | None => raise KeyError
                    end
                | Some f => modify (set_outerr_files f)
                end) = modify (set_outerr_files f)).
    { destruct (_DEFAULT_SLURM_OUTERR_FILE env) as [f |]; [now exists f |].
      destruct (environ_HOME env) as [home |]; [eauto | exfalso; now apply Hhome]. }
    destruct Htmpl as [f ->].
    unfold bind, modify, gets, lift.
    cbn [fst snd self trace user_ns]. rewrite Hparse.
    cbn [fst snd self trace user_ns].
    rewrite spawn_or_report_run. cbn [fst snd self trace user_ns]. rewrite HP.
    destruct (errno =? ENOENT); [| reflexivity].
    cbn [fst snd self trace user_ns].
    do 8 (split; [reflexivity |]).
    split; [| split].
    + intros c. now apply slurm_submit_without_process.
    + intros fuel silent. now apply slurm_wait_not_started.
    + apply slurm_get_output_not_ready. now left.
  - intros a rest Hparse.
    unfold SSHMgr.__init__, BaseMgr.__init__, bind, modify, gets, lift.
    cbn [fst snd self trace user_ns]. rewrite Hparse.
    cbn [fst snd self trace user_ns].
    split; [reflexivity |]. split; [reflexivity |].
    unfold SSHMgr.submit, bind, modify, gets, try_except, subprocess_Popen, call.
    cbn [fst snd self trace user_ns log]. rewrite HP.
    destruct (errno =? ENOENT); [| reflexivity].
    cbn [fst snd self trace user_ns log print stdout_write emit ret].
    rewrite <- app_assoc.
    do 7 (split; [reflexivity |]).
    now apply ssh_get_output_not_terminated.
Qed.

Lemma missing_executable_witness :
  (forall h argv, Popen Sample.no_exec h argv = Raise (OSError ENOENT)) /\
  fst (ExecuteMagics.instantiate Sample.no_exec BasicMgr
         [AList []; AStr "/bin/bash"; ANamespace] Sample.st0) = Ok tt.
Proof.
  split; [reflexivity |].
  pose proof (missing_executable Sample.no_exec ENOENT [] "/bin/bash" "hostname"
                Sample.st0 ltac:(reflexivity)) as H.
  cbv zeta in H. destruct H as [H _].
  change (ENOENT =? ENOENT) with true in H. cbv iota in H.
  destruct H as [H _]. exact H.
Defined.
(** *** Cluster submission *)

(** Decimal job ids: [int] reads back what [str] prints. *)

Lemma append_String c s t : String c s +:+ t = String c (s +:+ t).
Proof. reflexivity. Qed.

Lemma int_digits_decimal d acc :
  Py.int_digits (NilEmpty.string_of_uint d +:+ nl) acc = Some (uint_val d acc).
Proof.
  revert acc.
  induction d; intros acc; cbn [NilEmpty.string_of_uint uint_val];
    rewrite ?append_String; cbn [Py.int_digits].
  1: reflexivity.
  all: match goal with
       | |- context [Py.digit_val ?c] =>
           let v := eval vm_compute in (Py.digit_val c) in
           change (Py.digit_val c) with v
       end.
  all: apply IHd.
Qed.

Lemma uint_val_pos d : forall acc : positive,
  uint_val d (Z.pos acc) = Z.pos (Pos.of_uint_acc d acc).
Proof.
  induction d; intros acc; cbn [uint_val Pos.of_uint_acc]; try reflexivity;
    rewrite <- IHd; f_equal; lia.
Qed.

Lemma uint_val_0 d : uint_val d 0 = Z.of_uint d.
Proof.
  unfold Z.of_uint.
  induction d; cbn [uint_val Pos.of_uint]; try reflexivity;
    match goal with
    | |- context [10 * 0 + ?k] => change (10 * 0 + k) with k
    end;
    first [exact IHd | rewrite uint_val_pos; reflexivity].
Qed.

Lemma split_decimal d :
  Py.split " " (NilEmpty.string_of_uint d +:+ nl) = [NilEmpty.string_of_uint d +:+ nl].
Proof.
  induction d; cbn [NilEmpty.string_of_uint]; rewrite ?append_String;
    cbn [Py.split].
  1: reflexivity.
  all: match goal with
       | |- context [Ascii.eqb ?a ?b] =>
           let v := eval vm_compute in (Ascii.eqb a b) in
           change (Ascii.eqb a b) with v
       end.
  all: cbv iota; rewrite IHd; reflexivity.
Qed.

Lemma int_decimal d :
  d <> Decimal.Nil ->
  Py.int (NilEmpty.string_of_uint d +:+ nl) = Some (Z.of_uint d).
Proof.
  intros Hd. rewrite <- uint_val_0.
  destruct d; try congruence.
  all: cbn [NilEmpty.string_of_uint uint_val]; rewrite ?append_String.
  all: unfold Py.int; cbn [Py.lstrip].
  all: match goal with
       | |- context [Py.is_space ?c] =>
           let v := eval vm_compute in (Py.is_space c) in
           change (Py.is_space c) with v
       end.
  all: cbv iota.
  all: repeat match goal with
         | |- context [Ascii.eqb ?a ?b] =>
             let v := eval vm_compute in (Ascii.eqb a b) in
             change (Ascii.eqb a b) with v
         end.
  all: cbv iota; cbn [Py.int_unsigned].
  all: match goal with
       | |- context [Py.digit_val ?c] =>
           let v := eval vm_compute in (Py.digit_val c) in
           change (Py.digit_val c) with v
       end.
  all: cbv iota; apply int_digits_decimal.
Qed.

Lemma split_nonempty sep s : Py.split sep s <> [].
Proof.
  destruct s as [| c s]; cbn [Py.split]; [discriminate |].
  destruct (Ascii.eqb c sep); [discriminate |].
  destruct (Py.split sep s); discriminate.
Qed.

Lemma split_after_marker t :
  Py.last_item (Py.split " " ("Submitted batch job " +:+ t))
  = Py.last_item (Py.split " " t).
Proof.
  rewrite !append_String. change (EmptyString +:+ t) with t.
  cbn [Py.split Ascii.eqb Bool.eqb].
  pose proof (split_nonempty " " t) as Hne.
  destruct (Py.split " " t) as [| w ws]; [congruence | reflexivity].
Qed.

(** The acknowledgment printed for job [n] is accepted and parsed back to [n]. *)
Lemma acknowledgment_of_job_id (n : Z) :
  0 <= n ->
  let o := "Submitted batch job " +:+ Py.str n +:+ nl in
  Py.find o "Submitted batch job" = 0 /\
  Py.int (Py.last_item (Py.split " " o)) = Some n.
Proof.
  intros Hn o. subst o. split; [reflexivity |].
  unfold Py.str.
  assert (Hd : exists d, d <> Decimal.Nil /\
                         NilZero.string_of_int (Z.to_int n) = NilEmpty.string_of_uint d /\
                         Z.of_uint d = n).
  { destruct n as [| q | q]; [| | lia].
    - exists (Decimal.D0 Decimal.Nil). repeat split; congruence.
    - exists (Pos.to_uint q). split; [| split].
      + intros H. pose proof (DecimalPos.Unsigned.of_to q) as Hq. rewrite H in Hq. discriminate.
      + cbn. unfold NilZero.string_of_uint.
        destruct (Pos.to_uint q) eqn:E; try reflexivity.
        pose proof (DecimalPos.Unsigned.of_to q) as Hq. rewrite E in Hq. discriminate.
      + unfold Z.of_uint. rewrite DecimalPos.Unsigned.of_to. reflexivity. }
  destruct Hd as (d & Hd & -> & <-).
  rewrite split_after_marker, split_decimal. cbn [Py.last_item List.last].
  now apply int_decimal.
Qed.

(** A decimal numeral is one word. *)
Lemma split_uint_word d t :
  Py.split " " (NilEmpty.string_of_uint d +:+ String " " t)
  = NilEmpty.string_of_uint d :: Py.split " " t.
Proof.
  induction d; cbn [NilEmpty.string_of_uint]; rewrite ?append_String.
  1: reflexivity.
  all: cbn [Py.split].
  all: match goal with
       | |- context [Ascii.eqb ?a ?b] =>
           let v := eval vm_compute in (Ascii.eqb a b) in
           change (Ascii.eqb a b) with v
       end.
  all: cbv iota; rewrite IHd; reflexivity.
Qed.

(** So is [str(n)], whatever the sign of [n]. *)
Lemma split_str_word (n : Z) t :
  Py.split " " (Py.str n +:+ String " " t) = Py.str n :: Py.split " " t.
Proof.
  unfold Py.str.
  assert (Hu : forall d, Py.split " " (NilZero.string_of_uint d +:+ String " " t)
                         = NilZero.string_of_uint d :: Py.split " " t).
  { intros d. unfold NilZero.string_of_uint.
    destruct d; try reflexivity; apply split_uint_word. }
  destruct (Z.to_int n) as [d | d]; cbn [NilZero.string_of_int].
  - apply Hu.
  - rewrite append_String. cbn [Py.split].
    change (Ascii.eqb "-" " ") with false. cbv iota.
    rewrite Hu. reflexivity.
Qed.

(** The acknowledgment of a submission to a named cluster,
    "Submitted batch job <n> on cluster <name>": its last field is the
    name, not the job id. *)
Lemma acknowledgment_on_cluster (n : Z) (name : string) :
  Py.split " " (name +:+ nl) = [name +:+ nl] ->
  let o := "Submitted batch job " +:+ Py.str n +:+ " on cluster " +:+ name +:+ nl in
  Py.find o "Submitted batch job" = 0 /\
  Py.last_item (Py.split " " o) = name +:+ nl.
Proof.
  intros Hname o. subst o. split; [reflexivity |].
  rewrite split_after_marker.
  change (" on cluster " +:+ name +:+ nl)
    with (String " " ("on cluster " +:+ name +:+ nl)).
  rewrite split_str_word.
  rewrite !append_String. change (EmptyString +:+ (name +:+ nl)) with (name +:+ nl).
  cbn [Py.split Ascii.eqb Bool.eqb]. rewrite Hname. reflexivity.
Qed.

(** The branch of [SlurmMgr.submit] in which [int] fails. *)
Lemma slurm_submit_not_an_integer env content (st : state) (o e : string) :
  p (self st) <> None ->
  communicate env (trace st) (BaseMgr.make_script (shebang (self st)) content)
    = Ok (o, e) ->
  Py.find o "Submitted batch job" = 0 ->
  Py.int (Py.last_item (Py.split " " o)) = None ->
  SlurmMgr.submit env content st
  = (Raise ValueError,
     {| self := set_jobid 0 (self st);
        trace := trace st ++
                   [ECommunicate (BaseMgr.make_script (shebang (self st)) content)];
        user_ns := user_ns st |}).
Proof.
  intros Hp Hc Hfind Hint.
  destruct (p (self st)) as [n0 |] eqn:Ep; [clear Hp | congruence].
  cbv [SlurmMgr.submit bind gets try_except p_communicate getattr call ret].
  rewrite Ep, Hc. cbv [modify].
  rewrite Hfind, Hint.
  reflexivity.
Qed.

(** The accepted branch of [SlurmMgr.submit]. *)
Lemma slurm_submit_accepted env content (st : state) (o e : string) (n : Z) :
  p (self st) <> None ->
  communicate env (trace st) (BaseMgr.make_script (shebang (self st)) content)
    = Ok (o, e) ->
  Py.find o "Submitted batch job" = 0 ->
  Py.int (Py.last_item (Py.split " " o)) = Some n ->
  let r := SlurmMgr.submit env content st in
  fst r = Ok (Some (Some o, Some e)) /\
  _jobid (self (snd r)) = Some n /\
  _is_started (self (snd r)) = true /\
  _is_terminated (self (snd r)) = _is_terminated (self st) /\
  (forall key, _args_jobid (self st) = Some key -> key <> EmptyString ->
               user_ns (snd r) = <[key := VInt n]> (user_ns st)) /\
  (Py.truthy (_args_jobid (self st)) = false -> user_ns (snd r) = user_ns st).
Proof.
  intros Hp Hc Hfind Hint r. subst r.
  destruct (p (self st)) as [n0 |] eqn:Ep; [clear Hp | congruence].
  cbv [SlurmMgr.submit bind gets try_except p_communicate getattr call ret].
  rewrite Ep, Hc. cbv [modify].
  rewrite Hfind, Hint.
  change (0 =? 0) with true. cbv iota beta.
  cbn [self trace user_ns log set_jobid set_is_started _args_jobid].
  destruct (_args_jobid (self st)) as [key |] eqn:Ek.
  - destruct (String.eqb_spec key EmptyString) as [-> | Hne].
    + cbn. repeat split; try reflexivity. intros key [= <-] Hk. congruence.
    + cbn [Py.truthy]. destruct (String.eqb_spec key EmptyString); [congruence |].
      cbn. repeat split; try reflexivity.
      * intros key' [= <-] _. reflexivity.
      * discriminate.
  - cbn. repeat split; try reflexivity. discriminate.
Qed.

(** C1: once the submit command has answered [(o, e)].  If [o] starts
    with "Submitted batch job" and its last space-separated field is an
    integer literal [n], then [n] becomes the job id, the job is started,
    and [n] is stored in the caller's namespace under the [--jobid] name
    when one was given; in particular "Submitted batch job <n>" followed by
    a newline is accepted with job id [n], for every [n >= 0].  If [o] does
    not start with the marker, the job is marked terminated and stays not
    started, one line is written to stderr, a later [wait_progress] does
    nothing and [get_output] returns [(None, None)], both without any
    status query.  But the job id is looked for in the last field only:
    when [o] starts with the marker and a job id, and other text follows,
    as in the acknowledgment "Submitted batch job <n> on cluster <name>" of
    a submission to a named cluster, [int] fails on that last field and
    [submit] raises [ValueError]: the id [n] is not stored (the id kept is
    0), the job is neither started nor marked terminated, and nothing is
    exported or returned. *)
Theorem slurm_submit_acknowledgment env content (st : state) (o e : string) :
  p (self st) <> None ->
  _is_started (self st) = false ->
  communicate env (trace st) (BaseMgr.make_script (shebang (self st)) content)
    = Ok (o, e) ->
  let script := BaseMgr.make_script (shebang (self st)) content in
  let r := SlurmMgr.submit env content st in
  (* accepted: the marker is a prefix and the last field is an integer *)
  (forall n,
     Py.find o "Submitted batch job" = 0 ->
     Py.int (Py.last_item (Py.split " " o)) = Some n ->
     fst r = Ok (Some (Some o, Some e)) /\
     _jobid (self (snd r)) = Some n /\
     _is_started (self (snd r)) = true /\
     _is_terminated (self (snd r)) = _is_terminated (self st) /\
     (forall key, _args_jobid (self st) = Some key -> key <> EmptyString ->
                  user_ns (snd r) = <[key := VInt n]> (user_ns st)) /\
     (Py.truthy (_args_jobid (self st)) = false -> user_ns (snd r) = user_ns st)) /\
  (* in particular for the marker followed by a decimal job id *)
  (forall n,
     0 <= n ->
     o = "Submitted batch job " +:+ Py.str n +:+ nl ->
     fst r = Ok (Some (Some o, Some e)) /\
     _jobid (self (snd r)) = Some n /\
     _is_started (self (snd r)) = true) /\
  (* rejected: the marker is not a prefix *)
  (Py.find o "Submitted batch job" <> 0 ->
     fst r = Ok (Some (Some o, Some e)) /\
     _is_started (self (snd r)) = false /\
     _is_terminated (self (snd r)) = Some true /\
     user_ns (snd r) = user_ns st /\
     trace (snd r) =
       trace st ++ [ECommunicate script;
                    EStderr ("Error during job submission" +:+ nl)] /\
     forall env' fuel silent,
       SlurmMgr.wait_progress env' fuel silent (snd r) = (Ok tt, snd r) /\
       SlurmMgr.get_output env' (snd r) = (Ok (Some (None, None)), snd r)) /\
  (* the marker is a prefix, but the last field is not an integer *)
  (Py.find o "Submitted batch job" = 0 ->
   Py.int (Py.last_item (Py.split " " o)) = None ->
   fst r = Raise ValueError /\
   self (snd r) = set_jobid 0 (self st) /\
   _is_started (self (snd r)) = false /\
   _is_terminated (self (snd r)) = _is_terminated (self st) /\
   user_ns (snd r) = user_ns st /\
   trace (snd r) = trace st ++ [ECommunicate script]) /\
  (* as happens when the job id is followed by the name of the cluster *)
  (forall n name,
     o = "Submitted batch job " +:+ Py.str n +:+ " on cluster " +:+ name +:+ nl ->
     Py.split " " (name +:+ nl) = [name +:+ nl] ->
     Py.int (name +:+ nl) = None ->
     fst r = Raise ValueError /\
     _jobid (self (snd r)) = Some 0 /\
     _is_started (self (snd r)) = false /\
     _is_terminated (self (snd r)) = _is_terminated (self st) /\
     user_ns (snd r) = user_ns st).
Proof.
  intros Hp Hns Hc script r. subst r script.
  split; [| split; [| split; [| split]]].
  - intros n Hfind Hint. now apply slurm_submit_accepted.
  - intros n Hn ->.
    destruct (acknowledgment_of_job_id n Hn) as [Hfind Hint].
    destruct (slurm_submit_accepted env content st _ e n Hp Hc Hfind Hint)
      as (H1 & H2 & H3 & _).
    auto.
  - intros Hfind.
    destruct (p (self st)) as [n0 |] eqn:Ep; [clear Hp | congruence].
    cbv [SlurmMgr.submit bind gets try_except p_communicate getattr call ret].
    rewrite Ep, Hc. cbv [modify].
    destruct (Z.eqb_spec (Py.find o "Submitted batch job") 0) as [| _];
      [contradiction |].
    cbn [fst snd self trace user_ns log stderr_write emit].
    rewrite <- app_assoc.
    do 5 (split; [first [reflexivity | assumption] |]).
    intros env' fuel silent. split.
    + apply slurm_wait_not_started. exact Hns.
    + apply slurm_get_output_not_ready. left. exact Hns.
  - intros Hfind Hint.
    rewrite (slurm_submit_not_an_integer env content st o e Hp Hc Hfind Hint).
    cbn [fst snd self trace user_ns].
    repeat split; try reflexivity. exact Hns.
  - intros n name -> Hname Hint.
    destruct (acknowledgment_on_cluster n name Hname) as [Hfind Hlast].
    cbv zeta in Hfind, Hlast. rewrite <- Hlast in Hint.
    rewrite (slurm_submit_not_an_integer env content st _ e Hp Hc Hfind Hint).
    cbn [fst snd self trace user_ns].
    repeat split; try reflexivity. exact Hns.
Qed.

(** The acknowledgment of a submission to the cluster [gpu]. *)
Lemma slurm_submit_acknowledgment_witness :
  let env := Sample.multi_cluster in
  let st := Sample.built env SlurmMgr ["--jobid"; "jid"] in
  let r := SlurmMgr.submit env "echo hello" st in
  p (self st) <> None /\
  _is_started (self st) = false /\
  communicate env (trace st) (BaseMgr.make_script (shebang (self st)) "echo hello")
    = Ok ("Submitted batch job " +:+ Py.str 4242 +:+ " on cluster " +:+ "gpu" +:+ nl,
          EmptyString) /\
  fst r = Raise ValueError /\
  _jobid (self (snd r)) = Some 0 /\
  _is_started (self (snd r)) = false /\
  _is_terminated (self (snd r)) = _is_terminated (self st) /\
  user_ns (snd r) = user_ns st.
Proof.
  intros env st r.
  assert (Hp : p (self st) <> None) by discriminate.
  assert (Hs : _is_started (self st) = false) by reflexivity.
  assert (Hc : communicate env (trace st)
                 (BaseMgr.make_script (shebang (self st)) "echo hello")
               = Ok ("Submitted batch job " +:+ Py.str 4242 +:+ " on cluster "
                       +:+ "gpu" +:+ nl, EmptyString))
    by (vm_compute; reflexivity).
  split; [exact Hp |]. split; [exact Hs |]. split; [exact Hc |].
  exact (proj2 (proj2 (proj2 (proj2
           (slurm_submit_acknowledgment env "echo hello" st _ EmptyString Hp Hs Hc))))
           4242 "gpu" eq_refl eq_refl eq_refl).
Defined.

(** The same run, computed: on the acknowledgment
    "Submitted batch job 4242 on cluster gpu" [submit] raises
    [ValueError]; the job is neither started nor marked terminated and no
    id is exported. *)
Lemma slurm_submit_trailing_text_raises :
  let st := Sample.built Sample.multi_cluster SlurmMgr ["--jobid"; "jid"] in
  let r := SlurmMgr.submit Sample.multi_cluster "echo hello" st in
  communicate Sample.multi_cluster (trace st)
    (BaseMgr.make_script (shebang (self st)) "echo hello")
    = Ok ("Submitted batch job 4242 on cluster gpu" +:+ nl, EmptyString) /\
  fst r = Raise ValueError /\
  _is_started (self (snd r)) = false /\
  _is_terminated (self (snd r)) = Some false /\
  _jobid (self (snd r)) = Some 0 /\
  user_ns (snd r) !! "jid" = None.
Proof.
  vm_compute. repeat split; reflexivity.
Qed.
(** *** Polling a cluster job *)

Lemma slurm_poll_loop_step env n silent js :
  SlurmMgr.all_absent js SlurmMgr._end_states = true ->
  SlurmMgr.poll_loop env (S n) silent js =
    bind (SlurmMgr.poll_body env silent js) (SlurmMgr.poll_loop env n silent).
Proof. intros H. cbn [SlurmMgr.poll_loop]. rewrite H. reflexivity. Qed.

Lemma slurm_poll_loop_done env n silent js :
  SlurmMgr.all_absent js SlurmMgr._end_states = false ->
  SlurmMgr.poll_loop env n silent js = ret js.
Proof. intros H. destruct n; cbn [SlurmMgr.poll_loop]; rewrite H; reflexivity. Qed.

(** More fuel does not change a polling loop that came to an end. *)
Lemma slurm_poll_loop_mono env silent k n : forall js (st : state) r st',
  SlurmMgr.poll_loop env n silent js st = (r, st') ->
  r <> Diverges ->
  SlurmMgr.poll_loop env (n + k) silent js st = (r, st').
Proof.
  induction n as [| n IH]; intros js st r st' Hrun Hr.
  - destruct (SlurmMgr.all_absent js SlurmMgr._end_states) eqn:Ha.
    + cbn [SlurmMgr.poll_loop] in Hrun. rewrite Ha in Hrun.
      inversion Hrun; subst. congruence.
    + rewrite slurm_poll_loop_done in * by assumption. exact Hrun.
  - destruct (SlurmMgr.all_absent js SlurmMgr._end_states) eqn:Ha.
    + change (S n + k)%nat with (S (n + k)).
      rewrite slurm_poll_loop_step in * by assumption.
      rewrite bind_run in *.
      destruct (SlurmMgr.poll_body env silent js st) as [[js' | e |] st1];
        [now apply IH | exact Hrun | exact Hrun].
    + rewrite slurm_poll_loop_done in * by assumption. exact Hrun.
Qed.

Lemma slurm_wait_progress_mono env silent k n (st : state) r st' :
  SlurmMgr.wait_progress env n silent st = (r, st') ->
  r <> Diverges ->
  SlurmMgr.wait_progress env (n + k) silent st = (r, st').
Proof.
  unfold SlurmMgr.wait_progress. rewrite !bind_run.
  destruct (gets _is_started st) as [[[] | e |] st0]; try (intros; assumption).
  unfold when. rewrite !bind_run.
  destruct (SlurmMgr._get_job_state env st0) as [[js | e |] st1]; try (intros; assumption).
  rewrite !bind_run. unfold try_except.
  destruct (SlurmMgr.poll_loop env n silent js st1) as [r1 st2] eqn:Hloop.
  intros Hrun Hr.
  assert (Hr1 : r1 <> Diverges).
  { intros ->. inversion Hrun; subst. congruence. }
  rewrite (slurm_poll_loop_mono env silent k n js st1 r1 st2 Hloop Hr1).
  exact Hrun.
Qed.

(** A status that is in none of the three vocabularies: the loop body takes
    no step and only asks for the status again. *)
Lemma slurm_poll_body_unrecognized env silent js (st : state) :
  SlurmMgr.any_present js SlurmMgr._wait_states = false ->
  SlurmMgr.any_present js SlurmMgr._run_states = false ->
  SlurmMgr.poll_body env silent js st = SlurmMgr._get_job_state env st.
Proof.
  intros Hw Hr. unfold SlurmMgr.poll_body. rewrite Hw, Hr. reflexivity.
Qed.

(** C2: in the scenario of a job acknowledged by "Submitted batch job 4242"
    whose status queries answer PENDING, PENDING, RUNNING, COMPLETED:
    the job id is 4242 and the job is started; with fuel for three
    iterations or more [wait_progress] returns after exactly two waiting
    steps, then one running step, and four status queries (two iterations
    are not enough); [get_output] then returns the contents of the two
    files named by the template with 4242 in place of the job-id
    placeholder.  In every environment, a status that matches none of the
    wait, run and end vocabularies makes the loop query the status again
    without taking a step. *)
Theorem cluster_job_scenario :
  let env := Sample.cluster in
  let st1 := Sample.built env SlurmMgr [] in
  let st2 := snd (SlurmMgr.submit env "echo hello" st1) in
  let sacct := ["sacct"; "-j4242"; "--format=State"; "-n"; "-X"] in
  (* submission *)
  _jobid (self st2) = Some 4242 /\
  _is_started (self st2) = true /\
  (* polling *)
  (forall (k : nat) (silent : bool),
     let r3 := SlurmMgr.wait_progress env (3 + k) silent st2 in
     let st3 := snd r3 in
     fst r3 = Ok tt /\
     _waiting_steps (self st3) = 2 /\
     _running_steps (self st3) = 1 /\
     _is_terminated (self st3) = Some true /\
     queries (trace st3) = [sacct; sacct; sacct; sacct] /\
     (silent = false ->
      trace st3 =
        trace st2 ++
          [ ECheckOutput sacct;
            EStdout "Waiting for resources "; EStdout "."; ESleep 1000; EStdoutFlush;
            ECheckOutput sacct;
            EStdout "."; ESleep 1000; EStdoutFlush;
            ECheckOutput sacct;
            EStdout nl; EStdout "Running "; EStdout "."; ESleep 1000; EStdoutFlush;
            ECheckOutput sacct;
            EStdout nl;
            EStdout ("End batch job 4242 Status: COMPLETED" +:+ nl);
            EStdoutFlush ]) /\
     (* output *)
     let r4 := SlurmMgr.get_output env st3 in
     let job_f := Py.replace (_outerr_files (self st3)) "%J" "4242" in
     fst r4 = Ok (Some (Some ("hello" +:+ nl), Some ("warning" +:+ nl))) /\
     opened (trace (snd r4)) = [job_f +:+ ".out"; job_f +:+ ".err"] /\
     _outerr_files (self st3) = "/home/user/python-execute-slurm.%J" /\
     job_f = "/home/user/python-execute-slurm.4242") /\
  (forall silent, fst (SlurmMgr.wait_progress env 2 silent st2) = Diverges) /\
  (* an unrecognised status *)
  (forall env' silent js fuel (st : state),
     SlurmMgr.all_absent js SlurmMgr._end_states = true ->
     SlurmMgr.any_present js SlurmMgr._wait_states = false ->
     SlurmMgr.any_present js SlurmMgr._run_states = false ->
     SlurmMgr.poll_loop env' (S fuel) silent js st =
       bind (SlurmMgr._get_job_state env') (SlurmMgr.poll_loop env' fuel silent) st).
Proof.
  intros env st1 st2 sacct.
  split; [reflexivity |]. split; [reflexivity |].
  split; [| split].
  - intros k silent r3 st3.
    assert (Hrun : SlurmMgr.wait_progress env (3 + k) silent st2
                   = SlurmMgr.wait_progress env 3 silent st2).
    { destruct (SlurmMgr.wait_progress env 3 silent st2) as [r st'] eqn:E.
      apply slurm_wait_progress_mono; [exact E |].
      destruct silent; vm_compute in E; inversion E; discriminate. }
    subst r3 st3. rewrite Hrun. clear Hrun k.
    destruct silent; vm_compute; repeat split; intros; discriminate.
  - intros silent. destruct silent; vm_compute; reflexivity.
  - intros env' silent js fuel st Ha Hw Hr.
    rewrite slurm_poll_loop_step by assumption.
    rewrite !bind_run. rewrite slurm_poll_body_unrecognized by assumption.
    reflexivity.
Qed.

Lemma cluster_job_scenario_witness :
  SlurmMgr.all_absent "UNKNOWN" SlurmMgr._end_states = true /\
  SlurmMgr.any_present "UNKNOWN" SlurmMgr._wait_states = false /\
  SlurmMgr.any_present "UNKNOWN" SlurmMgr._run_states = false /\
  SlurmMgr.poll_loop Sample.cluster 1 false "UNKNOWN" Sample.st0 =
    bind (SlurmMgr._get_job_state Sample.cluster)
         (SlurmMgr.poll_loop Sample.cluster 0 false) Sample.st0.
Proof.
  do 3 (split; [reflexivity |]).
  destruct cluster_job_scenario as (_ & _ & _ & _ & H).
  apply H; reflexivity.
Defined.
(** *** Output before termination *)

(** C5: for a job that is not terminated, [get_output] of the local and
    of the cluster backend return the pair [(None, None)], but [get_output]
    of the remote backend returns the bare [None], which the front end's
    [job_out, job_err = job_mgr.get_output()] cannot unpack; before any
    [submit] the remote backend raises [AttributeError] instead. *)
Theorem get_output_before_termination env (st : state) :
  _is_terminated (self st) = Some false ->
  BasicMgr.get_output st = (Ok (Some (None, None)), st) /\
  SlurmMgr.get_output env st = (Ok (Some (None, None)), st) /\
  SSHMgr.get_output env st = (Ok None, st) /\
  bind (SSHMgr.get_output env) ExecuteMagics.unpack st = (Raise TypeError, st) /\
  (forall st0 : state,
     _is_terminated (self st0) = None ->
     SSHMgr.get_output env st0 = (Raise AttributeError, st0)).
Proof.
  intros Ht.
  split; [reflexivity |].
  split.
  { cbv [SlurmMgr.get_output bind gets getattr ret].
    destruct (_is_started (self st)); [rewrite Ht |]; reflexivity. }
  assert (Hssh : SSHMgr.get_output env st = (Ok None, st))
    by now apply ssh_get_output_not_terminated.
  split; [exact Hssh |].
  split.
  { rewrite bind_run, Hssh. reflexivity. }
  intros st0 H0. cbv [SSHMgr.get_output bind getattr]. rewrite H0. reflexivity.
Qed.

Lemma get_output_before_termination_witness :
  _is_terminated (self Sample.ssh_running) = Some false /\
  SSHMgr.get_output Sample.stubborn Sample.ssh_running
    = (Ok None, Sample.ssh_running).
Proof.
  split; [reflexivity |].
  destruct (get_output_before_termination Sample.stubborn Sample.ssh_running
              ltac:(reflexivity)) as (_ & _ & H & _).
  exact H.
Defined.

(** *** Remote submission *)

(** C7: [SSHMgr.submit] spawns the command with the cell as last argument
    and polls once.  When the process has already exited the job is marked
    terminated and both pipes are read and returned.  When it is still
    running, [submit] raises [NameError] on reading [_args], a local of
    [__init__]: the pid is not exported, no message is returned. *)
Theorem ssh_submit_probe env content (st : state) (n : Z) :
  Popen env (trace st) (cmd (self st) ++ [content]) = Ok n ->
  let r := SSHMgr.submit env content st in
  let h1 := trace st ++ [EPopen (cmd (self st) ++ [content])] in
  (* still running at the probe *)
  (poll env h1 = Ok None ->
   fst r = Raise NameError /\
   trace (snd r) = h1 ++ [EPoll] /\
   p (self (snd r)) = Some n /\
   _is_terminated (self (snd r)) = Some false /\
   user_ns (snd r) = user_ns st) /\
  (* already exited *)
  (forall rc so se,
     poll env h1 = Ok (Some rc) ->
     out (self st) = None -> err (self st) = None ->
     readlines env (h1 ++ [EPoll]) StdoutPipe = Ok so ->
     readlines env (h1 ++ [EPoll; EReadlines StdoutPipe]) StderrPipe = Ok se ->
     fst r = Ok (Some (Some so, Some se)) /\
     trace (snd r) = h1 ++ [EPoll; EReadlines StdoutPipe; EReadlines StderrPipe] /\
     p (self (snd r)) = Some n /\
     _is_terminated (self (snd r)) = Some true /\
     out (self (snd r)) = Some so /\ err (self (snd r)) = Some se /\
     user_ns (snd r) = user_ns st).
Proof.
  intros HP r h1. subst r h1.
  cbv [SSHMgr.submit bind modify gets try_except subprocess_Popen call ret p_poll getattr].
  cbn [self trace user_ns log set_is_terminated set_p p cmd fst snd]. rewrite HP.
  cbn [self trace user_ns log set_is_terminated set_p p cmd fst snd].
  split.
  - intros Hpoll. rewrite Hpoll.
    cbv [SSHMgr.load_global raise]. cbn. rewrite <- app_assoc. repeat split.
  - intros rc so se Hpoll Ho He Hso Hse. rewrite Hpoll.
    rewrite <- ?app_assoc in Hso, Hse. cbn [app] in Hso, Hse.
    cbv [SSHMgr.get_output bind getattr gets p_readlines call modify ret].
    cbn [self trace user_ns log set_is_terminated set_p set_out_err p out err
           _is_terminated fst snd].
    rewrite Ho, He.
    cbn [self trace user_ns log set_is_terminated set_p set_out_err p out err
           _is_terminated fst snd].
    rewrite <- ?app_assoc. cbn [app]. rewrite Hso.
    cbn [self trace user_ns log set_is_terminated set_p set_out_err p out err
           _is_terminated fst snd].
    rewrite <- ?app_assoc. cbn [app]. rewrite Hse.
    cbn [self trace user_ns log set_is_terminated set_p set_out_err p out err
           _is_terminated fst snd].
    rewrite <- ?app_assoc. cbn [app].
    repeat split.
Qed.

Lemma ssh_submit_probe_witness :
  let st := Sample.built Sample.stubborn SSHMgr
              ["--host"; "node1"; "--pid"; "mypid"] in
  Popen Sample.stubborn (trace st) (cmd (self st) ++ ["sleep 60"]) = Ok 1234 /\
  fst (SSHMgr.submit Sample.stubborn "sleep 60" st) = Raise NameError /\
  user_ns (snd (SSHMgr.submit Sample.stubborn "sleep 60" st)) !! "mypid" = None.
Proof.
  intros st.
  assert (HP : Popen Sample.stubborn (trace st) (cmd (self st) ++ ["sleep 60"])
               = Ok 1234) by reflexivity.
  split; [exact HP |].
  pose proof (ssh_submit_probe Sample.stubborn "sleep 60" st 1234 HP) as H.
  cbv zeta in H. destruct H as [H _].
  destruct (H ltac:(reflexivity)) as (Hr & _ & _ & _ & Hns).
  split; [exact Hr |]. rewrite Hns. reflexivity.
Defined.
(** *** Result files of a cluster job *)

(** C8: [get_output] of a started and terminated cluster job whose output
    was not read yet, with a status query that answers.  When only the
    output file is missing, or both files are, a "File not found" line is
    written for each missing file, its content is the empty string and the
    other file is still opened.  When only the error file is missing, both
    files are opened and the line is written, but the local [job_err] was
    never assigned ([job_err = ""] sits in the handler of the output file):
    [get_output] raises [UnboundLocalError] and stores nothing. *)
Theorem slurm_get_output_missing_files env (st : state) (j : Z) (js : string) :
  _is_started (self st) = true ->
  _is_terminated (self st) = Some true ->
  _jobid (self st) = Some j ->
  out (self st) = None ->
  err (self st) = None ->
  (forall h argv, check_output env h argv = Ok js) ->
  let job_f := Py.replace (_outerr_files (self st)) "%J" (Py.str j) in
  let r := SlurmMgr.get_output env st in
  let missing f := EStderr ("File not found : " +:+ f +:+ nl) in
  (* only the error file is missing *)
  (forall text,
     (forall h, open_read env h (job_f +:+ ".out") = Ok text) ->
     (forall h, open_read env h (job_f +:+ ".err") = Raise (OSError ENOENT)) ->
     fst r = Raise UnboundLocalError /\
     out (self (snd r)) = None /\ err (self (snd r)) = None /\
     opened (trace (snd r)) = opened (trace st) ++ [job_f +:+ ".out"; job_f +:+ ".err"] /\
     In (missing (job_f +:+ ".err")) (trace (snd r))) /\
  (* only the output file is missing *)
  (forall text,
     (forall h, open_read env h (job_f +:+ ".out") = Raise (OSError ENOENT)) ->
     (forall h, open_read env h (job_f +:+ ".err") = Ok text) ->
     fst r = Ok (Some (Some EmptyString, Some text)) /\
     opened (trace (snd r)) = opened (trace st) ++ [job_f +:+ ".out"; job_f +:+ ".err"] /\
     In (missing (job_f +:+ ".out")) (trace (snd r))) /\
  (* both are missing *)
  ((forall h, open_read env h (job_f +:+ ".out") = Raise (OSError ENOENT)) ->
   (forall h, open_read env h (job_f +:+ ".err") = Raise (OSError ENOENT)) ->
   fst r = Ok (Some (Some EmptyString, Some EmptyString)) /\
   opened (trace (snd r)) = opened (trace st) ++ [job_f +:+ ".out"; job_f +:+ ".err"] /\
   In (missing (job_f +:+ ".out")) (trace (snd r)) /\
   In (missing (job_f +:+ ".err")) (trace (snd r))).
Proof.
  intros Hs Ht Hj Ho He Hq job_f r missing. subst r missing.
  cbv [SlurmMgr.get_output SlurmMgr._get_job_state bind gets getattr ret when
         try_except read_file call subprocess_check_output stderr_write
         stderr_flush emit modify SlurmMgr.load_local raise log].
  repeat progress (cbn [self trace user_ns fst snd];
                   rewrite ?Hs, ?Ht, ?Hj, ?Ho, ?He, ?Hq).
  fold job_f.
  destruct (String.eqb js EmptyString).
  all: repeat progress (cbn [self trace user_ns fst snd];
                        rewrite ?Hs, ?Ht, ?Hj, ?Ho, ?He, ?Hq).
  all: destruct (Py.find js "COMPLETED" <? 0).
  all: repeat progress (cbn [self trace user_ns fst snd];
                        rewrite ?Hs, ?Ht, ?Hj, ?Ho, ?He, ?Hq).
  all: fold job_f.
  all: split; [| split].
  all: intros.
  all: repeat progress (cbn [self trace user_ns fst snd set_out_err out err];
                        rewrite ?H, ?H0, ?Ho, ?He;
                        change (ENOENT =? ENOENT) with true; cbv iota).
  all: rewrite <- ?app_assoc; cbn [app].
  all: rewrite ?opened_app; cbn [opened flat_map app]; rewrite ?app_nil_r.
  all: repeat split; try reflexivity; try assumption.
  all: try (apply in_or_app; right; cbn [In]; tauto).
Qed.

Lemma slurm_get_output_missing_files_witness :
  let st := Sample.finished in
  let env := Sample.err_missing in
  _is_started (self st) = true /\
  _is_terminated (self st) = Some true /\
  _jobid (self st) = Some 4242 /\
  out (self st) = None /\ err (self st) = None /\
  open_read env [] "/home/user/python-execute-slurm.4242.out" = Ok ("hello" +:+ nl) /\
  open_read env [] "/home/user/python-execute-slurm.4242.err" = Raise (OSError ENOENT) /\
  fst (SlurmMgr.get_output env st) = Raise UnboundLocalError.
Proof.
  intros st env.
  do 7 (split; [reflexivity |]).
  pose proof (slurm_get_output_missing_files env st 4242 "COMPLETED"
                ltac:(reflexivity) ltac:(reflexivity) ltac:(reflexivity)
                ltac:(reflexivity) ltac:(reflexivity)
                ltac:(intros; reflexivity)) as H.
  cbv zeta in H. destruct H as [H _].
  destruct (H ("hello" +:+ nl) ltac:(intros; reflexivity) ltac:(intros; reflexivity))
    as [Hr _].
  exact Hr.
Defined.
(** *** Memoized output *)

Lemma ssh_get_output_inv env (st st1 : state) r :
  SSHMgr.get_output env st = (Ok (Some r), st1) ->
  cls (self st1) = cls (self st) /\
  _is_terminated (self st1) = Some true /\
  (out (self st1), err (self st1)) = r /\
  (out (self st1) <> None \/ err (self st1) <> None).
Proof.
  intros H.
  cbv [SSHMgr.get_output bind getattr gets p_readlines call modify ret log] in H.
  repeat (cbn [self trace user_ns fst snd] in H; break_match_in H).
  all: cbn [self trace user_ns fst snd set_out_err out err cls _is_terminated p] in H.
  all: inversion H; subst; clear H.
  all: cbn [self trace user_ns fst snd set_out_err out err cls _is_terminated p].
  all: repeat split; try assumption; try congruence.
  all: try (left; congruence); try (right; congruence).
Qed.

Lemma ssh_get_output_memo env (st : state) :
  _is_terminated (self st) = Some true ->
  (out (self st) <> None \/ err (self st) <> None) ->
  SSHMgr.get_output env st = (Ok (Some (out (self st), err (self st))), st).
Proof.
  intros Ht Hoe.
  cbv [SSHMgr.get_output bind getattr gets ret]. rewrite Ht.
  destruct (out (self st)) as [o |] eqn:Eo, (err (self st)) as [e |] eqn:Ee;
    rewrite ?Eo, ?Ee; try reflexivity.
  destruct Hoe; congruence.
Qed.

(** A status query touches neither the instance nor the namespace, and reads
    no file or pipe. *)
Lemma slurm_get_job_state_frame env (st st' : state) r :
  SlurmMgr._get_job_state env st = (r, st') ->
  self st' = self st /\ user_ns st' = user_ns st /\
  reads (trace st') = reads (trace st).
Proof.
  intros H.
  cbv [SlurmMgr._get_job_state bind getattr subprocess_check_output call ret log] in H.
  repeat (cbn [self trace user_ns fst snd] in H; break_match_in H).
  all: inversion H; subst; clear H.
  all: cbn [self trace user_ns].
  all: repeat match goal with
         | E : match ?x with _ => _ end = _ |- _ => destruct x; inversion E; subst; clear E
         | E : (_, _) = (_, _) |- _ => inversion E; subst; clear E
         end.
  all: cbn [self trace user_ns].
  all: unfold reads; rewrite ?List.filter_app; cbn [List.filter]; rewrite ?app_nil_r.
  all: repeat split; reflexivity.
Qed.

Lemma slurm_get_output_inv env (st st1 : state) r :
  SlurmMgr.get_output env st = (Ok (Some r), st1) ->
  cls (self st1) = cls (self st) /\
  ((_is_started (self st1) = false \/ _is_terminated (self st1) = Some false) /\
   r = (None, None)
   \/
   _is_started (self st1) = true /\
   _is_terminated (self st1) = Some true /\
   _jobid (self st1) <> None /\
   (out (self st1), err (self st1)) = r /\
   (out (self st1) <> None \/ err (self st1) <> None)).
Proof.
  intros H.
  cbv [SlurmMgr.get_output SlurmMgr._get_job_state bind gets getattr ret when
         try_except read_file call subprocess_check_output stderr_write
         stderr_flush emit modify SlurmMgr.load_local raise log] in H.
  repeat (cbn [self trace user_ns fst snd] in H; break_match_in H).
  all: cbn [self trace user_ns fst snd set_out_err out err cls _is_terminated
              _is_started _jobid] in *.
  all: repeat match goal with
         | E : (_, _) = (_, _) |- _ => inversion E; subst; clear E
         end.
  all: cbn [self trace user_ns fst snd set_out_err out err cls _is_terminated
              _is_started _jobid] in *.
  all: split; [reflexivity |].
  all: first [ left; split; [auto | reflexivity]; fail
             | right; repeat split; try assumption; try congruence;
               first [left; congruence | right; congruence] ].
Qed.

Lemma slurm_get_output_memo env (st st' : state) js :
  _is_started (self st) = true ->
  _is_terminated (self st) = Some true ->
  _jobid (self st) <> None ->
  (out (self st) <> None \/ err (self st) <> None) ->
  SlurmMgr._get_job_state env st = (Ok js, st') ->
  exists st3,
    SlurmMgr.get_output env st = (Ok (Some (out (self st), err (self st))), st3) /\
    self st3 = self st /\
    reads (trace st3) = reads (trace st).
Proof.
  intros Hs Ht Hj Hoe Hq.
  destruct (slurm_get_job_state_frame env st st' (Ok js) Hq) as (Hself & _ & Hreads).
  unfold SlurmMgr.get_output.
  rewrite bind_run. cbv [gets]. rewrite Hs.
  rewrite bind_run. cbv [getattr]. rewrite Ht.
  rewrite bind_run, Hq.
  rewrite bind_run. cbn [self]. 
  destruct (_jobid (self st)) as [j |] eqn:Ej; [| congruence].
  cbv [bind when stderr_write stderr_flush emit ret].
  destruct (out (self st)) as [o |] eqn:Eo, (err (self st)) as [e |] eqn:Ee;
    try (destruct Hoe; congruence).
  all: destruct (Py.find js "COMPLETED" <? 0).
  all: repeat progress (cbn [self trace user_ns fst snd]; rewrite ?Hself, ?Ej, ?Eo, ?Ee).
  all: eexists; split; [reflexivity |].
  all: cbn [self trace user_ns]; split; [first [assumption | reflexivity] |].
  all: unfold reads in *; rewrite ?List.filter_app; cbn [List.filter];
    rewrite ?app_nil_r; assumption.
Qed.

(** C6 (as amended): for every backend and every job that has reached a
    terminal state (the remote and the cluster backend record it in
    [_is_terminated]; the local backend runs the job within [submit] and
    keeps no flag), [get_output] memoizes its answer: when a call has
    returned a pair, the next call on the instance as that call left it
    returns the same pair without reading any file or pipe, in whatever
    environment it runs (the files and streams may have changed) -- for the
    cluster backend provided the status query that precedes the answer
    returns.  For the local backend that pair is always [(None, None)]:
    the output captured by [submit] is returned by [submit] and kept in
    [out]/[err], not returned by [get_output]. *)
Theorem get_output_memoized env (st st1 : state) (r : option string * option string) :
  (cls (self st) <> BasicMgr -> _is_terminated (self st) = Some true) ->
  ExecuteMagics.get_output env st = (Ok (Some r), st1) ->
  forall env' (st2 : state),
    self st2 = self st1 ->
    (cls (self st1) = SlurmMgr ->
     exists js st', SlurmMgr._get_job_state env' st2 = (Ok js, st')) ->
    let r2 := ExecuteMagics.get_output env' st2 in
    fst r2 = Ok (Some r) /\
    self (snd r2) = self st1 /\
    reads (trace (snd r2)) = reads (trace st2) /\
    (cls (self st) = BasicMgr -> r = (None, None)).
Proof.
  intros _ H env' st2 Hself Hquery r2. subst r2.
  unfold ExecuteMagics.get_output in *.
  rewrite bind_run in *. cbv [gets] in *. rewrite Hself.
  destruct (cls (self st)) eqn:Ec.
  - (* local *)
    cbv [BasicMgr.get_output ret] in H. inversion H; subst; clear H.
    rewrite Ec. cbv [BasicMgr.get_output ret]. cbn [fst snd].
    repeat split; congruence.
  - (* remote *)
    destruct (ssh_get_output_inv env st st1 r H) as (Hc & Ht & Hr & Hoe).
    rewrite Hc, Ec.
    rewrite <- Hself in Ht, Hr, Hoe.
    rewrite (ssh_get_output_memo env' st2 Ht Hoe). cbn [fst snd].
    rewrite Hr. repeat split; congruence.
  - (* cluster *)
    destruct (slurm_get_output_inv env st st1 r H) as (Hc & Hcase).
    rewrite Hc, Ec.
    destruct Hcase as [[Hnr ->] | (Hs & Ht & Hj & Hr & Hoe)].
    + rewrite <- Hself in Hnr.
      rewrite (slurm_get_output_not_ready env' st2 Hnr). cbn [fst snd].
      repeat split; congruence.
    + destruct (Hquery ltac:(congruence)) as (js & st' & Hq).
      rewrite <- Hself in Hs, Ht, Hj, Hr, Hoe.
      destruct (slurm_get_output_memo env' st2 st' js Hs Ht Hj Hoe Hq)
        as (st3 & -> & Hself3 & Hreads).
      cbn [fst snd]. rewrite Hr.
      repeat split; congruence.
Qed.

Lemma get_output_memoized_witness :
  let r1 := ExecuteMagics.get_output Sample.cluster Sample.finished in
  let text := (Some ("hello" +:+ nl), Some ("warning" +:+ nl)) in
  _is_terminated (self Sample.finished) = Some true /\
  r1 = (Ok (Some text), snd r1) /\
  open_read Sample.err_missing [] "/home/user/python-execute-slurm.4242.err"
    = Raise (OSError ENOENT) /\
  fst (ExecuteMagics.get_output Sample.err_missing (snd r1)) = Ok (Some text).
Proof.
  intros r1 text.
  assert (H0 : _is_terminated (self Sample.finished) = Some true)
    by (vm_compute; reflexivity).
  assert (H1 : ExecuteMagics.get_output Sample.cluster Sample.finished
               = (Ok (Some text), snd r1)) by (vm_compute; reflexivity).
  split; [exact H0 |]. split; [exact H1 |]. split; [reflexivity |].
  pose proof (get_output_memoized Sample.cluster Sample.finished (snd r1) text
                (fun _ => H0) H1 Sample.err_missing (snd r1) eq_refl) as H.
  cbv zeta in H.
  destruct H as [H _]; [| exact H].
  intros _. eexists. eexists. vm_compute. reflexivity.
Defined.

(** C6 (as stated) fails for the local backend: [submit] captured and
    stored the output of the shell, yet [get_output] returns
    [(None, None)], not the stored pair. *)
Lemma basic_get_output_drops_captured_output :
  let env := Sample.local_hello in
  let r := BasicMgr.submit env "echo hello" (Sample.built env BasicMgr []) in
  fst r = Ok (Some (Some ("hello" +:+ nl), Some EmptyString)) /\
  out (self (snd r)) = Some ("hello" +:+ nl) /\
  err (self (snd r)) = Some EmptyString /\
  fst (BasicMgr.get_output (snd r)) = Ok (Some (None, None)) /\
  fst (BasicMgr.get_output (snd r))
    <> Ok (Some (out (self (snd r)), err (self (snd r)))).
Proof.
  vm_compute. repeat split; try reflexivity. discriminate.
Qed.

(** *** The script piped to the interpreter *)

Lemma endswith_newline_app_nl s : Py.endswith_newline (s +:+ nl) = true.
Proof.
  induction s as [| c s IH]; [reflexivity |].
  change (String c s +:+ nl) with (String c (s +:+ nl)).
  cbn [Py.endswith_newline]. rewrite IH.
  destruct (s +:+ nl) eqn:E; [| reflexivity].
  destruct s; discriminate.
Qed.

Lemma prefix_app (s t : string) : String.prefix s (s +:+ t) = true.
Proof.
  induction s as [| c s IH]; [destruct t; reflexivity |].
  change (String c s +:+ t) with (String c (s +:+ t)).
  cbn [String.prefix]. destruct (ascii_dec c c); [exact IH | congruence].
Qed.

Lemma append_assoc (a b c : string) : (a +:+ b) +:+ c = a +:+ (b +:+ c).
Proof.
  induction a as [| x a IH]; [reflexivity |].
  change ((String x a +:+ b) +:+ c) with (String x ((a +:+ b) +:+ c)).
  rewrite IH. reflexivity.
Qed.

(** X1: the script built from the shebang line and the cell always ends
    with a newline and starts with the shebang line; a newline is appended
    only when the text does not already end with one. *)
Theorem make_script_newline_terminated (sb content : string) :
  let script := BaseMgr.make_script sb content in
  Py.endswith_newline script = true /\
  String.prefix sb script = true /\
  (script = sb +:+ content \/ script = (sb +:+ content) +:+ nl) /\
  (script = sb +:+ content <-> Py.endswith_newline (sb +:+ content) = true).
Proof.
  cbv zeta. unfold BaseMgr.make_script.
  destruct (Py.endswith_newline (sb +:+ content)) eqn:E.
  - split; [exact E |]. split; [apply prefix_app |].
    split; [now left |]. split; reflexivity.
  - split; [apply endswith_newline_app_nl |].
    split; [rewrite append_assoc; apply prefix_app |].
    split; [now right |].
    split; [| discriminate].
    intros H. exfalso.
    pose proof (endswith_newline_app_nl (sb +:+ content)) as Hn.
    rewrite H in Hn. congruence.
Qed.

(** *** Interrupting *)

(** X2: on an instance that never got its process, [_interrupt] raises
    [AttributeError] (from the [except Exception] clause, which reads
    [self.p.pid]); no signal is sent and nothing changes. *)
Theorem interrupt_without_process env (st : state) :
  p (self st) = None ->
  BaseMgr._interrupt env st = (Raise AttributeError, st).
Proof.
  intros Hp.
  cbv [BaseMgr._interrupt try_except BaseMgr._interrupt_try p_send_signal bind getattr].
  rewrite Hp. cbv [BaseMgr._interrupt_except bind getattr]. rewrite Hp. reflexivity.
Qed.

Lemma interrupt_without_process_witness :
  p (self Sample.st0) = None /\
  BaseMgr._interrupt Sample.env Sample.st0 = (Raise AttributeError, Sample.st0).
Proof.
  split; [reflexivity |].
  apply interrupt_without_process. reflexivity.
Defined.

(** [_interrupt] only appends events: the instance and the namespace are
    left as they were. *)
Lemma interrupt_frame env (st : state) :
  exists r evs,
    BaseMgr._interrupt env st
      = (r, {| self := self st; trace := trace st ++ evs; user_ns := user_ns st |}).
Proof.
  destruct st as [o tr ns]. cbn [self trace user_ns].
  destruct (p o) as [n0 |] eqn:Ep.
  2: { exists (Raise AttributeError), [].
       cbv [BaseMgr._interrupt try_except BaseMgr._interrupt_try p_send_signal
              bind getattr].
       cbn [self]. rewrite Ep.
       cbv [BaseMgr._interrupt_except bind getattr]. cbn [self]. rewrite Ep.
       now rewrite app_nil_r. }
  unfold BaseMgr._interrupt, try_except, BaseMgr._interrupt_try, p_send_signal,
    p_poll, time_sleep, bind, getattr, call, print, stdout_write, emit, log, ret.
  repeat (repeat progress (cbn [fst snd self trace user_ns app];
                           rewrite ?Ep, <- ?app_assoc);
          oracle_case).
  all: repeat progress (cbn [fst snd self trace user_ns app];
                        rewrite ?Ep, <- ?app_assoc).
  all: try match goal with
       | |- context [BaseMgr._interrupt_except ?e] =>
           match goal with
           | |- context [{| self := ?o'; trace := ?h; user_ns := ?ns' |}] =>
               destruct (interrupt_except_spec e o' h ns' _ Ep)
                 as (r' & evs' & -> & _)
           end
       end.
  all: rewrite <- ?app_assoc.
  all: eexists; eexists; reflexivity.
Qed.

(** X3: when the user interrupts [communicate], [submit] of the local and
    of the cluster backend run the interrupt ladder and then return [None]
    (or raise what the ladder raised); in no case is a pair returned, and
    nothing is recorded on the instance or in the namespace: [out], [err],
    the job id and the started/terminated flags are as before. *)
Theorem submit_interrupted env content (st : state) :
  p (self st) <> None ->
  communicate env (trace st) (BaseMgr.make_script (shebang (self st)) content)
    = Raise KeyboardInterrupt ->
  let script := BaseMgr.make_script (shebang (self st)) content in
  let ladder := BaseMgr._interrupt env (log (ECommunicate script) st) in
  let outcome := match fst ladder with
                 | Ok _ => Ok None
                 | Raise e => Raise e
                 | Diverges => Diverges
                 end in
  (BasicMgr.submit env content st = (outcome, snd ladder) /\
   SlurmMgr.submit env content st = (outcome, snd ladder)) /\
  self (snd ladder) = self st /\
  user_ns (snd ladder) = user_ns st /\
  (forall v, outcome <> Ok (Some v)).
Proof.
  intros Hp Hc script ladder outcome.
  destruct (p (self st)) as [n0 |] eqn:Ep; [clear Hp | congruence].
  destruct (interrupt_frame env (log (ECommunicate script) st)) as (r & evs & Hl).
  subst outcome ladder. 
  split; [split |].
  - cbv [BasicMgr.submit bind gets try_except p_communicate getattr call ret].
    rewrite Ep, Hc. fold script. rewrite Hl. cbn [fst snd].
    destruct r; reflexivity.
  - cbv [SlurmMgr.submit bind gets try_except p_communicate getattr call ret].
    rewrite Ep, Hc. fold script. rewrite Hl. cbn [fst snd].
    destruct r; reflexivity.
  - rewrite Hl. cbn [fst snd self user_ns log].
    split; [reflexivity |]. split; [reflexivity |].
    intros v. destruct r; discriminate.
Qed.

Lemma submit_interrupted_witness :
  let env := Cases.interrupted_submit in
  let st := Sample.built env SlurmMgr [] in
  let script := BaseMgr.make_script (shebang (self st)) "sleep 60" in
  p (self st) <> None /\
  communicate env (trace st) script = Raise KeyboardInterrupt /\
  self (snd (BaseMgr._interrupt env (log (ECommunicate script) st))) = self st.
Proof.
  intros env st script.
  assert (Hp : p (self st) <> None) by (vm_compute; discriminate).
  assert (Hc : communicate env (trace st) script = Raise KeyboardInterrupt)
    by (vm_compute; reflexivity).
  split; [exact Hp |]. split; [exact Hc |].
  exact (proj1 (proj2 (submit_interrupted env "sleep 60" st Hp Hc))).
Defined.

(** X4: when the user interrupts the spawn of the first remote submission
    (the instance has no process yet), the interrupt path itself fails:
    [submit] raises [AttributeError], sends no signal, and leaves the job
    marked not terminated. *)
Theorem ssh_submit_spawn_interrupted env content (st : state) :
  p (self st) = None ->
  Popen env (trace st) (cmd (self st) ++ [content]) = Raise KeyboardInterrupt ->
  SSHMgr.submit env content st
    = (Raise AttributeError,
       {| self := set_is_terminated false (self st);
          trace := trace st ++ [EPopen (cmd (self st) ++ [content])];
          user_ns := user_ns st |}).
Proof.
  intros Hp HP.
  cbv [SSHMgr.submit bind modify gets try_except subprocess_Popen call].
  cbn [self trace user_ns cmd set_is_terminated]. rewrite HP.
  cbv [BaseMgr._interrupt try_except BaseMgr._interrupt_try p_send_signal
         bind getattr].
  unfold log, set_is_terminated. cbn [self p trace user_ns]. rewrite Hp.
  cbv [BaseMgr._interrupt_except bind getattr].
  cbn [self p trace user_ns].
  reflexivity.
Qed.

Lemma ssh_submit_spawn_interrupted_witness :
  let env := Cases.interrupted_spawn in
  let st := Sample.built env SSHMgr ["--host"; "node1"] in
  p (self st) = None /\
  Popen env (trace st) (cmd (self st) ++ ["hostname"]) = Raise KeyboardInterrupt /\
  SSHMgr.submit env "hostname" st
    = (Raise AttributeError,
       {| self := set_is_terminated false (self st);
          trace := trace st ++ [EPopen (cmd (self st) ++ ["hostname"])];
          user_ns := user_ns st |}).
Proof.
  intros env st.
  assert (Hp : p (self st) = None) by (vm_compute; reflexivity).
  assert (HP : Popen env (trace st) (cmd (self st) ++ ["hostname"])
               = Raise KeyboardInterrupt) by (vm_compute; reflexivity).
  split; [exact Hp |]. split; [exact HP |].
  exact (ssh_submit_spawn_interrupted env "hostname" st Hp HP).
Defined.

(** *** Progress steps *)

(** The stepper in closed form, once a row is selected. *)
Lemma print_step_and_wait_run env s silent (st : state) l t c rows :
  BaseMgr.matching_rows s = (l, t, c) :: rows ->
  s < l ->
  BaseMgr._print_step_and_wait env s silent st =
    let h := trace st ++ (if silent then [] else [EStdout c]) in
    match sleep env h (1000 * t) with
    | Ok _ =>
        (Ok tt, {| self := self st;
                   trace := h ++ [ESleep (1000 * t); EStdoutFlush];
                   user_ns := user_ns st |})
    | Raise e =>
        (Raise e, {| self := self st; trace := h ++ [ESleep (1000 * t)];
                     user_ns := user_ns st |})
    | Diverges =>
        (Diverges, {| self := self st; trace := h ++ [ESleep (1000 * t)];
                      user_ns := user_ns st |})
    end.
Proof.
  intros Hrows Hlt. unfold BaseMgr._print_step_and_wait. rewrite Hrows.
  destruct (Z.ltb_spec s l); [| lia].
  destruct st as [o tr ns].
  unfold when, bind, stdout_write, stdout_flush, emit, time_sleep, call, log, ret.
  destruct silent; cbn [negb self trace user_ns fst snd app].
  - rewrite app_nil_r.
    destruct (sleep env tr (1000 * t)) as [[] | e |]; cbn [self trace user_ns];
      rewrite <- ?app_assoc; reflexivity.
  - destruct (sleep env (tr ++ [EStdout c]) (1000 * t)) as [[] | e |];
      cbn [self trace user_ns]; rewrite <- ?app_assoc; reflexivity.
Qed.

(** The row used for step number [s]. *)
Lemma matching_rows_head s :
  s < 10 ^ 12 ->
  exists rows,
    BaseMgr.matching_rows s =
      (if s <? 10 then (10, 1, ".")
       else if s <? 20 then (20, 10, "o")
       else if s <? 30 then (30, 60, "O")
       else (10 ^ 12, 600, "@")) :: rows.
Proof.
  intros Hs.
  destruct (Z.ltb_spec s 10); [rewrite matching_rows_lt_10 by lia; eexists; reflexivity |].
  destruct (Z.ltb_spec s 20); [rewrite matching_rows_lt_20 by lia; eexists; reflexivity |].
  destruct (Z.ltb_spec s 30); [rewrite matching_rows_lt_30 by lia; eexists; reflexivity |].
  rewrite matching_rows_lt_1e12 by lia. eexists; reflexivity.
Qed.

Ltac step_effect_tac env silent n Hn :=
  let rows := fresh "rows" in
  let Hrows := fresh "Hrows" in
  destruct (matching_rows_head (n + 1) Hn) as [rows Hrows];
  cbv [bind gets modify when stdout_write emit ret];
  cbn [self trace user_ns set_running_steps set_waiting_steps
         _running_steps _waiting_steps];
  fold n;
  destruct (Z.ltb_spec (n + 1) 10);
    [| destruct (Z.ltb_spec (n + 1) 20);
       [| destruct (Z.ltb_spec (n + 1) 30)]];
  destruct silent, (n =? 0);
  cbn [negb andb self trace user_ns fst snd];
  (erewrite print_step_and_wait_run by first [exact Hrows | lia]);
  cbv zeta; cbn [self trace user_ns fst snd app];
  rewrite ?app_nil_r;
  match goal with
  | |- context [sleep ?e ?h ?t] => destruct (sleep e h t) as [[] | ? |]
  end;
  cbn [self trace user_ns fst snd];
  rewrite <- ?app_assoc; cbn [app];
  (split; [reflexivity |]); (split; [reflexivity |]);
  (split; [| intros; lia]); intros _;
  first [ left; split; reflexivity
        | right; split; [discriminate | reflexivity] ].

(** The same beyond the last row of the table. *)
Ltac step_beyond_tac silent n Hn :=
  cbv [bind gets modify when stdout_write emit ret];
  cbn [self trace user_ns set_running_steps set_waiting_steps
         _running_steps _waiting_steps];
  fold n;
  destruct (Z.eqb_spec n 0); [lia |];
  destruct silent;
  cbn [negb andb self trace user_ns fst snd];
  rewrite print_step_and_wait_beyond_table by exact Hn;
  cbn [self trace user_ns fst snd];
  (split; [reflexivity |]); (split; [reflexivity |]);
  (split; [intros; lia |]); intros _;
  split; reflexivity.

(** X5: a running (resp. waiting) step always increments its own counter
    by one and touches nothing else on the instance nor the namespace,
    whatever happens next.  While the incremented counter is below the last
    limit of the table, 10^12: the banner is written exactly when the
    counter was 0 and the call is not silent; the interval slept is chosen
    for the incremented counter, so the steps taken at counters 0..8 sleep
    1 s, 9..18 sleep 10 s, 19..28 sleep 60 s and later ones 600 s; the
    flush follows only when the sleep returned.  From 10^12 on no row of
    the table is left: the step raises [IndexError] with its counter
    incremented, and writes nothing, sleeps not and flushes not. *)
Theorem step_effect env silent (st : state) :
  (* a running step *)
  (let n := _running_steps (self st) in
   let r := BaseMgr._step_running env silent st in
   let row := if n + 1 <? 10 then (1, ".")
              else if n + 1 <? 20 then (10, "o")
              else if n + 1 <? 30 then (60, "O")
              else (600, "@") in
   let banner := if negb silent && (n =? 0) then [EStdout "Running "] else [] in
   let glyph := if silent then [] else [EStdout (snd row)] in
   self (snd r) = set_running_steps (n + 1) (self st) /\
   user_ns (snd r) = user_ns st /\
   (n + 1 < 10 ^ 12 ->
    fst r = Ok tt /\
    trace (snd r) = trace st ++ banner ++ glyph
                      ++ [ESleep (1000 * fst row); EStdoutFlush]
    \/
    fst r <> Ok tt /\
    trace (snd r) = trace st ++ banner ++ glyph ++ [ESleep (1000 * fst row)]) /\
   (10 ^ 12 <= n + 1 ->
    fst r = Raise IndexError /\ trace (snd r) = trace st)) /\
  (* a waiting step *)
  (let n := _waiting_steps (self st) in
   let r := BaseMgr._step_waiting env silent st in
   let row := if n + 1 <? 10 then (1, ".")
              else if n + 1 <? 20 then (10, "o")
              else if n + 1 <? 30 then (60, "O")
              else (600, "@") in
   let banner := if negb silent && (n =? 0)
                 then [EStdout "Waiting for resources "] else [] in
   let glyph := if silent then [] else [EStdout (snd row)] in
   self (snd r) = set_waiting_steps (n + 1) (self st) /\
   user_ns (snd r) = user_ns st /\
   (n + 1 < 10 ^ 12 ->
    fst r = Ok tt /\
    trace (snd r) = trace st ++ banner ++ glyph
                      ++ [ESleep (1000 * fst row); EStdoutFlush]
    \/
    fst r <> Ok tt /\
    trace (snd r) = trace st ++ banner ++ glyph ++ [ESleep (1000 * fst row)]) /\
   (10 ^ 12 <= n + 1 ->
    fst r = Raise IndexError /\ trace (snd r) = trace st)).
Proof.
  split.
  - intros n r row banner glyph. subst r row banner glyph.
    unfold BaseMgr._step_running.
    destruct st as [o tr ns]. cbn [self trace user_ns] in *.
    destruct (Z.lt_ge_cases (n + 1) (10 ^ 12)) as [Hn | Hn].
    + step_effect_tac env silent n Hn.
    + step_beyond_tac silent n Hn.
  - intros n r row banner glyph. subst r row banner glyph.
    unfold BaseMgr._step_waiting.
    destruct st as [o tr ns]. cbn [self trace user_ns] in *.
    destruct (Z.lt_ge_cases (n + 1) (10 ^ 12)) as [Hn | Hn].
    + step_effect_tac env silent n Hn.
    + step_beyond_tac silent n Hn.
Qed.

(** A first step on a fresh instance, and a step at the end of the table. *)
Lemma step_effect_witness :
  let st := Sample.live in
  let last := {| self := set_running_steps (10 ^ 12 - 1) (self Sample.live);
                 trace := []; user_ns := user_ns Sample.live |} in
  _running_steps (self st) + 1 < 10 ^ 12 /\
  10 ^ 12 <= _running_steps (self last) + 1 /\
  (fst (BaseMgr._step_running Sample.env false st) = Ok tt /\
   trace (snd (BaseMgr._step_running Sample.env false st))
   = trace st ++ [EStdout "Running "; EStdout "."; ESleep 1000; EStdoutFlush]) /\
  (fst (BaseMgr._step_running Sample.env false last) = Raise IndexError /\
   trace (snd (BaseMgr._step_running Sample.env false last)) = trace last).
Proof.
  intros st last.
  assert (H : _running_steps (self st) + 1 < 10 ^ 12)
    by (vm_compute; reflexivity).
  assert (Hl : 10 ^ 12 <= _running_steps (self last) + 1)
    by (vm_compute; discriminate).
  split; [exact H |]. split; [exact Hl |].
  split.
  - destruct (proj1 (proj2 (proj2 (proj1 (step_effect Sample.env false st)))) H)
      as [Hok | [Hko _]].
    + exact Hok.
    + exfalso. apply Hko. vm_compute. reflexivity.
  - exact (proj2 (proj2 (proj2 (proj1 (step_effect Sample.env false last)))) Hl).
Defined.
(** *** Waiting for a remote job *)

(** The stepper only appends display events. *)
Lemma print_step_and_wait_frame env s silent (st : state) :
  exists r evs,
    BaseMgr._print_step_and_wait env s silent st
      = (r, {| self := self st; trace := trace st ++ evs; user_ns := user_ns st |}) /\
    forallb display_event evs = true.
Proof.
  destruct (Z.lt_ge_cases s (10 ^ 12)) as [Hs | Hs].
  - destruct (matching_rows_head s Hs) as [rows Hrows].
    assert (Hrun := fun l t c H1 H2 =>
              print_step_and_wait_run env s silent st l t c rows H1 H2).
    destruct (Z.ltb_spec s 10);
      [| destruct (Z.ltb_spec s 20); [| destruct (Z.ltb_spec s 30)]].
    all: rewrite (Hrun _ _ _ Hrows ltac:(lia)); cbv zeta.
    all: destruct silent; rewrite ?app_nil_r.
    all: match goal with
         | |- context [sleep ?e ?h ?t] => destruct (sleep e h t) as [[] | ? |]
         end.
    all: rewrite <- ?app_assoc; cbn [app].
    all: eexists; eexists; split; reflexivity.
  - rewrite print_step_and_wait_beyond_table by exact Hs.
    exists (Raise IndexError), []. rewrite app_nil_r.
    destruct st; split; reflexivity.
Qed.

(** A running step: the counter goes up by one, only display events are
    appended. *)
Lemma step_running_frame env silent (st : state) :
  exists r evs,
    BaseMgr._step_running env silent st
      = (r, {| self := set_running_steps (_running_steps (self st) + 1) (self st);
               trace := trace st ++ evs; user_ns := user_ns st |}) /\
    forallb display_event evs = true.
Proof.
  unfold BaseMgr._step_running.
  cbv [bind gets modify when stdout_write emit ret].
  destruct (negb silent && (_running_steps (self st) =? 0)).
  all: cbn [self trace user_ns fst snd set_running_steps _running_steps].
  all: match goal with
       | |- context [BaseMgr._print_step_and_wait ?e ?s ?b ?st1] =>
           destruct (print_step_and_wait_frame e s b st1)
             as (r & evs & -> & Hd)
       end.
  all: cbn [self trace user_ns fst snd].
  - exists r, (EStdout "Running " :: evs). rewrite <- app_assoc. split; [reflexivity |].
    cbn [forallb display_event andb]. exact Hd.
  - exists r, evs. split; [reflexivity | exact Hd].
Qed.

Lemma polls_app l1 l2 : polls (l1 ++ l2) = (polls l1 + polls l2)%nat.
Proof. unfold polls. rewrite List.filter_app. apply List.length_app. Qed.

Lemma polls_display evs : forallb display_event evs = true -> polls evs = 0%nat.
Proof.
  induction evs as [| e evs IH]; [reflexivity |].
  cbn [forallb]. intros H. apply andb_prop in H. destruct H as [He H].
  change (e :: evs) with ([e] ++ evs). rewrite polls_app, IH by exact H.
  destruct e; try discriminate; reflexivity.
Qed.

Lemma display_progress evs :
  forallb display_event evs = true -> forallb progress_event evs = true.
Proof.
  induction evs as [| e evs IH]; [reflexivity |].
  cbn [forallb]. intros H. apply andb_prop in H. destruct H as [He H].
  rewrite (IH H), andb_true_r. destruct e; try discriminate; reflexivity.
Qed.

Lemma frame_no_step (st : state) evs :
  {| self := set_running_steps (_running_steps (self st) + Z.of_nat 0) (self st);
     trace := trace st ++ evs; user_ns := user_ns st |}
  = {| self := self st; trace := trace st ++ evs; user_ns := user_ns st |}.
Proof.
  destruct st as [o tr ns]. destruct o. cbn.
  rewrite Z.add_0_r. reflexivity.
Qed.

(** The polling loop of the remote backend: [k] running steps were taken,
    nothing else changed on the instance; when it returns, one more poll
    than steps was made. *)
Lemma ssh_poll_loop_spec env silent fuel : forall st : state,
  exists r k evs,
    SSHMgr.poll_loop env fuel silent st
      = (r, {| self := set_running_steps (_running_steps (self st) + Z.of_nat k)
                         (self st);
               trace := trace st ++ evs; user_ns := user_ns st |}) /\
    (r = Ok tt -> polls evs = S k) /\
    (p (self st) = None -> r = Raise AttributeError /\ k = 0%nat /\ evs = []) /\
    forallb progress_event evs = true.
Proof.
  induction fuel as [| fuel IH]; intros st.
  all: cbn [SSHMgr.poll_loop]; cbv [bind p_poll getattr call ret diverge].
  all: destruct (p (self st)) as [n0 |] eqn:Ep;
    [| exists (Raise AttributeError), 0%nat, [];
       rewrite frame_no_step, app_nil_r; destruct st;
       repeat split; congruence].
  all: destruct (poll env (trace st)) as [[rc |] | e |] eqn:Epoll.
  all: cbn [fst snd].
  all: try (eexists; exists 0%nat, [EPoll];
            rewrite frame_no_step;
            split; [reflexivity |];
            split; [intros; try discriminate; reflexivity |];
            split; [congruence | reflexivity]).
  (* the process is alive and there is fuel: one step, then the loop again *)
  destruct (step_running_frame env silent (log EPoll st)) as (r1 & evs1 & -> & Hd).
  destruct r1 as [[] | e |].
  - match goal with
    | |- context [SSHMgr.poll_loop env fuel silent ?st1] =>
        destruct (IH st1) as (r2 & k2 & evs2 & -> & Hp2 & _ & Hq2)
    end.
    exists r2, (S k2), (EPoll :: evs1 ++ evs2).
    cbn [self trace user_ns log set_running_steps _running_steps].
    split; [| split; [| split; [congruence |]]].
    + f_equal. f_equal.
      * destruct (self st); cbv [set_running_steps]; cbn.
        f_equal; lia.
      * rewrite <- !app_assoc. reflexivity.
    + intros Hr. change (EPoll :: evs1 ++ evs2) with ([EPoll] ++ evs1 ++ evs2).
      rewrite !polls_app, (polls_display evs1 Hd), (Hp2 Hr). reflexivity.
    + cbn [forallb progress_event andb]. rewrite forallb_app, Hq2.
      rewrite (display_progress evs1 Hd). reflexivity.
  - exists (Raise e), 1%nat, (EPoll :: evs1).
    cbn [self trace user_ns log]. rewrite <- !app_assoc.
    split; [reflexivity |]. split; [discriminate |]. split; [congruence |].
    cbn [forallb progress_event andb]. exact (display_progress evs1 Hd).
  - exists Diverges, 1%nat, (EPoll :: evs1).
    cbn [self trace user_ns log]. rewrite <- !app_assoc.
    split; [reflexivity |]. split; [discriminate |]. split; [congruence |].
    cbn [forallb progress_event andb]. exact (display_progress evs1 Hd).
Qed.

(** X6: [SSHMgr.wait_progress] changes nothing on the instance but the
    count of running steps and, when it returns, the termination flag; the
    notebook namespace is left alone.  When it returns, the child was polled
    exactly once more than steps were displayed, and the last thing written
    is the line "Done" (unless silent).  When it does not return (an
    exception, or a child that never ends), the termination flag is not
    set.  Whatever happens, the only things done to the outside are polls
    of the child, writes to the standard output and sleeps: no signal is
    sent, no pipe is read, no other program is started.  On an instance
    whose process was never created it raises AttributeError without
    polling or printing anything. *)
Theorem ssh_wait_progress_effect env fuel silent (st : state) :
  exists r k evs,
    SSHMgr.wait_progress env fuel silent st
      = (r, {| self :=
                 (match r with
                  | Ok _ => set_is_terminated true
                  | _ => fun m => m
                  end)
                   (set_running_steps (_running_steps (self st) + Z.of_nat k)
                      (self st));
               trace :=
                 trace st ++ evs ++
                   (match r with
                    | Ok _ => if silent then []
                              else [EStdout (nl +:+ "Done" +:+ nl); EStdoutFlush]
                    | _ => []
                    end);
               user_ns := user_ns st |}) /\
    (r = Ok tt -> polls evs = S k) /\
    forallb progress_event evs = true /\
    (p (self st) = None -> r = Raise AttributeError /\ k = 0%nat /\ evs = []).
Proof.
  destruct (ssh_poll_loop_spec env silent fuel st)
    as (r & k & evs & Hrun & Hpolls & Hnone & Hq).
  exists r, k, evs.
  split; [| split; [| split]; assumption].
  cbv [SSHMgr.wait_progress bind]. rewrite Hrun.
  destruct r as [[] | e |]; [| rewrite app_nil_r; reflexivity ..].
  destruct silent; cbn; rewrite <- ?app_assoc, ?app_nil_r; reflexivity.
Qed.
(** *** Status queries *)

Lemma sacct_words (j : Z) :
  Py.split " " ("sacct -j" +:+ Py.str j +:+ " --format=State -n -X")
  = ["sacct"; "-j" +:+ Py.str j; "--format=State"; "-n"; "-X"].
Proof.
  rewrite !append_String. change (EmptyString +:+ ?s) with s.
  cbn [Py.split Ascii.eqb Bool.eqb].
  rewrite split_str_word. reflexivity.
Qed.

Lemma squeue_words (j : Z) :
  Py.split " " ("squeue -j" +:+ Py.str j +:+ " -h -o '%T'")
  = ["squeue"; "-j" +:+ Py.str j; "-h"; "-o"; "'%T'"].
Proof.
  rewrite !append_String. change (EmptyString +:+ ?s) with s.
  cbn [Py.split Ascii.eqb Bool.eqb].
  rewrite split_str_word. reflexivity.
Qed.

(** X7: the status query of a job whose id is [j].  The accounting
    database is asked first, with the five words
    [sacct -j<j> --format=State -n -X]; the queue is asked, with the five
    words [squeue -j<j> -h -o '%T'], exactly when the accounting answer is
    the empty string, and its answer is then the result.  The job id is
    always one word of the command, whatever its sign.  A failure of either
    command is passed on; the instance and the notebook namespace are not
    touched. *)
Theorem get_job_state_queries env (st : state) (j : Z) :
  _jobid (self st) = Some j ->
  let sacct := ["sacct"; "-j" +:+ Py.str j; "--format=State"; "-n"; "-X"] in
  let squeue := ["squeue"; "-j" +:+ Py.str j; "-h"; "-o"; "'%T'"] in
  let asked evs :=
    {| self := self st; trace := trace st ++ evs; user_ns := user_ns st |} in
  SlurmMgr._get_job_state env st
  = match check_output env (trace st) sacct with
    | Ok s =>
        if String.eqb s EmptyString
        then (check_output env (trace st ++ [ECheckOutput sacct]) squeue,
              asked [ECheckOutput sacct; ECheckOutput squeue])
        else (Ok s, asked [ECheckOutput sacct])
    | Raise e => (Raise e, asked [ECheckOutput sacct])
    | Diverges => (Diverges, asked [ECheckOutput sacct])
    end.
Proof.
  intros Hj sacct squeue asked.
  cbv [SlurmMgr._get_job_state bind getattr subprocess_check_output call ret log].
  rewrite Hj, sacct_words, squeue_words.
  fold sacct squeue. cbn [self trace user_ns fst snd].
  destruct (check_output env (trace st) sacct) as [s | e |]; try reflexivity.
  destruct (String.eqb s EmptyString); [| reflexivity].
  cbn [self trace user_ns fst snd]. subst asked. cbv beta.
  rewrite <- app_assoc. reflexivity.
Qed.

Lemma get_job_state_queries_witness :
  let st := Sample.finished in
  _jobid (self st) = Some 4242 /\
  SlurmMgr._get_job_state Sample.env st
  = (Ok EmptyString,
     {| self := self st;
        trace := trace st ++
                   [ECheckOutput ["sacct"; "-j4242"; "--format=State"; "-n"; "-X"];
                    ECheckOutput ["squeue"; "-j4242"; "-h"; "-o"; "'%T'"]];
        user_ns := user_ns st |}).
Proof.
  intros st.
  assert (Hj : _jobid (self st) = Some 4242) by (vm_compute; reflexivity).
  split; [exact Hj |].
  exact (get_job_state_queries Sample.env st 4242 Hj).
Defined.
(** *** Waiting for a cluster job *)

Lemma display_scheduler evs :
  forallb display_event evs = true -> forallb scheduler_event evs = true.
Proof.
  induction evs as [| e evs IH]; [reflexivity |].
  cbn [forallb]. intros H. apply andb_prop in H. destruct H as [He H].
  rewrite (IH H), andb_true_r. destruct e; try discriminate; reflexivity.
Qed.

Lemma stepped_0 evs (st : state) :
  stepped 0 0 evs st
  = {| self := self st; trace := trace st ++ evs; user_ns := user_ns st |}.
Proof.
  destruct st as [o tr ns]. destruct o. unfold stepped, set_waiting_steps, set_running_steps.
  cbn. rewrite !Z.add_0_r. reflexivity.
Qed.

Lemma stepped_00 (st : state) : stepped 0 0 [] st = st.
Proof. rewrite stepped_0, app_nil_r. destruct st; reflexivity. Qed.

Lemma stepped_stepped kw kr evs kw' kr' evs' (st : state) :
  stepped kw' kr' evs' (stepped kw kr evs st)
  = stepped (kw + kw') (kr + kr') (evs ++ evs') st.
Proof.
  destruct st as [o tr ns]. destruct o.
  unfold stepped, set_waiting_steps, set_running_steps. cbn.
  rewrite <- app_assoc, !Nat2Z.inj_add, !Z.add_assoc. reflexivity.
Qed.

Lemma steps_only_ret {A} (a : A) : steps_only (ret a).
Proof.
  intros st. exists (Ok a), 0%nat, 0%nat, []. rewrite stepped_00.
  split; reflexivity.
Qed.

Lemma steps_only_raise {A} e : steps_only (@raise A e).
Proof.
  intros st. exists (Raise e), 0%nat, 0%nat, []. rewrite stepped_00.
  split; reflexivity.
Qed.

Lemma steps_only_diverge {A} : steps_only (@diverge A).
Proof.
  intros st. exists Diverges, 0%nat, 0%nat, []. rewrite stepped_00.
  split; reflexivity.
Qed.

Lemma steps_only_bind {A B} (m : M A) (k : A -> M B) :
  steps_only m -> (forall a, steps_only (k a)) -> steps_only (bind m k).
Proof.
  intros Hm Hk st. rewrite bind_run.
  destruct (Hm st) as (r & kw & kr & evs & -> & He).
  destruct r as [a | e |].
  - destruct (Hk a (stepped kw kr evs st)) as (r' & kw' & kr' & evs' & -> & He').
    exists r', (kw + kw')%nat, (kr + kr')%nat, (evs ++ evs').
    rewrite stepped_stepped, forallb_app, He, He'. split; reflexivity.
  - exists (Raise e), kw, kr, evs. split; [reflexivity | exact He].
  - exists Diverges, kw, kr, evs. split; [reflexivity | exact He].
Qed.

Lemma steps_only_try {A} (body : M A) handler :
  steps_only body ->
  (forall e h, handler e = Some h -> steps_only h) ->
  steps_only (try_except body handler).
Proof.
  intros Hb Hh st. unfold try_except.
  destruct (Hb st) as (r & kw & kr & evs & -> & He).
  destruct r as [a | e |].
  - exists (Ok a), kw, kr, evs. split; [reflexivity | exact He].
  - destruct (handler e) as [h |] eqn:Eh.
    + destruct (Hh e h Eh (stepped kw kr evs st)) as (r' & kw' & kr' & evs' & -> & He').
      exists r', (kw + kw')%nat, (kr + kr')%nat, (evs ++ evs').
      rewrite stepped_stepped, forallb_app, He, He'. split; reflexivity.
    + exists (Raise e), kw, kr, evs. split; [reflexivity | exact He].
  - exists Diverges, kw, kr, evs. split; [reflexivity | exact He].
Qed.

Lemma steps_only_when b (m : M unit) : steps_only m -> steps_only (when b m).
Proof. destruct b; [trivial | intros _; apply steps_only_ret]. Qed.

Lemma steps_only_gets {A} (f : mgr -> A) : steps_only (gets f).
Proof.
  intros st. exists (Ok (f (self st))), 0%nat, 0%nat, []. rewrite stepped_00.
  split; reflexivity.
Qed.

Lemma steps_only_getattr {A} (f : mgr -> option A) : steps_only (getattr f).
Proof.
  intros st. unfold getattr.
  destruct (f (self st)) as [v |];
    [exists (Ok v), 0%nat, 0%nat, [] | exists (Raise AttributeError), 0%nat, 0%nat, []].
  all: rewrite stepped_00; split; reflexivity.
Qed.

Lemma steps_only_call {A} e (oracle : list event -> result A) :
  scheduler_event e = true -> steps_only (call e oracle).
Proof.
  intros He st. exists (oracle (trace st)), 0%nat, 0%nat, [e].
  rewrite stepped_0. split; [reflexivity |].
  cbn [forallb]. rewrite He. reflexivity.
Qed.

Lemma steps_only_emit e : scheduler_event e = true -> steps_only (emit e).
Proof.
  intros He st. exists (Ok tt), 0%nat, 0%nat, [e].
  rewrite stepped_0. split; [reflexivity |].
  cbn [forallb]. rewrite He. reflexivity.
Qed.

(** A waiting step: the counter goes up by one, only display events are
    appended. *)
Lemma step_waiting_frame env silent (st : state) :
  exists r evs,
    BaseMgr._step_waiting env silent st
      = (r, {| self := set_waiting_steps (_waiting_steps (self st) + 1) (self st);
               trace := trace st ++ evs; user_ns := user_ns st |}) /\
    forallb display_event evs = true.
Proof.
  unfold BaseMgr._step_waiting.
  cbv [bind gets modify when stdout_write emit ret].
  destruct (negb silent && (_waiting_steps (self st) =? 0)).
  all: cbn [self trace user_ns fst snd set_waiting_steps _waiting_steps].
  all: match goal with
       | |- context [BaseMgr._print_step_and_wait ?e ?s ?b ?st1] =>
           destruct (print_step_and_wait_frame e s b st1)
             as (r & evs & -> & Hd)
       end.
  all: cbn [self trace user_ns fst snd].
  - exists r, (EStdout "Waiting for resources " :: evs).
    rewrite <- app_assoc. split; [reflexivity |].
    cbn [forallb display_event andb]. exact Hd.
  - exists r, evs. split; [reflexivity | exact Hd].
Qed.

Lemma steps_only_step_running env silent :
  steps_only (BaseMgr._step_running env silent).
Proof.
  intros st.
  destruct (step_running_frame env silent st) as (r & evs & -> & Hd).
  exists r, 0%nat, 1%nat, evs. split; [| exact (display_scheduler evs Hd)].
  f_equal. destruct st as [o tr ns]. destruct o.
  unfold stepped, set_waiting_steps, set_running_steps. cbn.
  rewrite Z.add_0_r. reflexivity.
Qed.

Lemma steps_only_step_waiting env silent :
  steps_only (BaseMgr._step_waiting env silent).
Proof.
  intros st.
  destruct (step_waiting_frame env silent st) as (r & evs & -> & Hd).
  exists r, 1%nat, 0%nat, evs. split; [| exact (display_scheduler evs Hd)].
  f_equal. destruct st as [o tr ns]. destruct o.
  unfold stepped, set_waiting_steps, set_running_steps. cbn.
  rewrite Z.add_0_r. reflexivity.
Qed.

Lemma steps_only_get_job_state env : steps_only (SlurmMgr._get_job_state env).
Proof.
  unfold SlurmMgr._get_job_state.
  apply steps_only_bind; [apply steps_only_getattr | intros j].
  apply steps_only_bind; [apply steps_only_call; reflexivity | intros js].
  destruct (String.eqb js EmptyString);
    [apply steps_only_call; reflexivity | apply steps_only_ret].
Qed.

Lemma steps_only_poll_body env silent js :
  steps_only (SlurmMgr.poll_body env silent js).
Proof.
  unfold SlurmMgr.poll_body.
  apply steps_only_bind; [| intros _].
  { apply steps_only_when, steps_only_step_waiting. }
  apply steps_only_bind; [| intros _; apply steps_only_get_job_state].
  apply steps_only_when.
  apply steps_only_bind; [apply steps_only_gets | intros w].
  apply steps_only_bind; [apply steps_only_gets | intros r].
  apply steps_only_bind; [| intros _; apply steps_only_step_running].
  do 2 apply steps_only_when. apply steps_only_emit. reflexivity.
Qed.

Lemma steps_only_poll_loop env silent fuel : forall js,
  steps_only (SlurmMgr.poll_loop env fuel silent js).
Proof.
  induction fuel as [| fuel IH]; intros js; cbn [SlurmMgr.poll_loop].
  all: destruct (SlurmMgr.all_absent js SlurmMgr._end_states);
    [| apply steps_only_ret].
  - apply steps_only_diverge.
  - apply steps_only_bind; [apply steps_only_poll_body | apply IH].
Qed.

(** The loop is left normally only on a final state. *)
Lemma slurm_poll_loop_final env silent fuel : forall js (st st' : state) js',
  SlurmMgr.poll_loop env fuel silent js st = (Ok js', st') ->
  SlurmMgr.all_absent js' SlurmMgr._end_states = false.
Proof.
  induction fuel as [| fuel IH]; intros js st st' js'; cbn [SlurmMgr.poll_loop].
  all: destruct (SlurmMgr.all_absent js SlurmMgr._end_states) eqn:E.
  all: cbv [ret diverge]; try congruence.
  rewrite bind_run.
  destruct (SlurmMgr.poll_body env silent js st) as [[js1 | e |] st1];
    try discriminate.
  apply IH.
Qed.

(** A status query returns only for an instance that has a job id. *)
Lemma get_job_state_has_jobid env (st st' : state) js :
  SlurmMgr._get_job_state env st = (Ok js, st') -> _jobid (self st) <> None.
Proof.
  unfold SlurmMgr._get_job_state. rewrite bind_run. unfold getattr.
  destruct (_jobid (self st)); [discriminate | discriminate].
Qed.
Lemma calls_app l1 l2 : calls (l1 ++ l2) = calls l1 ++ calls l2.
Proof. unfold calls. apply flat_map_app. Qed.

(** The closing display of [SlurmMgr.wait_progress]. *)
Lemma slurm_wait_tail silent js (st : state) j :
  _jobid (self st) = Some j ->
  exists pre,
    when (negb silent)
      (w ← gets _waiting_steps; r ← gets _running_steps;
       when ((w >? 0) || (r >? 0)) (stdout_write nl);;
       j ← getattr _jobid;
       stdout_write ("End batch job " +:+ Py.str j +:+ " Status: "
                       +:+ js +:+ nl);;
       stdout_flush)%py st
    = (Ok tt,
       {| self := self st;
          trace := trace st ++ pre ++
                     (if silent then []
                      else [EStdout ("End batch job " +:+ Py.str j +:+ " Status: "
                                       +:+ js +:+ nl); EStdoutFlush]);
          user_ns := user_ns st |}) /\
    forallb display_event pre = true /\ calls pre = [].
Proof.
  intros Hj. destruct silent; cbn [negb when].
  - exists []. cbn [app]. rewrite app_nil_r. destruct st. repeat split.
  - cbv [bind gets getattr when stdout_write stdout_flush emit ret].
    destruct ((_waiting_steps (self st) >? 0) || (_running_steps (self st) >? 0)).
    all: cbn [self trace user_ns]; rewrite Hj; cbn [self trace user_ns].
    + exists [EStdout nl]. rewrite <- !app_assoc. repeat split.
    + exists []. rewrite <- !app_assoc. repeat split.
Qed.
(** The handler of an interrupt during the wait: the job is cancelled,
    then its state is asked once more. *)
Lemma slurm_cancel_run env (st : state) j :
  _jobid (self st) = Some j ->
  exists r kw kr evs,
    (j ← getattr _jobid;
     stdout_write ("Terminate job " +:+ Py.str j +:+ " " +:+ nl);;
     stdout_flush;;
     subprocess_check_call env ["scancel"; Py.str j];;
     time_sleep env 1000;;
     SlurmMgr._get_job_state env)%py st
    = (r, stepped kw kr
            ([EStdout ("Terminate job " +:+ Py.str j +:+ " " +:+ nl);
              EStdoutFlush; ECheckCall ["scancel"; Py.str j]] ++ evs) st) /\
    forallb scheduler_event evs = true.
Proof.
  intros Hj.
  cbv [bind getattr stdout_write stdout_flush emit subprocess_check_call
         time_sleep call log].
  rewrite Hj. cbn [self trace user_ns].
  rewrite <- !app_assoc. cbn [app].
  destruct (check_call env _ _) as [[] | e |].
  2, 3: eexists _, 0%nat, 0%nat, []; rewrite stepped_0;
    split; reflexivity.
  destruct (sleep env _ _) as [[] | e |].
  2, 3: eexists _, 0%nat, 0%nat, [ESleep 1000]; rewrite stepped_0;
    rewrite <- ?app_assoc; split; reflexivity.
  match goal with
  | |- context [SlurmMgr._get_job_state env ?s] =>
      destruct (steps_only_get_job_state env s) as (r & kw & kr & evs & -> & He)
  end.
  exists r, kw, kr, (ESleep 1000 :: evs).
  split; [| cbn [forallb scheduler_event display_event andb]; exact He].
  unfold stepped. cbn [self trace user_ns]. rewrite <- !app_assoc. reflexivity.
Qed.

(** The [try] statement of [SlurmMgr.wait_progress]. *)
Lemma slurm_wait_try env fuel silent js (st : state) j :
  _jobid (self st) = Some j ->
  exists r kw kr evs,
    try_except
      (SlurmMgr.poll_loop env fuel silent js)
      (fun e =>
         match e with
         | KeyboardInterrupt =>
             Some (j ← getattr _jobid;
                   stdout_write ("Terminate job " +:+ Py.str j
                                   +:+ " " +:+ nl);;
                   stdout_flush;;
                   subprocess_check_call env ["scancel"; Py.str j];;
                   time_sleep env 1000;;
                   SlurmMgr._get_job_state env)%py
         | _ => None
         end) st
    = (r, stepped kw kr evs st) /\
    forallb scheduler_event evs = true /\
    (forall js', r = Ok js' -> calls evs = [] ->
                 SlurmMgr.all_absent js' SlurmMgr._end_states = false).
Proof.
  intros Hj. unfold try_except.
  destruct (steps_only_poll_loop env silent fuel js st)
    as (r1 & kw1 & kr1 & evs1 & Hl & He1).
  rewrite Hl.
  destruct r1 as [js1 | e |].
  - exists (Ok js1), kw1, kr1, evs1. split; [reflexivity |]. split; [exact He1 |].
    intros js' Hr _. inversion Hr; subst.
    exact (slurm_poll_loop_final env silent fuel js st _ js' Hl).
  - destruct e.
    2: { destruct (slurm_cancel_run env (stepped kw1 kr1 evs1 st) j)
           as (r & kw & kr & evs & -> & He).
         { unfold stepped. cbn. exact Hj. }
         eexists r, _, _, _. rewrite stepped_stepped.
         split; [reflexivity |]. split.
         - rewrite forallb_app, He1. cbn [app forallb scheduler_event display_event andb].
           exact He.
         - intros js' _ Hc. rewrite !calls_app in Hc. cbn in Hc.
           destruct (calls evs1); discriminate. }
    all: eexists _, kw1, kr1, evs1; split; [reflexivity |]; split; [exact He1 |];
      intros; discriminate.
  - exists Diverges, kw1, kr1, evs1. split; [reflexivity |]. split; [exact He1 |].
    intros; discriminate.
Qed.

(** X8: [SlurmMgr.wait_progress], whatever the scheduler answers and
    however long it takes.  On the instance it changes only the two step
    counters, which never decrease, and the termination flag, which it sets
    exactly when the job was started and the method returns; the captured
    output, the job id, the command and the notebook namespace are never
    touched.  To the outside it only writes to the standard output, sleeps
    and runs scheduler commands: it reads no file and sends no signal.  For
    a job that was never started it does nothing at all.  When it returns
    for a started job and is not silent, the last thing displayed is the
    line "End batch job <id> Status: <state>", and unless a command was
    run through [check_call] (the cancellation after an interrupt) the
    state shown is one of the final states. *)
Theorem slurm_wait_progress_effect env fuel silent (st : state) :
  exists r kw kr evs,
    SlurmMgr.wait_progress env fuel silent st
      = (r, {| self :=
                 (match r with
                  | Ok _ => if _is_started (self st)
                            then set_is_terminated true else fun m => m
                  | _ => fun m => m
                  end)
                   (set_waiting_steps (_waiting_steps (self st) + Z.of_nat kw)
                      (set_running_steps (_running_steps (self st) + Z.of_nat kr)
                         (self st)));
               trace := trace st ++ evs;
               user_ns := user_ns st |}) /\
    forallb scheduler_event evs = true /\
    (_is_started (self st) = false ->
     r = Ok tt /\ kw = 0%nat /\ kr = 0%nat /\ evs = []) /\
    (r = Ok tt -> _is_started (self st) = true -> silent = false ->
     exists j js pre,
       _jobid (self st) = Some j /\
       evs = pre ++ [EStdout ("End batch job " +:+ Py.str j +:+ " Status: "
                                +:+ js +:+ nl); EStdoutFlush] /\
       (calls pre = [] -> SlurmMgr.all_absent js SlurmMgr._end_states = false)).
Proof.
  unfold SlurmMgr.wait_progress.
  rewrite bind_run. unfold gets at 1.
  destruct (_is_started (self st)) eqn:Es; cbn [when].
  2: { exists (Ok tt), 0%nat, 0%nat, [].
       change (ret tt st) with (Ok tt, st).
       pose proof (stepped_00 st) as H0. unfold stepped in H0. rewrite H0.
       repeat split; congruence. }
  rewrite bind_run.
  destruct (steps_only_get_job_state env st) as (r0 & kw0 & kr0 & evs0 & Hq & He0).
  rewrite Hq.
  destruct r0 as [js0 | e |].
  2: exists (Raise e), kw0, kr0, evs0.
  3: exists Diverges, kw0, kr0, evs0.
  2, 3: split; [reflexivity |];
    split; [exact He0 |]; split; intros; discriminate.
  pose proof (get_job_state_has_jobid env st _ js0 Hq) as Hj.
  destruct (_jobid (self st)) as [j |] eqn:Ej; [clear Hj | congruence].
  rewrite bind_run.
  destruct (slurm_wait_try env fuel silent js0 (stepped kw0 kr0 evs0 st) j)
    as (r1 & kw1 & kr1 & evs1 & -> & He1 & Hend).
  { unfold stepped. cbn. exact Ej. }
  rewrite stepped_stepped.
  destruct r1 as [js1 | e |].
  2: exists (Raise e), (kw0 + kw1)%nat, (kr0 + kr1)%nat, (evs0 ++ evs1).
  3: exists Diverges, (kw0 + kw1)%nat, (kr0 + kr1)%nat, (evs0 ++ evs1).
  2, 3: split; [reflexivity |];
    split; [rewrite forallb_app, He0, He1; reflexivity |];
    split; intros; discriminate.
  rewrite bind_run. unfold modify at 1.
  match goal with
  | |- context [when (negb silent) ?m ?s] =>
      destruct (slurm_wait_tail silent js1 s j) as (pre & Ht & Hd & Hc)
  end.
  { unfold stepped. cbn. exact Ej. }
  rewrite Ht. clear Ht.
  exists (Ok tt), (kw0 + kw1)%nat, (kr0 + kr1)%nat,
    ((evs0 ++ evs1) ++ pre ++
       (if silent then []
        else [EStdout ("End batch job " +:+ Py.str j +:+ " Status: "
                         +:+ js1 +:+ nl); EStdoutFlush])).
  split; [| split; [| split]].
  - unfold stepped. cbn [self trace user_ns]. rewrite <- !app_assoc. reflexivity.
  - rewrite !forallb_app, He0, He1, (display_scheduler pre Hd).
    destruct silent; reflexivity.
  - intros; discriminate.
  - intros _ _ ->. exists j, js1, ((evs0 ++ evs1) ++ pre).
    split; [reflexivity |]. split; [rewrite <- !app_assoc; reflexivity |].
    rewrite !calls_app. intros Hcalls.
    apply (Hend js1 eq_refl).
    destruct (calls evs0); [| discriminate].
    destruct (calls evs1); [reflexivity | discriminate].
Qed.
(** *** Interrupting the wait for a cluster job *)

(** A status query runs no command through [check_call]. *)
Lemma get_job_state_asks env (st : state) :
  exists r evs,
    SlurmMgr._get_job_state env st
    = (r, {| self := self st; trace := trace st ++ evs; user_ns := user_ns st |}) /\
    calls evs = [].
Proof.
  cbv [SlurmMgr._get_job_state bind getattr subprocess_check_output call ret log].
  destruct (_jobid (self st)) as [j |].
  2: { exists (Raise AttributeError), []. rewrite app_nil_r. destruct st. split; reflexivity. }
  cbn [self trace user_ns].
  destruct (check_output env (trace st) _) as [s | e |].
  2, 3: eexists _, [_]; split; reflexivity.
  destruct (String.eqb s EmptyString).
  - eexists _, [_; _]. cbn [self trace user_ns]. rewrite <- app_assoc.
    split; reflexivity.
  - eexists _, [_]. split; reflexivity.
Qed.

(** X9: the user interrupts [SlurmMgr.wait_progress] while it watches a
    started job [j].  The method announces "Terminate job <j>", then runs
    [scancel <j>], and no other command through [check_call].  If the
    cancellation fails, its exception escapes and the job is not marked
    terminated.  If it succeeds, after a pause of one second the state of
    the job is asked once more, and when that query answers the method
    returns normally with the job marked terminated and that state
    displayed -- whatever it is, a final state or not. *)
Theorem slurm_wait_interrupted env fuel silent (st st1 st2 : state) j js :
  _is_started (self st) = true ->
  _jobid (self st) = Some j ->
  SlurmMgr._get_job_state env st = (Ok js, st1) ->
  SlurmMgr.poll_loop env fuel silent js st1 = (Raise KeyboardInterrupt, st2) ->
  let notice :=
    [EStdout ("Terminate job " +:+ Py.str j +:+ " " +:+ nl); EStdoutFlush] in
  let scancel := ["scancel"; Py.str j] in
  exists r evs,
    SlurmMgr.wait_progress env fuel silent st
    = (r, {| self := (match r with
                      | Ok _ => set_is_terminated true
                      | _ => fun m => m
                      end) (self st2);
             trace := trace st2 ++ notice ++ ECheckCall scancel :: evs;
             user_ns := user_ns st2 |}) /\
    calls evs = [] /\
    (forall e, check_call env (trace st2 ++ notice) scancel = Raise e ->
               r = Raise e /\ evs = []) /\
    (check_call env (trace st2 ++ notice) scancel = Ok tt ->
     sleep env (trace st2 ++ notice ++ [ECheckCall scancel]) 1000 = Ok tt ->
     forall js',
       fst (SlurmMgr._get_job_state env
              {| self := self st2;
                 trace := trace st2 ++ notice ++ [ECheckCall scancel; ESleep 1000];
                 user_ns := user_ns st2 |}) = Ok js' ->
       r = Ok tt /\
       (silent = false ->
        exists pre,
          evs = pre ++ [EStdout ("End batch job " +:+ Py.str j +:+ " Status: "
                                   +:+ js' +:+ nl); EStdoutFlush])).
Proof.
  intros Es Ej Hq Hl notice scancel.
  assert (Ej2 : _jobid (self st2) = Some j).
  { destruct (steps_only_get_job_state env st) as (r0 & kw0 & kr0 & evs0 & Hq' & _).
    rewrite Hq in Hq'. inversion Hq'; subst st1.
    destruct (steps_only_poll_loop env silent fuel js (stepped kw0 kr0 evs0 st))
      as (r1 & kw1 & kr1 & evs1 & Hl' & _).
    rewrite Hl in Hl'. inversion Hl'; subst st2.
    unfold stepped. cbn. exact Ej. }
  subst notice scancel. cbn [app].
  unfold SlurmMgr.wait_progress.
  rewrite bind_run. unfold gets at 1. rewrite Es. cbn [when].
  rewrite bind_run, Hq, bind_run.
  unfold try_except at 1. rewrite Hl.
  rewrite bind_run. unfold getattr at 1. rewrite Ej2.
  rewrite bind_run. unfold stdout_write at 1, emit at 1.
  rewrite bind_run. unfold stdout_flush at 1, emit at 1.
  cbn [self trace user_ns].
  rewrite bind_run. unfold subprocess_check_call at 1, call at 1, log.
  cbn [self trace user_ns]. rewrite <- !app_assoc. cbn [app].
  destruct (check_call env _ _) as [[] | e |] eqn:Ecc.
  2: { exists (Raise e), []. split; [reflexivity |]. split; [reflexivity |].
       split; [intros e' He'; inversion He'; split; reflexivity | discriminate]. }
  2: { exists Diverges, []. split; [reflexivity |]. split; [reflexivity |].
       split; [intros e' He'; discriminate | discriminate]. }
  rewrite bind_run. unfold time_sleep at 1, call at 1, log.
  cbn [self trace user_ns]. rewrite <- !app_assoc. cbn [app].
  destruct (sleep env _ _) as [[] | e |] eqn:Esl.
  2: { exists (Raise e), [ESleep 1000]. split; [reflexivity |]. split; [reflexivity |].
       split; [intros e' He'; discriminate | intros _ He'; discriminate]. }
  2: { exists Diverges, [ESleep 1000]. split; [reflexivity |]. split; [reflexivity |].
       split; [intros e' He'; discriminate | intros _ He'; discriminate]. }
  match goal with
  | |- context [SlurmMgr._get_job_state env ?s] =>
      destruct (get_job_state_asks env s) as (r3 & evs3 & Hq3 & Hc3)
  end.
  rewrite Hq3. cbn [self trace user_ns fst] in *.
  rewrite <- !app_assoc. cbn [app].
  destruct r3 as [js3 | e |].
  2: { exists (Raise e), (ESleep 1000 :: evs3).
       split; [reflexivity |]. split; [exact Hc3 |].
       split; [intros e' He'; discriminate | intros _ _ js' He'; discriminate]. }
  2: { exists Diverges, (ESleep 1000 :: evs3).
       split; [reflexivity |]. split; [exact Hc3 |].
       split; [intros e' He'; discriminate | intros _ _ js' He'; discriminate]. }
  rewrite bind_run. unfold modify at 1. cbn [self trace user_ns].
  match goal with
  | |- context [when (negb silent) ?m ?s] =>
      destruct (slurm_wait_tail silent js3 s j) as (pre & Ht & Hd & Hc)
  end.
  { cbn. exact Ej2. }
  rewrite Ht. clear Ht. cbn [self trace user_ns].
  rewrite <- !app_assoc. cbn [app].
  exists (Ok tt),
    (ESleep 1000 :: evs3 ++ pre ++
       (if silent then []
        else [EStdout ("End batch job " +:+ Py.str j +:+ " Status: "
                         +:+ js3 +:+ nl); EStdoutFlush])).
  split; [reflexivity |]. split; [| split].
  - change (ESleep 1000 :: ?l) with ([ESleep 1000] ++ l).
    rewrite !calls_app, Hc3, Hc. destruct silent; reflexivity.
  - intros e' He'; discriminate.
  - intros _ _ js' Hjs. inversion Hjs; subst js'. split; [reflexivity |].
    intros ->. exists (ESleep 1000 :: evs3 ++ pre).
    cbn [app]. rewrite <- !app_assoc. reflexivity.
Qed.

Lemma slurm_wait_interrupted_witness :
  let env := Cases.interrupted_wait in
  let st := Cases.submitted_4242 in
  let st1 := snd (SlurmMgr._get_job_state env st) in
  let st2 := snd (SlurmMgr.poll_loop env 5 false "RUNNING" st1) in
  _is_started (self st) = true /\
  _jobid (self st) = Some 4242 /\
  SlurmMgr._get_job_state env st = (Ok "RUNNING", st1) /\
  SlurmMgr.poll_loop env 5 false "RUNNING" st1 = (Raise KeyboardInterrupt, st2) /\
  exists r evs,
    SlurmMgr.wait_progress env 5 false st
    = (r, {| self := (match r with
                      | Ok _ => set_is_terminated true
                      | _ => fun m => m
                      end) (self st2);
             trace := trace st2 ++
                        [EStdout ("Terminate job " +:+ Py.str 4242 +:+ " " +:+ nl);
                         EStdoutFlush] ++
                        ECheckCall ["scancel"; Py.str 4242] :: evs;
             user_ns := user_ns st2 |}) /\
    calls evs = [].
Proof.
  intros env st st1 st2.
  assert (Hs : _is_started (self st) = true) by (vm_compute; reflexivity).
  assert (Hj : _jobid (self st) = Some 4242) by (vm_compute; reflexivity).
  assert (Hq : SlurmMgr._get_job_state env st = (Ok "RUNNING", st1))
    by (vm_compute; reflexivity).
  assert (Hl : SlurmMgr.poll_loop env 5 false "RUNNING" st1
               = (Raise KeyboardInterrupt, st2))
    by (vm_compute; reflexivity).
  split; [exact Hs |]. split; [exact Hj |]. split; [exact Hq |]. split; [exact Hl |].
  destruct (slurm_wait_interrupted env 5 false st st1 st2 4242 "RUNNING" Hs Hj Hq Hl)
    as (r & evs & Hrun & Hcalls & _).
  exists r, evs. split; [exact Hrun | exact Hcalls].
Defined.
(** *** The options of setup.py *)

Lemma find_prefix (a pre : string) : (Py.find a pre =? 0) = String.prefix pre a.
Proof.
  unfold Py.find. destruct a as [| c a].
  - destruct pre; reflexivity.
  - cbn [String.index].
    destruct (String.prefix pre (String c a)); [reflexivity |].
    destruct (String.index 0 pre a); [| reflexivity].
    apply Z.eqb_neq. lia.
Qed.

Lemma prefix_split (pre a : string) :
  String.prefix pre a = true -> exists v, a = pre +:+ v.
Proof.
  revert a. induction pre as [| c pre IH]; intros a H.
  - exists a. reflexivity.
  - destruct a as [| c' a]; [discriminate |]. cbn [String.prefix] in H.
    destruct (ascii_dec c c') as [<- |]; [| discriminate].
    destruct (IH a H) as [v ->]. exists v. reflexivity.
Qed.

Lemma is_mgr_option_value v : is_mgr_option ("--workloadmanager=" +:+ v) = true.
Proof. unfold is_mgr_option. rewrite find_prefix. apply prefix_app. Qed.

Lemma is_cmd_args_option_value v :
  is_cmd_args_option ("--workloadmanagercmdargs=" +:+ v) = true.
Proof. unfold is_cmd_args_option. rewrite find_prefix. apply prefix_app. Qed.

(** No argument is both options. *)
Lemma options_disjoint a : is_mgr_option a = true -> is_cmd_args_option a = false.
Proof.
  unfold is_mgr_option, is_cmd_args_option. rewrite !find_prefix.
  intros H. destruct (prefix_split _ _ H) as [v ->].
  reflexivity.
Qed.

(** Joining what was split gives the string back. *)
Lemma join_split (sep : ascii) (s : string) :
  Py.join (String sep EmptyString) (Py.split sep s) = s.
Proof.
  unfold Py.join. induction s as [| c s IH]; [reflexivity |].
  cbn [Py.split].
  pose proof (split_nonempty sep s) as Hne.
  destruct (Py.split sep s) as [| w ws]; [congruence |].
  destruct (Ascii.eqb_spec c sep) as [-> | Hc].
  - cbn [String.concat]. cbn [String.concat] in IH. rewrite IH. reflexivity.
  - cbn [String.concat] in *. destruct ws as [| w' ws].
    + rewrite IH. reflexivity.
    + rewrite append_String, IH. reflexivity.
Qed.

Lemma mgr_option_split v :
  Py.split "=" ("--workloadmanager=" +:+ v)
  = "--workloadmanager" :: Py.split "=" v.
Proof.
  rewrite !append_String. change (EmptyString +:+ v) with v.
  cbn [Py.split Ascii.eqb Bool.eqb].
  pose proof (split_nonempty "=" v) as Hne.
  destruct (Py.split "=" v); [congruence | reflexivity].
Qed.

Lemma cmd_args_option_split v :
  Py.split "=" ("--workloadmanagercmdargs=" +:+ v)
  = "--workloadmanagercmdargs" :: Py.split "=" v.
Proof.
  rewrite !append_String. change (EmptyString +:+ v) with v.
  cbn [Py.split Ascii.eqb Bool.eqb].
  pose proof (split_nonempty "=" v) as Hne.
  destruct (Py.split "=" v); [congruence | reflexivity].
Qed.

(** The value kept for the manager: what follows the option name, up to
    the next [=]. *)
Lemma mgr_option_item v :
  nth_error (Py.split "=" ("--workloadmanager=" +:+ v)) 1
  = Some (hd EmptyString (Py.split "=" v)).
Proof.
  rewrite mgr_option_split. cbn [nth_error].
  pose proof (split_nonempty "=" v) as Hne.
  destruct (Py.split "=" v); [congruence | reflexivity].
Qed.

(** The value kept for the arguments: all that follows the option name. *)
Lemma cmd_args_option_rest v :
  Py.join "=" (tl (Py.split "=" ("--workloadmanagercmdargs=" +:+ v))) = v.
Proof. rewrite cmd_args_option_split. cbn [tl]. apply join_split. Qed.

(** Removing an option that is the first option left in the list. *)
Lemma list_remove_first_option x t : forall l,
  is_setup_option x = true ->
  List.filter is_setup_option l = x :: t ->
  exists l',
    Setup.list_remove x l = Some l' /\
    List.filter is_setup_option l' = t /\
    List.filter (fun a => negb (is_setup_option a)) l'
    = List.filter (fun a => negb (is_setup_option a)) l.
Proof.
  intros l Hx. induction l as [| y l IH]; cbn [List.filter]; [discriminate |].
  destruct (is_setup_option y) eqn:Hy; cbn [negb Setup.list_remove].
  - intros H. inversion H; subst. rewrite String.eqb_refl.
    exists l. repeat split.
  - intros H. destruct (IH H) as (l' & Hr & Hf & Hn).
    destruct (String.eqb_spec y x) as [-> | _]; [congruence |].
    rewrite Hr. exists (y :: l'). cbn [option_map List.filter].
    rewrite Hy, Hf, Hn. repeat split.
Qed.

Lemma filter_no_option l :
  List.filter is_setup_option l = [] ->
  List.filter (fun a => negb (is_setup_option a)) l = l.
Proof.
  induction l as [| y l IH]; cbn [List.filter]; [reflexivity |].
  destruct (is_setup_option y); [discriminate |].
  intros H. cbn [negb]. rewrite (IH H). reflexivity.
Qed.

(** The loop, started with a list [sys_argv] whose options are those still
    to be scanned. *)
Lemma setup_scan_spec : forall args v,
  List.filter is_setup_option (Setup.sys_argv v) = List.filter is_setup_option args ->
  exists m c,
    Setup.scan args v
    = Ok {| Setup.USER_DEFAULT_MGR := m;
            Setup.USER_DEFAULT_CMD_ARGS := c;
            Setup.sys_argv :=
              List.filter (fun a => negb (is_setup_option a)) (Setup.sys_argv v) |} /\
    (forallb (fun a => negb (is_mgr_option a)) args = true ->
     m = Setup.USER_DEFAULT_MGR v) /\
    (forall pre val post,
       args = pre ++ ("--workloadmanager=" +:+ val) :: post ->
       forallb (fun a => negb (is_mgr_option a)) post = true ->
       m = hd EmptyString (Py.split "=" val)) /\
    (forallb (fun a => negb (is_cmd_args_option a)) args = true ->
     c = Setup.USER_DEFAULT_CMD_ARGS v) /\
    (forall pre val post,
       args = pre ++ ("--workloadmanagercmdargs=" +:+ val) :: post ->
       forallb (fun a => negb (is_cmd_args_option a)) post = true ->
       c = val).
Proof.
  induction args as [| arg rest IH]; intros v Hf.
  - cbn [List.filter] in Hf. exists (Setup.USER_DEFAULT_MGR v), (Setup.USER_DEFAULT_CMD_ARGS v).
    rewrite (filter_no_option _ Hf). destruct v. cbn.
    split; [reflexivity |]. split; [reflexivity |].
    split; [intros pre val post H; destruct pre; discriminate |].
    split; [reflexivity |]. intros pre val post H; destruct pre; discriminate.
  - cbn [Setup.scan]. unfold Setup.scan_arg.
    change (Py.find arg "--workloadmanager=" =? 0) with (is_mgr_option arg).
    change (Py.find arg "--workloadmanagercmdargs=" =? 0)
      with (is_cmd_args_option arg).
    cbn [List.filter] in Hf. unfold is_setup_option at 2 in Hf.
    destruct (is_mgr_option arg) eqn:Em; [| destruct (is_cmd_args_option arg) eqn:Ec].
    + (* a manager option *)
      pose proof (options_disjoint arg Em) as Ec. rewrite Ec.
      cbn [orb] in Hf.
      assert (Ho : is_setup_option arg = true)
        by (unfold is_setup_option; rewrite Em; reflexivity).
      destruct (list_remove_first_option arg _ _ Ho Hf) as (l' & Hr & Hf' & Hn).
      assert (Hitem : exists m1, nth_error (Py.split "=" arg) 1 = Some m1).
      { destruct (prefix_split "--workloadmanager=" arg) as [val0 ->].
        - rewrite <- find_prefix. exact Em.
        - rewrite mgr_option_item. eauto. }
      destruct Hitem as [m1 Em1]. rewrite Em1.
      rewrite Hr.
      match goal with
      | |- context [Setup.scan rest ?v1] =>
          destruct (IH v1 Hf') as (m & c & Hrun & Hm0 & Hm1 & Hc0 & Hc1)
      end.
      cbn [Setup.sys_argv Setup.USER_DEFAULT_MGR Setup.USER_DEFAULT_CMD_ARGS] in *.
      exists m, c. rewrite Hrun, Hn.
      split; [reflexivity |]. split; [| split; [| split]].
      * cbn [forallb]. rewrite Em. discriminate.
      * intros pre val post Hargs Hpost. destruct pre as [| a0 pre].
        -- cbn [app] in Hargs. inversion Hargs; subst.
           rewrite mgr_option_item in Em1. inversion Em1; subst m1.
           apply Hm0. exact Hpost.
        -- cbn [app] in Hargs. inversion Hargs; subst.
           exact (Hm1 pre val post eq_refl Hpost).
      * cbn [forallb]. rewrite Ec. cbn [negb andb]. exact Hc0.
      * intros pre val post Hargs Hpost. destruct pre as [| a0 pre].
        -- cbn [app] in Hargs. inversion Hargs; subst.
           rewrite is_cmd_args_option_value in Ec. discriminate.
        -- cbn [app] in Hargs. inversion Hargs; subst.
           exact (Hc1 pre val post eq_refl Hpost).
    + (* an arguments option *)
      cbn [orb] in Hf.
      assert (Ho : is_setup_option arg = true)
        by (unfold is_setup_option; rewrite Em, Ec; reflexivity).
      destruct (list_remove_first_option arg _ _ Ho Hf) as (l' & Hr & Hf' & Hn).
      rewrite Hr.
      match goal with
      | |- context [Setup.scan rest ?v1] =>
          destruct (IH v1 Hf') as (m & c & Hrun & Hm0 & Hm1 & Hc0 & Hc1)
      end.
      cbn [Setup.sys_argv Setup.USER_DEFAULT_MGR Setup.USER_DEFAULT_CMD_ARGS] in *.
      exists m, c. rewrite Hrun, Hn.
      split; [reflexivity |]. split; [| split; [| split]].
      * cbn [forallb]. rewrite Em. cbn [negb andb]. exact Hm0.
      * intros pre val post Hargs Hpost. destruct pre as [| a0 pre].
        -- cbn [app] in Hargs. inversion Hargs; subst.
           rewrite is_mgr_option_value in Em. discriminate.
        -- cbn [app] in Hargs. inversion Hargs; subst.
           exact (Hm1 pre val post eq_refl Hpost).
      * cbn [forallb]. rewrite Ec. discriminate.
      * intros pre val post Hargs Hpost. destruct pre as [| a0 pre].
        -- cbn [app] in Hargs. inversion Hargs; subst.
           rewrite <- (cmd_args_option_rest val). apply Hc0. exact Hpost.
        -- cbn [app] in Hargs. inversion Hargs; subst.
           exact (Hc1 pre val post eq_refl Hpost).
    + (* any other argument *)
      cbn [orb] in Hf.
      destruct (IH v Hf) as (m & c & Hrun & Hm0 & Hm1 & Hc0 & Hc1).
      exists m, c. rewrite Hrun.
      split; [reflexivity |]. split; [| split; [| split]].
      * cbn [forallb]. rewrite Em. cbn [negb andb]. exact Hm0.
      * intros pre val post Hargs Hpost. destruct pre as [| a0 pre].
        -- cbn [app] in Hargs. inversion Hargs; subst.
           rewrite is_mgr_option_value in Em. discriminate.
        -- cbn [app] in Hargs. inversion Hargs; subst.
           exact (Hm1 pre val post eq_refl Hpost).
      * cbn [forallb]. rewrite Ec. cbn [negb andb]. exact Hc0.
      * intros pre val post Hargs Hpost. destruct pre as [| a0 pre].
        -- cbn [app] in Hargs. inversion Hargs; subst.
           rewrite is_cmd_args_option_value in Ec. discriminate.
        -- cbn [app] in Hargs. inversion Hargs; subst.
           exact (Hc1 pre val post eq_refl Hpost).
Qed.

(** X10: the loop of setup.py over the command line.  It never fails.
    When it is over, [sys.argv] is the command line without the arguments
    that start with [--workloadmanager=] or [--workloadmanagercmdargs=],
    the others in their order.  The default manager is taken from the last
    [--workloadmanager=] argument and is its value up to the first [=] in
    it; the default arguments are taken from the last
    [--workloadmanagercmdargs=] argument and are its whole value, [=]
    signs included.  Each stays the empty string when there is no such
    argument. *)
Theorem setup_options_scan (argv : list string) :
  exists m c,
    Setup.options argv
    = Ok {| Setup.USER_DEFAULT_MGR := m;
            Setup.USER_DEFAULT_CMD_ARGS := c;
            Setup.sys_argv :=
              List.filter (fun a => negb (is_setup_option a)) argv |} /\
    (forallb (fun a => negb (is_mgr_option a)) argv = true -> m = EmptyString) /\
    (forall pre val post,
       argv = pre ++ ("--workloadmanager=" +:+ val) :: post ->
       forallb (fun a => negb (is_mgr_option a)) post = true ->
       m = hd EmptyString (Py.split "=" val)) /\
    (forallb (fun a => negb (is_cmd_args_option a)) argv = true ->
     c = EmptyString) /\
    (forall pre val post,
       argv = pre ++ ("--workloadmanagercmdargs=" +:+ val) :: post ->
       forallb (fun a => negb (is_cmd_args_option a)) post = true ->
       c = val).
Proof.
  unfold Setup.options.
  match goal with
  | |- context [Setup.scan argv ?v0] =>
      destruct (setup_scan_spec argv v0 eq_refl) as (m & c & H)
  end.
  exists m, c. exact H.
Qed.
(** *** The result files of a cluster job, from construction to reading *)

Lemma keeps_files_ret {A} (a : A) : keeps_files (ret a).
Proof. intros st. split; reflexivity. Qed.

Lemma keeps_files_raise {A} e : keeps_files (@raise A e).
Proof. intros st. split; reflexivity. Qed.

Lemma keeps_files_bind {A B} (m : M A) (k : A -> M B) :
  keeps_files m -> (forall a, keeps_files (k a)) -> keeps_files (bind m k).
Proof.
  intros Hm Hk st. rewrite bind_run.
  destruct (Hm st) as [H1 H2]. destruct (m st) as [[a | e |] st1]; cbn [snd] in *.
  - destruct (Hk a st1) as [H3 H4]. rewrite H3, H4. split; assumption.
  - split; assumption.
  - split; assumption.
Qed.

Lemma keeps_files_try {A} (body : M A) handler :
  keeps_files body ->
  (forall e h, handler e = Some h -> keeps_files h) ->
  keeps_files (try_except body handler).
Proof.
  intros Hb Hh st. unfold try_except.
  destruct (Hb st) as [H1 H2]. destruct (body st) as [[a | e |] st1]; cbn [snd] in *.
  - split; assumption.
  - destruct (handler e) as [h |] eqn:Eh; [| split; assumption].
    destruct (Hh e h Eh st1) as [H3 H4]. rewrite H3, H4. split; assumption.
  - split; assumption.
Qed.

Lemma keeps_files_when b (m : M unit) : keeps_files m -> keeps_files (when b m).
Proof. destruct b; [trivial | intros _; apply keeps_files_ret]. Qed.

Lemma keeps_files_gets {A} (f : mgr -> A) : keeps_files (gets f).
Proof. intros st. split; reflexivity. Qed.

Lemma keeps_files_getattr {A} (f : mgr -> option A) : keeps_files (getattr f).
Proof. intros st. unfold getattr. destruct (f (self st)); split; reflexivity. Qed.

Lemma keeps_files_call {A} e (oracle : list event -> result A) :
  keeps_files (call e oracle).
Proof. intros st. split; reflexivity. Qed.

Lemma keeps_files_emit e : keeps_files (emit e).
Proof. intros st. split; reflexivity. Qed.

Lemma keeps_files_ns_set k v : keeps_files (ns_set k v).
Proof. intros st. split; reflexivity. Qed.

Lemma keeps_files_modify (f : mgr -> mgr) :
  (forall m, cmd (f m) = cmd m /\ _outerr_files (f m) = _outerr_files m) ->
  keeps_files (modify f).
Proof. intros Hf st. exact (Hf (self st)). Qed.

Lemma keeps_files_steps_only {A} (m : M A) : steps_only m -> keeps_files m.
Proof.
  intros Hm st. destruct (Hm st) as (r & kw & kr & evs & -> & _).
  split; reflexivity.
Qed.

Lemma keeps_files_interrupt env : keeps_files (BaseMgr._interrupt env).
Proof.
  intros st. destruct (interrupt_frame env st) as (r & evs & ->).
  split; reflexivity.
Qed.

Ltac keeps_files_tac :=
  repeat first
    [ apply keeps_files_ret
    | apply keeps_files_raise
    | apply keeps_files_gets
    | apply keeps_files_getattr
    | apply keeps_files_call
    | apply keeps_files_emit
    | apply keeps_files_ns_set
    | apply keeps_files_interrupt
    | apply keeps_files_when
    | apply keeps_files_modify; intros ?; split; reflexivity
    | apply keeps_files_bind; [| intros ?] ].

(** [submit] keeps the command and the template. *)
Lemma keeps_files_slurm_submit env content :
  keeps_files (SlurmMgr.submit env content).
Proof.
  unfold SlurmMgr.submit.
  apply keeps_files_bind; [apply keeps_files_gets | intros sb].
  apply keeps_files_bind; [| intros r].
  - apply keeps_files_try.
    + unfold p_communicate. keeps_files_tac.
    + intros e h He. destruct e; try discriminate.
      inversion He; subst h. keeps_files_tac.
  - destruct r as [[o e] |]; [| apply keeps_files_ret].
    apply keeps_files_bind; [keeps_files_tac | intros _].
    apply keeps_files_bind; [| intros _; apply keeps_files_ret].
    destruct (Py.find o "Submitted batch job" =? 0).
    + destruct (Py.int _); [| apply keeps_files_raise].
      unfold stderr_write. keeps_files_tac.
    + unfold stderr_write. keeps_files_tac.
Qed.

(** So does [wait_progress]. *)
Lemma keeps_files_slurm_wait env fuel silent :
  keeps_files (SlurmMgr.wait_progress env fuel silent).
Proof.
  unfold SlurmMgr.wait_progress.
  apply keeps_files_bind; [apply keeps_files_gets | intros started].
  apply keeps_files_when.
  apply keeps_files_bind;
    [apply keeps_files_steps_only, steps_only_get_job_state | intros js].
  apply keeps_files_bind; [| intros js'].
  - apply keeps_files_try.
    + apply keeps_files_steps_only, steps_only_poll_loop.
    + intros e h He. destruct e; try discriminate.
      inversion He; subst h.
      unfold stdout_write, stdout_flush, subprocess_check_call, time_sleep.
      apply keeps_files_bind; [apply keeps_files_getattr | intros j].
      do 4 (apply keeps_files_bind; [keeps_files_tac | intros _]).
      apply keeps_files_steps_only, steps_only_get_job_state.
  - unfold stdout_write, stdout_flush. keeps_files_tac.
Qed.
(** What a successful [SlurmMgr.__init__] leaves on the instance. *)
Lemma slurm_init_layout env args shell (st : state) :
  fst (SlurmMgr.__init__ env args shell st) = Ok tt ->
  exists a rest f,
    slurm_parser env args = Ok (a, rest) /\
    match _DEFAULT_SLURM_OUTERR_FILE env with
    | Some t => f = t
    | None => exists home, environ_HOME env = Some home /\
                           f = Py.path_join home "python-execute-slurm.%J"
    end /\
    _outerr_files (self (snd (SlurmMgr.__init__ env args shell st))) = f /\
    cmd (self (snd (SlurmMgr.__init__ env args shell st)))
    = ["sbatch"; "-n"; "1"] ++ rest ++
        ["--output=" +:+ f +:+ ".out"; "--error=" +:+ f +:+ ".err"].
Proof.
  destruct (SlurmMgr.__init__ env args shell st) as [r s] eqn:ER.
  cbn [fst snd]. intros ->.
  unfold SlurmMgr.__init__ in ER.
  rewrite bind_run in ER.
  destruct (BaseMgr.__init__ shell st) as [[[] | e |] st1];
    [| discriminate ..].
  rewrite bind_run in ER.
  (* the template of the result files *)
  assert (Ht : exists f,
             match _DEFAULT_SLURM_OUTERR_FILE env with
             | Some t => f = t
             | None => exists home, environ_HOME env = Some home /\
                                    f = Py.path_join home "python-execute-slurm.%J"
             end /\
             forall (k : unit -> M unit),
               match
                 match _DEFAULT_SLURM_OUTERR_FILE env with
                 | Some f => modify (set_outerr_files f)
                 | None =>
                     match environ_HOME env with
                     | Some home =>
                         modify (set_outerr_files
                                   (Py.path_join home "python-execute-slurm.%J"))
                     | None => raise KeyError
                     end
                 end st1
               with
               | (Ok a, st') => k a st'
               | (Raise e, st') => (Raise e, st')
               | (Diverges, st') => (Diverges, st')
               end = (Ok tt, s) ->
               k tt {| self := set_outerr_files f (self st1);
                       trace := trace st1; user_ns := user_ns st1 |}
               = (Ok tt, s)).
  { destruct (_DEFAULT_SLURM_OUTERR_FILE env) as [t |].
    - exists t. split; [reflexivity |]. intros k H. exact H.
    - destruct (environ_HOME env) as [home |].
      + eexists. split; [eauto |]. intros k H. exact H.
      + exists EmptyString. split; [| intros k H; discriminate].
        exfalso. discriminate. }
  destruct Ht as (f & Hf & Hk). apply Hk in ER. clear Hk.
  rewrite bind_run in ER. unfold lift in ER.
  destruct (slurm_parser env args) as [[a rest] | e |]; [| discriminate ..].
  cbn [fst snd] in ER.
  exists a, rest, f.
  split; [reflexivity |]. split; [exact Hf |]. clear Hf.
  rewrite bind_run in ER. unfold gets at 1 in ER.
  do 4 (rewrite bind_run in ER; unfold modify at 1 in ER).
  rewrite bind_run in ER. unfold gets at 1 in ER.
  rewrite bind_run, spawn_or_report_run in ER.
  destruct (Popen env _ _) as [n | e |]; [| | discriminate].
  - unfold ret in ER. inversion ER. split; reflexivity.
  - destruct e; try discriminate.
    destruct (errno =? ENOENT); [| discriminate].
    unfold ret in ER. inversion ER. split; reflexivity.
Qed.
(** A status query opens no file. *)
Lemma get_job_state_opens_nothing env (st : state) :
  exists r evs,
    SlurmMgr._get_job_state env st
    = (r, {| self := self st; trace := trace st ++ evs; user_ns := user_ns st |}) /\
    opened evs = [].
Proof.
  cbv [SlurmMgr._get_job_state bind getattr subprocess_check_output call ret log].
  destruct (_jobid (self st)) as [j |].
  2: { exists (Raise AttributeError), []. rewrite app_nil_r. destruct st. split; reflexivity. }
  cbn [self trace user_ns].
  destruct (check_output env (trace st) _) as [s | e |].
  2, 3: eexists _, [_]; split; reflexivity.
  destruct (String.eqb s EmptyString).
  - eexists _, [_; _]. cbn [self trace user_ns]. rewrite <- app_assoc.
    split; reflexivity.
  - eexists _, [_]. split; reflexivity.
Qed.

(** The files [get_output] opens: the output file, then the error file,
    named after the template kept on the instance. *)
Lemma slurm_get_output_opens env (st : state) j :
  _jobid (self st) = Some j ->
  let job_f := Py.replace (_outerr_files (self st)) "%J" (Py.str j) in
  exists evs,
    trace (snd (SlurmMgr.get_output env st)) = trace st ++ evs /\
    (opened evs = [] \/
     opened evs = [job_f +:+ ".out"] \/
     opened evs = [job_f +:+ ".out"; job_f +:+ ".err"]).
Proof.
  intros Hj job_f.
  unfold SlurmMgr.get_output.
  rewrite bind_run. unfold gets at 1.
  destruct (_is_started (self st)).
  2: { rewrite bind_run. exists []. rewrite app_nil_r. split; [reflexivity | now left]. }
  rewrite bind_run. unfold getattr at 1.
  destruct (_is_terminated (self st)) as [[|] |].
  2, 3: exists []; rewrite app_nil_r; split; [reflexivity | now left].
  rewrite bind_run.
  destruct (get_job_state_opens_nothing env st) as (r & evs0 & -> & Ho).
  destruct r as [js | e |].
  2, 3: exists evs0; split; [reflexivity | now left].
  cbv [bind gets getattr when stderr_write stderr_flush emit ret try_except
         read_file call log modify SlurmMgr.load_local raise].
  cbn [self trace user_ns fst snd]. rewrite ?Hj.
  destruct (Py.find js "COMPLETED" <? 0);
    repeat progress (cbn [self trace user_ns fst snd]; rewrite ?Hj);
    fold job_f;
    destruct (out (self st)), (err (self st));
    repeat progress (cbn [self trace user_ns fst snd]; rewrite ?Hj);
    fold job_f.
  all: try (eexists; split;
            [rewrite <- ?app_assoc; reflexivity
            | left; rewrite ?opened_app, Ho; reflexivity]).
  all: repeat match goal with
         | |- context [open_read ?e ?h ?f] =>
             destruct (open_read e h f) as [? | [] |];
             cbn [self trace user_ns fst snd]
         | |- context [?n =? ENOENT] =>
             destruct (n =? ENOENT); cbn [self trace user_ns fst snd]
         end.
  all: rewrite <- ?app_assoc.
  all: eexists; (split; [reflexivity |]).
  all: rewrite ?opened_app, ?Ho; cbn [opened flat_map app].
  all: first [now left | now (right; left) | now (right; right)].
Qed.
(** X11: the result files of a cluster job, from construction to reading.
    After a successful [SlurmMgr.__init__], whatever [submit] and
    [wait_progress] then do, the command kept on the instance is still
    [sbatch -n 1], the remaining arguments of the magic line, then
    [--output=<f>.out] and [--error=<f>.err], where [<f>] is the configured
    template or, when none is configured, [python-execute-slurm.%J] in the
    home directory (which must then be set); and the only files
    [get_output] ever opens are those two, with [%J] replaced by the job
    id: the output file first, the error file only after it. *)
Theorem slurm_result_files_agree env args shell content fuel silent (st0 : state) :
  fst (SlurmMgr.__init__ env args shell st0) = Ok tt ->
  let st1 := snd (SlurmMgr.__init__ env args shell st0) in
  let st2 := snd (SlurmMgr.submit env content st1) in
  let st3 := snd (SlurmMgr.wait_progress env fuel silent st2) in
  exists a rest f,
    slurm_parser env args = Ok (a, rest) /\
    match _DEFAULT_SLURM_OUTERR_FILE env with
    | Some t => f = t
    | None => exists home, environ_HOME env = Some home /\
                           f = Py.path_join home "python-execute-slurm.%J"
    end /\
    cmd (self st3)
    = ["sbatch"; "-n"; "1"] ++ rest ++
        ["--output=" +:+ f +:+ ".out"; "--error=" +:+ f +:+ ".err"] /\
    forall j,
      _jobid (self st3) = Some j ->
      let job_f := Py.replace f "%J" (Py.str j) in
      exists evs,
        trace (snd (SlurmMgr.get_output env st3)) = trace st3 ++ evs /\
        (opened evs = [] \/
         opened evs = [job_f +:+ ".out"] \/
         opened evs = [job_f +:+ ".out"; job_f +:+ ".err"]).
Proof.
  intros Hinit st1 st2 st3.
  destruct (slurm_init_layout env args shell st0 Hinit)
    as (a & rest & f & Hparse & Hf & Hfiles & Hcmd).
  fold st1 in Hfiles, Hcmd.
  destruct (keeps_files_slurm_submit env content st1) as [Hc2 Hf2].
  fold st2 in Hc2, Hf2.
  destruct (keeps_files_slurm_wait env fuel silent st2) as [Hc3 Hf3].
  fold st3 in Hc3, Hf3.
  exists a, rest, f.
  split; [exact Hparse |]. split; [exact Hf |].
  split; [rewrite Hc3, Hc2; exact Hcmd |].
  intros j Hj job_f.
  assert (Ht : _outerr_files (self st3) = f) by (rewrite Hf3, Hf2; exact Hfiles).
  pose proof (slurm_get_output_opens env st3 j Hj) as Ho.
  cbv zeta in Ho. rewrite Ht in Ho. exact Ho.
Qed.

Lemma slurm_result_files_agree_witness :
  let env := Sample.cluster in
  let st0 := {| self := new_object SlurmMgr; trace := []; user_ns := ∅ |} in
  let st1 := snd (SlurmMgr.__init__ env ["-p"; "short"] "/bin/bash" st0) in
  let st2 := snd (SlurmMgr.submit env "echo hello" st1) in
  let st3 := snd (SlurmMgr.wait_progress env 3 true st2) in
  fst (SlurmMgr.__init__ env ["-p"; "short"] "/bin/bash" st0) = Ok tt /\
  exists a rest f,
    slurm_parser env ["-p"; "short"] = Ok (a, rest) /\
    cmd (self st3)
    = ["sbatch"; "-n"; "1"] ++ rest ++
        ["--output=" +:+ f +:+ ".out"; "--error=" +:+ f +:+ ".err"].
Proof.
  intros env st0 st1 st2 st3.
  assert (H : fst (SlurmMgr.__init__ env ["-p"; "short"] "/bin/bash" st0) = Ok tt)
    by (vm_compute; reflexivity).
  split; [exact H |].
  destruct (slurm_result_files_agree env ["-p"; "short"] "/bin/bash" "echo hello"
              3 true st0 H)
    as (a & rest & f & Hp & _ & Hcmd & _).
  exists a, rest, f. split; [exact Hp | exact Hcmd].
Defined.
